(** * BakkesMod plugin updater: a shallow embedding of
      [bakkesmod_plugin_updater.pyw] and the properties of its update run.

    The program is a linear sequence of file-system operations started from a
    one-shot GUI action.  Python strings are modelled as [string], the global
    [settings] dict as an ordered association list, the operating system as a
    type class [OS] over an abstract world, and the statements of the program
    in a small state-and-exception monad whose state carries the world, the
    settings dict, the log file and the trace of externally visible effects. *)

From Stdlib Require Import String Ascii List Bool Arith ZArith QArith Lia.
Import ListNotations.
Local Open Scope list_scope.
Local Open Scope string_scope.

Set Implicit Arguments.

(* ===================================================================== *)
(** ** Python [str] operations used by the program *)
(* ===================================================================== *)

Module PyStr.

(** The line feed, the double quote and the backslash-separated pieces are
    built from character codes. *)
Definition LF : ascii := "010"%char.
Definition nl : string := String LF EmptyString.
Definition dquote : string := String "034"%char EmptyString.

(** [s[n:]] *)
Fixpoint drop (n : nat) (s : string) : string :=
  match n, s with
  | O, _ => s
  | S _, EmptyString => EmptyString
  | S n', String _ s' => drop n' s'
  end.

(** [sub in s]: some suffix of [s] starts with [sub]. *)
Fixpoint contains (sub s : string) : bool :=
  prefix sub s ||
  match s with
  | EmptyString => false
  | String _ s' => contains sub s'
  end.

(** [s.endswith(p)] *)
Fixpoint endswith (p s : string) : bool :=
  String.eqb p s ||
  match s with
  | EmptyString => false
  | String _ s' => endswith p s'
  end.

(** [s.replace(old, new)] for a non-empty [old]: scanning from the left, each
    occurrence of [old] that does not overlap an earlier one is replaced.
    [skip] counts the characters of the current occurrence still to pass. *)
Fixpoint replace_from (old new : string) (skip : nat) (s : string) : string :=
  match s with
  | EmptyString => EmptyString
  | String c s' =>
      match skip with
      | S k => replace_from old new k s'
      | O =>
          if prefix old s
          then new ++ replace_from old new (String.length old - 1) s'
          else String c (replace_from old new 0 s')
      end
  end.

(** [s.replace('', new)] puts [new] before every character and at the end. *)
Fixpoint replace_empty (new s : string) : string :=
  match s with
  | EmptyString => new
  | String c s' => new ++ String c (replace_empty new s')
  end.

Definition replace (old new s : string) : string :=
  match old with
  | EmptyString => replace_empty new s
  | String _ _ => replace_from old new 0 s
  end.

(** [s.partition(sep)] restricted to its hit case: the text before and after
    the first occurrence of [sep], [None] when there is none. *)
Fixpoint cut (sep s : string) : option (string * string) :=
  if prefix sep s then Some (EmptyString, drop (String.length sep) s)
  else
    match s with
    | EmptyString => None
    | String c s' =>
        match cut sep s' with
        | Some (a, b) => Some (String c a, b)
        | None => None
        end
    end.

(** [s.split(sep, 1)] for a non-empty [sep]: one field when [sep] does not
    occur, two otherwise. *)
Definition split1 (sep s : string) : list string :=
  match cut sep s with
  | Some (a, b) => [a; b]
  | None => [s]
  end.

(** [file.readlines()] on the text of a file opened in text mode (newlines
    already translated to LF): every line keeps its terminating LF, the last
    line has none when the text does not end in one. *)
Fixpoint readlines (text : string) : list string :=
  match text with
  | EmptyString => []
  | String c text' =>
      if Ascii.eqb c LF then nl :: readlines text'
      else
        match readlines text' with
        | [] => [String c EmptyString]
        | l :: ls => String c l :: ls
        end
  end.

(** ASCII lower-casing, as [os.path.normcase] applies it on Windows. *)
Definition lower_ascii (c : ascii) : ascii :=
  let n := nat_of_ascii c in
  if (65 <=? n)%nat && (n <=? 90)%nat then ascii_of_nat (n + 32) else c.

Fixpoint lower (s : string) : string :=
  match s with
  | EmptyString => EmptyString
  | String c s' => String (lower_ascii c) (lower s')
  end.

End PyStr.

Import PyStr.

(* ===================================================================== *)
(** ** The settings dict *)
(* ===================================================================== *)

(** A Python dict with string keys and values; iteration follows insertion
    order, which an association list without repeated keys keeps. *)
Definition dict := list (string * string).

(** [k in d] *)
Definition dict_mem (k : string) (d : dict) : bool :=
  existsb (fun kv => String.eqb k (fst kv)) d.

(** [d[k]]: [None] stands for [KeyError]. *)
Fixpoint dict_get (k : string) (d : dict) : option string :=
  match d with
  | [] => None
  | (k', v) :: d' => if String.eqb k k' then Some v else dict_get k d'
  end.

(** [d[k] = v]: an existing key keeps its place, a new one goes last. *)
Fixpoint dict_set (k v : string) (d : dict) : dict :=
  match d with
  | [] => [(k, v)]
  | (k', v') :: d' =>
      if String.eqb k k' then (k', v) :: d' else (k', v') :: dict_set k v d'
  end.

(** [list(d)]: the keys, in iteration order. *)
Definition dict_keys (d : dict) : list string := map fst d.

(** [DOWNLOAD_DIR], [BAKKESMOD_DIR], [PLUGINS_URL] and the module-level
    [settings], for given values of the two environment variables. *)
Definition DOWNLOAD_DIR (USERPROFILE : string) : string :=
  USERPROFILE ++ "\Downloads".
Definition BAKKESMOD_DIR (APPDATA : string) : string :=
  APPDATA ++ "\bakkesmod\bakkesmod".
Definition PLUGINS_URL : string :=
  "https://bakkesplugins.com/plugins/download/26".

Definition settings_default (USERPROFILE APPDATA : string) : dict :=
  [("download_dir", DOWNLOAD_DIR USERPROFILE);
   ("bakkesmod_dir", BAKKESMOD_DIR APPDATA)].

(* ===================================================================== *)
(** ** Exceptions, log records, visible effects *)
(* ===================================================================== *)

Inductive exn : Type :=
| ValueError (msg : string)
| UnicodeDecodeError (msg : string)
| KeyError (key : string)
| OSError (path : string).

(** The outcome of running a piece of the program: a value, an exception
    that left it, or [Blocked] when the polling loop of [downloadPlugins]
    was still running after the number of iterations that were observed. *)
Inductive result (A : Type) : Type :=
| Ok (a : A)
| Raise (e : exn)
| Blocked.
Arguments Raise {A} e.
Arguments Blocked {A}.

Inductive level : Type := INFO | WARNING | ERROR.

(** What the run does to the outside, in order of occurrence. *)
Inductive event : Type :=
| EvPopen (cmd : string)              (* subprocess.Popen(cmd, shell=True) *)
| EvPopenWait (args : list string)    (* Popen(args=.., shell=True); wait() *)
| EvGlob (pattern : string)           (* glob.glob(pattern) *)
| EvCopy (src dst : string)           (* shutil.copy(src, dst) *)
| EvRemove (path : string)            (* os.remove(path) *)
| EvRmtree (path : string)            (* shutil.rmtree(path) *)
| EvShowError (message : string)      (* tkinter.messagebox.showerror *)
| EvShowInfo (message : string)       (* tkinter.messagebox.showinfo *)
| EvAfterIdleUpdate (progress : Q)    (* root.after_idle(self.update, p) *)
| EvQuit.                             (* root.quit() *)

(* ===================================================================== *)
(** ** The operating system *)
(* ===================================================================== *)

(** The calls the program makes on the machine, over an abstract world [W].
    Calls that only inspect return what they see; calls that act return the
    world after them.  [listdir] and [remove] give [None] when Python raises
    the [OSError] of their argument; [copy] and [rmtree] may fail on more
    than one path (the source or the destination, an entry of the tree),
    so they give the exception itself.  Listing a directory and reading
    creation times are taken on one snapshot, so the creation time of a
    listed file is always there.  [read_error] is the exception with which
    opening a file in text mode and reading it fails, if it does: an
    [OSError] when the file cannot be opened, a [UnicodeDecodeError] when
    its bytes do not decode; [file_text] is the text of a file that can be
    read, as text mode delivers it, line ends translated to LF. *)
Class OS (W : Type) : Type := {
  path_exists : W -> string -> bool;              (* os.path.exists *)
  read_error : W -> string -> option exn;         (* open(p, 'r'), reading *)
  file_text : W -> string -> string;              (* open(p, 'r').read() *)
  listdir : W -> string -> option (list string);  (* os.listdir *)
  getctime : W -> string -> Z;                    (* os.path.getctime *)
  glob_pattern : W -> string -> list string;      (* glob.glob, see below *)
  popen : W -> string -> W;                       (* Popen, not waited for *)
  popen_wait : W -> list string -> W;             (* Popen, then wait() *)
  elapse : W -> W;             (* what others do between two polls *)
  copy : W -> string -> string -> exn + W;        (* shutil.copy *)
  remove : W -> string -> option W;               (* os.remove *)
  rmtree : W -> string -> exn + W                 (* shutil.rmtree *)
}.

(** [fnmatch] of a directory entry against [*.zip] as [glob] applies it on
    Windows: names are compared after [normcase], and a pattern that does not
    start with a dot skips the names that do. *)
Definition fnmatch_zip (name : string) : bool :=
  negb (prefix "." name) && endswith ".zip" (lower name).

(** The characters [glob] expands in a directory path. *)
Definition has_magic (s : string) : bool :=
  contains "*" s || contains "?" s || contains "[" s.

(** A directory path that [glob] takes literally, lists as it is and joins
    unchanged: not empty, no wildcard character, no trailing separator, not
    a bare drive. *)
Definition plain_dir (dir : string) : bool :=
  negb (String.eqb dir EmptyString)
  && negb (has_magic dir)
  && negb (endswith "\" dir) && negb (endswith "/" dir)
  && negb (endswith ":" dir).

(** [glob.glob(f"{dir}\\*.zip")].  For a plain [dir]: the matching entries
    of [dir], in listing order, each joined to [dir], and nothing when [dir]
    cannot be listed.  For any other [dir] the expansion of the pattern is
    left to the machine. *)
Definition glob_zip {W} `{OS W} (w : W) (dir : string) : list string :=
  if plain_dir dir then
    match listdir w dir with
    | Some names =>
        map (fun name => dir ++ "\" ++ name) (filter fnmatch_zip names)
    | None => []
    end
  else glob_pattern w (dir ++ "\*.zip").

(** [max(xs, key=key)]: the first element whose key no other exceeds;
    [None] stands for the [ValueError] on an empty sequence. *)
Definition max_by {A : Type} (key : A -> Z) (xs : list A) : option A :=
  match xs with
  | [] => None
  | x :: rest =>
      Some (fold_left (fun best y => if (key best <? key y)%Z then y else best)
                      rest x)
  end.

(* ===================================================================== *)
(** ** The program *)
(* ===================================================================== *)

Section Program.

Context {W : Type} {os : OS W}.

(** The mutable state of a run: the machine, the global [settings], the
    records written to [log.txt], and the effects so far. *)
Record state : Type := mkState {
  world : W;
  settings : dict;
  log : list (level * string);
  trace : list event
}.

Definition M (A : Type) : Type := state -> result A * state.

Definition ret {A} (a : A) : M A := fun s => (Ok a, s).

Definition bind {A B} (m : M A) (k : A -> M B) : M B :=
  fun s =>
    match m s with
    | (Ok a, s') => k a s'
    | (Raise e, s') => (Raise e, s')
    | (Blocked, s') => (Blocked, s')
    end.

Definition raise {A} (e : exn) : M A := fun s => (Raise e, s).
Definition blocked {A} : M A := fun s => (Blocked, s).

Notation "x <- c ;; k" := (bind c (fun x => k))
  (at level 61, c at next level, right associativity).
Notation "c ;; k" := (bind c (fun _ => k))
  (at level 61, right associativity).

(** A [for] loop whose body may [return]: the body yields [Some v] for
    [return v] and [None] to go on with the next element. *)
Fixpoint for_ {A R} (xs : list A) (body : A -> M (option R)) : M (option R) :=
  match xs with
  | [] => ret None
  | x :: xs' =>
      r <- body x ;;
      match r with
      | Some v => ret (Some v)
      | None => for_ xs' body
      end
  end.

Definition logging (lv : level) (msg : string) : M unit :=
  fun s => (Ok tt, mkState (world s) (settings s) (log s ++ [(lv, msg)])%list
                           (trace s)).

Definition emit (e : event) : M unit :=
  fun s => (Ok tt, mkState (world s) (settings s) (log s)
                           (trace s ++ [e])%list).

Definition set_world (w : W) : M unit :=
  fun s => (Ok tt, mkState w (settings s) (log s) (trace s)).

Definition get_world : M W := fun s => (Ok (world s), s).

(** Accesses to the global [settings]. *)
Definition settings_keys : M (list string) :=
  fun s => (Ok (dict_keys (settings s)), s).

Definition settings_mem (k : string) : M bool :=
  fun s => (Ok (dict_mem k (settings s)), s).

Definition settings_get (k : string) : M string :=
  fun s =>
    match dict_get k (settings s) with
    | Some v => (Ok v, s)
    | None => (Raise (KeyError k), s)
    end.

Definition settings_set (k v : string) : M unit :=
  fun s => (Ok tt, mkState (world s) (dict_set k v (settings s)) (log s)
                           (trace s)).

(** The calls on the machine, lifted to the monad. *)
Definition os_path_exists (p : string) : M bool :=
  w <- get_world ;; ret (path_exists w p).

Definition os_readlines (p : string) : M (list string) :=
  w <- get_world ;;
  match read_error w p with
  | Some e => raise e
  | None => ret (readlines (file_text w p))
  end.

Definition os_listdir (p : string) : M (list string) :=
  w <- get_world ;;
  match listdir w p with
  | Some names => ret names
  | None => raise (OSError p)
  end.

Definition glob_glob_zip (dir : string) : M (list string) :=
  emit (EvGlob (dir ++ "\*.zip")) ;;
  w <- get_world ;; ret (glob_zip w dir).

Definition subprocess_Popen (cmd : string) : M unit :=
  emit (EvPopen cmd) ;;
  w <- get_world ;; set_world (popen w cmd).

Definition subprocess_Popen_wait (args : list string) : M unit :=
  emit (EvPopenWait args) ;;
  w <- get_world ;; set_world (popen_wait w args).

Definition shutil_copy (src dst : string) : M unit :=
  emit (EvCopy src dst) ;;
  w <- get_world ;;
  match copy w src dst with
  | inr w' => set_world w'
  | inl e => raise e
  end.

Definition os_remove (p : string) : M unit :=
  emit (EvRemove p) ;;
  w <- get_world ;;
  match remove w p with
  | Some w' => set_world w'
  | None => raise (OSError p)
  end.

Definition shutil_rmtree (p : string) : M unit :=
  emit (EvRmtree p) ;;
  w <- get_world ;;
  match rmtree w p with
  | inr w' => set_world w'
  | inl e => raise e
  end.

(** The machine moves on while the program goes round its polling loop. *)
Definition next_poll : M unit :=
  w <- get_world ;; set_world (elapse w).

(** [read(file_dir)] *)
Definition read (file_dir : string) : M (list string) :=
  ex <- os_path_exists file_dir ;;
  if ex then
    contents <- os_readlines file_dir ;;
    logging INFO "Read file" ;;
    ret contents
  else
    logging WARNING ("Path does not exist: " ++ file_dir) ;;
    ret [].

(** The body of the first loop of [checkDependencies]. *)
Definition checkDependencies_file (_file : string) : M (option bool) :=
  ex <- os_path_exists _file ;;
  if negb ex then
    logging ERROR ("Path does not exist: " ++ _file) ;;
    ret (Some false)
  else ret None.

(** The body of its second loop, which only warns. *)
Definition checkDependencies_setting (_setting : string) : M (option bool) :=
  if contains "_dir" _setting then
    dir <- settings_get _setting ;;
    ex <- os_path_exists dir ;;
    if negb ex then
      logging WARNING ("Directory does not exist: (Default "
                       ++ _setting ++ ") " ++ dir) ;;
      ret None
    else ret None
  else ret None.

(** [checkDependencies()] *)
Definition checkDependencies : M bool :=
  logging INFO "Checking dependencies" ;;
  r <- for_ ["settings.txt"; "unzip_file.bat"] checkDependencies_file ;;
  match r with
  | Some b => ret b
  | None =>
      keys <- settings_keys ;;
      _ <- for_ keys checkDependencies_setting ;;
      logging INFO "Checking done" ;;
      ret true
  end.

(** [if line and line[0] != '#'] *)
Definition live_line (line : string) : bool :=
  match line with
  | EmptyString => false
  | String c _ => negb (Ascii.eqb c "#")
  end.

(** The body of the [for line in contents] loop of [loadSettings]. *)
Definition loadSettings_line (line : string) : M (option bool) :=
  let line := replace nl "" line in
  if live_line line then
    match split1 "=" line with
    | [setting; value] =>
        known <- settings_mem setting ;;
        if known then
          if contains "_dir" setting then
            ex <- os_path_exists value ;;
            if ex then
              settings_set setting value ;;
              logging INFO ("Using directory (Settings " ++ setting ++ ") "
                            ++ value) ;;
              ret None
            else
              cur <- settings_get setting ;;
              ex_cur <- os_path_exists cur ;;
              if negb ex_cur then
                logging ERROR ("Directory does not exist (Settings "
                               ++ setting ++ ") " ++ value) ;;
                logging ERROR ("Directory does not exist (Default "
                               ++ setting ++ ") " ++ cur) ;;
                ret (Some false)
              else
                logging WARNING ("Directory does not exist (Settings "
                                 ++ setting ++ ") " ++ value) ;;
                logging INFO ("Using directory (Default " ++ setting ++ ") "
                              ++ cur) ;;
                ret None
          else ret None
        else ret None
    | _ => raise (ValueError "not enough values to unpack (expected 2, got 1)")
    end
  else ret None.

(** The body of the loop of [loadSettings] over the keys, taken when
    [settings.txt] gave no lines. *)
Definition loadSettings_default (setting : string) : M (option bool) :=
  if contains "_dir" setting then
    dir <- settings_get setting ;;
    ex <- os_path_exists dir ;;
    if negb ex then
      logging ERROR ("Directory does not exist: (Default "
                     ++ setting ++ ") " ++ dir) ;;
      ret (Some false)
    else ret None
  else ret None.

(** [loadSettings()] *)
Definition loadSettings : M bool :=
  logging INFO "Loading settings" ;;
  contents <- read "settings.txt" ;;
  match contents with
  | [] =>
      keys <- settings_keys ;;
      r <- for_ keys loadSettings_default ;;
      match r with
      | Some b => ret b
      | None => logging INFO "Using default settings" ;; ret true
      end
  | _ :: _ =>
      r <- for_ contents loadSettings_line ;;
      match r with
      | Some b => ret b
      | None => logging INFO "Loading done" ;; ret true
      end
  end.

(** One round of the [while True] loop of [downloadPlugins]: [Some] of the
    returned pair, or [None] to go round again. *)
Definition downloadPlugins_poll (download_dir : string)
  : M (option (string * string)) :=
  files <- glob_glob_zip download_dir ;;
  w <- get_world ;;
  match max_by (getctime w) files with
  | None => raise (ValueError "max() arg is an empty sequence")
  | Some latest_file =>
      if contains "RocketPlugin_" latest_file then
        let filename := replace (download_dir ++ "\") "" latest_file in
        logging INFO "Download done" ;;
        ret (Some (filename, latest_file))
      else ret None
  end.

(** The loop itself, observed for at most [fuel] rounds. *)
Fixpoint downloadPlugins_loop (fuel : nat) (download_dir : string)
  : M (string * string) :=
  match fuel with
  | O => blocked
  | S fuel' =>
      r <- downloadPlugins_poll download_dir ;;
      match r with
      | Some found => ret found
      | None => next_poll ;; downloadPlugins_loop fuel' download_dir
      end
  end.

(** [downloadPlugins(download_dir)] *)
Definition downloadPlugins (fuel : nat) (download_dir : string)
  : M (string * string) :=
  logging INFO "Downloading" ;;
  subprocess_Popen ("start " ++ dquote ++ dquote ++ " " ++ PLUGINS_URL) ;;
  downloadPlugins_loop fuel download_dir.

(** [unzipPlugins(file_dir)] *)
Definition unzipPlugins (file_dir : string) : M unit :=
  logging INFO "Unzipping" ;;
  ex <- os_path_exists file_dir ;;
  if ex then
    logging INFO "Already unzipped"
  else
    subprocess_Popen_wait ["unzip_file.bat"; file_dir] ;;
    logging INFO "Unzipping done".

(** [updatePlugins(bakkesmod_dir, file_dir)] *)
Definition updatePlugins (bakkesmod_dir file_dir : string) : M unit :=
  logging INFO "Updating plugins" ;;
  names <- os_listdir (file_dir ++ "\data\RocketPlugin\presets") ;;
  _ <- for_ names (fun filename =>
         shutil_copy (file_dir ++ "\data\RocketPlugin\presets\" ++ filename)
                     (bakkesmod_dir ++ "\cfg\") ;;
         ret (@None unit)) ;;
  shutil_copy (file_dir ++ "\plugins\RocketPlugin.dll")
              (bakkesmod_dir ++ "\plugins\") ;;
  shutil_copy (file_dir ++ "\plugins\settings\rocketplugin.set")
              (bakkesmod_dir ++ "\plugins\settings\") ;;
  logging INFO "Update done".

(** [cleanDownloads(zipped_file_dir, file_dir)] *)
Definition cleanDownloads (zipped_file_dir file_dir : string) : M unit :=
  logging INFO "Cleaning downloads" ;;
  os_remove zipped_file_dir ;;
  shutil_rmtree file_dir ;;
  logging INFO "Cleanup done".

(** The fixed step [100 / 6] posted to the progress bar. *)
Definition progress_step : Q := 100 # 6.

Definition after_idle_update : M unit := emit (EvAfterIdleUpdate progress_step).
Definition showerror (message : string) : M unit := emit (EvShowError message).
Definition showinfo (message : string) : M unit := emit (EvShowInfo message).

(** [file_dir = zipped_file_dir.replace('.zip', '')] in [GUI.main]. *)
Definition file_dir_of (zipped_file_dir : string) : string :=
  replace ".zip" "" zipped_file_dir.

(** The [while not error_occurred] loop of [GUI.main].  Every path through
    its body ends in [break] or leaves by an exception, so the body runs
    once; the value is [error_occurred] at the exit of the loop. *)
Definition main_loop (fuel : nat) : M bool :=
  ok <- checkDependencies ;;
  if negb ok then
    showerror "Could not resolve dependencies!" ;;
    ret true
  else
    after_idle_update ;;
    ok <- loadSettings ;;
    if negb ok then
      showerror "Could not resolve settings!" ;;
      ret true
    else
      after_idle_update ;;
      download_dir <- settings_get "download_dir" ;;
      found <- downloadPlugins fuel download_dir ;;
      let zipped_file_dir := snd found in
      after_idle_update ;;
      let file_dir := file_dir_of zipped_file_dir in
      unzipPlugins file_dir ;;
      after_idle_update ;;
      bakkesmod_dir <- settings_get "bakkesmod_dir" ;;
      updatePlugins bakkesmod_dir file_dir ;;
      after_idle_update ;;
      cleanDownloads zipped_file_dir file_dir ;;
      after_idle_update ;;
      showinfo "Plugins were updated Successfully!" ;;
      ret false.

(** [GUI.main(thread_name)] *)
Definition main (fuel : nat) (thread_name : string) : M unit :=
  logging INFO ("Thread started: " ++ thread_name) ;;
  error_occurred <- main_loop fuel ;;
  (if error_occurred : bool then
     showerror
       "Error occurred! Please email the 'log.log' file to greenchicken1902@gmail.com"
   else ret tt) ;;
  logging INFO "Quiting root" ;;
  emit EvQuit.

(** The state in which the worker thread starts. *)
Definition start (w : W) (USERPROFILE APPDATA : string) : state :=
  mkState w (settings_default USERPROFILE APPDATA) [] [].

End Program.

Arguments state W : clear implicits.

(* ===================================================================== *)
(** ** A small in-memory machine *)
(* ===================================================================== *)

(** An instance of [OS] on which the program can be run: a flat table from
    path strings to files and directories, what the browser and the user
    will have done to the table by each coming poll (a file written, or a
    file gone), and the members of the archive that the extraction helper
    unpacks. *)
Module Sim.

Inductive node : Type :=
| File (ctime : Z) (text : string)
| Garbled (ctime : Z)        (* a file whose bytes do not decode as text *)
| Dir.

Definition table := list (string * node).

Record machine : Type := mkMachine {
  nodes : table;
  coming : list (string * option node);
  payload : table;
  launched : list string
}.

Fixpoint lookup (p : string) (t : table) : option node :=
  match t with
  | [] => None
  | (q, n) :: t' => if String.eqb p q then Some n else lookup p t'
  end.

Fixpoint insert (p : string) (n : node) (t : table) : table :=
  match t with
  | [] => [(p, n)]
  | (q, m) :: t' =>
      if String.eqb p q then (q, n) :: t' else (q, m) :: insert p n t'
  end.

Definition delete (p : string) (t : table) : table :=
  filter (fun qn => negb (String.eqb p (fst qn))) t.

Definition strip_prefix (p s : string) : option string :=
  if prefix p s then Some (drop (String.length p) s) else None.

(** The entries directly inside directory [d]. *)
Definition children (d : string) (t : table) : list string :=
  flat_map (fun qn =>
              match strip_prefix (d ++ "\") (fst qn) with
              | Some name => if contains "\" name then [] else [name]
              | None => []
              end) t.

(** The text after the last backslash. *)
Fixpoint basename (s : string) : string :=
  match s with
  | EmptyString => EmptyString
  | String c s' =>
      if contains "\" s then basename s' else s
  end.

(** [s[:-1]] *)
Fixpoint chop (s : string) : string :=
  match s with
  | EmptyString => EmptyString
  | String _ EmptyString => EmptyString
  | String c s' => String c (chop s')
  end.

Definition is_file (w : machine) (p : string) : bool :=
  match lookup p (nodes w) with
  | Some (File _ _) | Some (Garbled _) => true
  | _ => false
  end.

Definition is_dir (w : machine) (p : string) : bool :=
  match lookup p (nodes w) with Some Dir => true | _ => false end.

Definition with_nodes (w : machine) (t : table) : machine :=
  mkMachine t (coming w) (payload w) (launched w).

(** A copy fails on its source when that is no file, and on its
    destination when that names a directory that is not there. *)
Definition sim_copy (w : machine) (src dst : string) : exn + machine :=
  match lookup src (nodes w) with
  | None | Some Dir => inl (OSError src)
  | Some n =>
      if endswith "\" dst then
        if is_dir w (chop dst)
        then inr (with_nodes w (insert (dst ++ basename src) n (nodes w)))
        else inl (OSError dst)
      else inr (with_nodes w (insert dst n (nodes w)))
  end.

Definition sim_remove (w : machine) (p : string) : option machine :=
  if is_file w p then Some (with_nodes w (delete p (nodes w))) else None.

Definition sim_rmtree (w : machine) (p : string) : exn + machine :=
  if is_dir w p then
    inr (with_nodes w
           (filter (fun qn => negb (String.eqb p (fst qn)
                                    || prefix (p ++ "\") (fst qn)))
                   (nodes w)))
  else inl (OSError p).

(** Reading a directory as a file fails, and so does reading bytes that do
    not decode. *)
Definition sim_read_error (w : machine) (p : string) : option exn :=
  match lookup p (nodes w) with
  | Some (File _ _) => None
  | Some (Garbled _) =>
      Some (UnicodeDecodeError
              "'charmap' codec can't decode byte 0x81 in position 3: character maps to <undefined>")
  | Some Dir | None => Some (OSError p)
  end.

(** The stand-in for [unzip_file.bat <dir>]: unpacks [<dir>.zip] into
    [<dir>]; any other command leaves the table as it is. *)
Definition sim_popen_wait (w : machine) (args : list string) : machine :=
  match args with
  | [_; dir] =>
      if is_file w (dir ++ ".zip") then
        with_nodes w
          (fold_left (fun t qn => insert (dir ++ "\" ++ fst qn) (snd qn) t)
                     (payload w) (insert dir Dir (nodes w)))
      else w
  | _ => w
  end.

Definition sim_elapse (w : machine) : machine :=
  match coming w with
  | [] => w
  | (p, Some n) :: rest =>
      mkMachine (insert p n (nodes w)) rest (payload w) (launched w)
  | (p, None) :: rest =>
      mkMachine (delete p (nodes w)) rest (payload w) (launched w)
  end.

#[global] Instance sim_os : OS machine := {
  path_exists w p := match lookup p (nodes w) with Some _ => true | None => false end;
  read_error := sim_read_error;
  file_text w p := match lookup p (nodes w) with Some (File _ t) => t | _ => EmptyString end;
  listdir w d := if is_dir w d then Some (children d (nodes w)) else None;
  getctime w p :=
    match lookup p (nodes w) with
    | Some (File c _) | Some (Garbled c) => c
    | _ => 0%Z
    end;
  glob_pattern _ _ := [];
  popen w cmd :=
    mkMachine (nodes w) (coming w) (payload w) (launched w ++ [cmd])%list;
  popen_wait := sim_popen_wait;
  elapse := sim_elapse;
  copy := sim_copy;
  remove := sim_remove;
  rmtree := sim_rmtree
}.

(** The members of a plugin archive with the expected layout. *)
Definition plugin_payload : table :=
  [("data", Dir);
   ("data\RocketPlugin", Dir);
   ("data\RocketPlugin\presets", Dir);
   ("data\RocketPlugin\presets\classic.cfg", File 5 "preset");
   ("plugins", Dir);
   ("plugins\RocketPlugin.dll", File 5 "binary");
   ("plugins\settings", Dir);
   ("plugins\settings\rocketplugin.set", File 5 "plugin settings")].

(** A settings file naming both directories, with a comment and a blank
    line. *)
Definition settings_txt : string :=
  "# directories" ++ nl ++ nl ++
  "download_dir=D:\dl" ++ nl ++
  "bakkesmod_dir=D:\bm" ++ nl.

(** A machine ready for a run: both auxiliary files, the configured
    directories, an unrelated archive already downloaded, and the plugin
    archive landing before the third poll. *)
Definition ready : machine :=
  mkMachine
    [("settings.txt", File 1 settings_txt);
     ("unzip_file.bat", File 1 "tar -xf");
     ("D:\dl", Dir);
     ("D:\dl\notes.zip", File 10 "other archive");
     ("D:\bm", Dir);
     ("D:\bm\cfg", Dir);
     ("D:\bm\cfg\classic.cfg", File 2 "old preset");
     ("D:\bm\plugins", Dir);
     ("D:\bm\plugins\settings", Dir)]
    [("D:\dl\readme.txt", Some (File 20 "unrelated"));
     ("D:\dl\RocketPlugin_v2.zip", Some (File 30 "archive"))]
    plugin_payload
    [].

(** The same machine once the plugin archive has landed. *)
Definition downloaded : machine := sim_elapse (sim_elapse ready).

(** The same machine without the extraction helper. *)
Definition no_helper : machine :=
  with_nodes ready (delete "unzip_file.bat" (nodes ready)).

(** The same machine with another text in [settings.txt]. *)
Definition with_settings (text : string) : machine :=
  with_nodes ready (insert "settings.txt" (File 1 text) (nodes ready)).

(** A settings file whose second line has no separator. *)
Definition unpackable : machine :=
  with_settings ("download_dir=D:\dl" ++ nl ++ "bakkesmod_dir D:\bm" ++ nl).

(** A settings file whose bytes do not decode as text. *)
Definition garbled_settings : machine :=
  with_nodes ready (insert "settings.txt" (Garbled 1) (nodes ready)).

(** The machine once the archive is unpacked, with the [cfg] directory of
    BakkesMod gone. *)
Definition no_cfg : machine :=
  let unpacked :=
    sim_popen_wait downloaded ["unzip_file.bat"; "D:\dl\RocketPlugin_v2"] in
  with_nodes unpacked
    (delete "D:\bm\cfg" (delete "D:\bm\cfg\classic.cfg" (nodes unpacked))).

(** A settings file that sends [bakkesmod_dir] to a place that is not
    there. *)
Definition lost_bakkesmod : machine :=
  with_settings ("download_dir=D:\dl" ++ nl ++ "bakkesmod_dir=D:\nowhere" ++ nl).

(** A download directory holding two plugin archives, the second newer. *)
Definition two_archives : machine :=
  mkMachine
    [("D:\dl", Dir);
     ("D:\dl\RocketPlugin_v1.zip", File 100 "v1");
     ("D:\dl\RocketPlugin_v2.zip", File 200 "v2")]
    [] [] [].

(** The same two archives among entries that are no archives for [glob]
    and were created after them: a text file, a directory, and an archive
    whose name starts with a dot. *)
Definition archives_and_others : machine :=
  mkMachine
    [("D:\dl", Dir);
     ("D:\dl\RocketPlugin_v1.zip", File 100 "v1");
     ("D:\dl\RocketPlugin_readme.txt", File 300 "read me");
     ("D:\dl\RocketPlugin_v2.zip", File 200 "v2");
     ("D:\dl\RocketPlugin_v3", Dir);
     ("D:\dl\.RocketPlugin_v4.zip", File 400 "hidden")]
    [] [] [].

(** A download directory whose only archive the user deletes before the
    second poll. *)
Definition emptied : machine :=
  mkMachine
    [("D:\dl", Dir);
     ("D:\dl\notes.zip", File 10 "other archive");
     ("D:\dl\readme.txt", File 20 "unrelated")]
    [("D:\dl\notes.zip", None)]
    [] [].

(** An archive that only mentions the plugin inside its name, and an
    unrelated archive in a directory whose own name mentions it. *)
Definition mentions : machine :=
  mkMachine
    [("D:\dl", Dir);
     ("D:\dl\holiday_RocketPlugin_pictures.zip", File 10 "pictures");
     ("D:\RocketPlugin_downloads", Dir);
     ("D:\RocketPlugin_downloads\notes.zip", File 10 "other archive")]
    [] [] [].

(** A plugin archive downloaded below a directory with [.zip] in its
    name. *)
Definition dotted : machine :=
  mkMachine
    [("settings.txt",
      File 1 ("download_dir=C:\Users\john.zipper\Downloads" ++ nl
              ++ "bakkesmod_dir=D:\bm" ++ nl));
     ("unzip_file.bat", File 1 "tar -xf");
     ("C:\Users\john.zipper\Downloads", Dir);
     ("C:\Users\john.zipper\Downloads\RocketPlugin_v2.zip", File 30 "archive");
     ("D:\bm", Dir);
     ("D:\bm\cfg", Dir);
     ("D:\bm\plugins", Dir);
     ("D:\bm\plugins\settings", Dir)]
    [] plugin_payload [].

(** The environment of the runs below, and the state a run starts in. *)
Definition USERPROFILE : string := "C:\Users\u".
Definition APPDATA : string := "C:\Users\u\AppData\Roaming".

Definition boot (w : machine) : state machine := start w USERPROFILE APPDATA.

End Sim.

(* ===================================================================== *)
(** ** Vocabulary of the statements *)
(* ===================================================================== *)

(** What [loadSettings] makes of one line of [settings.txt]: it passes over
    blank lines and comments, takes [key=value] as an assignment, and cannot
    unpack a line without the separator. *)
Inductive line_kind : Type :=
| Skipped
| Assign (key value : string)
| Malformed.

Definition classify (line : string) : line_kind :=
  let line := replace nl "" line in
  if live_line line then
    match split1 "=" line with
    | [key; value] => Assign key value
    | _ => Malformed
    end
  else Skipped.

Definition well_formed (line : string) : bool :=
  match classify line with
  | Malformed => false
  | _ => true
  end.

(** The value the file gives to [key]: that of its last assignment. *)
Fixpoint configured (key : string) (lines : list string) : option string :=
  match lines with
  | [] => None
  | line :: rest =>
      match configured key rest with
      | Some v => Some v
      | None =>
          match classify line with
          | Assign k v => if String.eqb key k then Some v else None
          | _ => None
          end
      end
  end.

(** [v] when the file configures it, the value held before otherwise. *)
Definition or_previous (previous : string) (v : option string) : string :=
  match v with
  | Some x => x
  | None => previous
  end.

(** The two keys of [settings], holding [dl] and [bm]. *)
Definition two_dirs (dl bm : string) : dict :=
  [("download_dir", dl); ("bakkesmod_dir", bm)].

(** The modal dialogs among the effects of a run. *)
Definition is_dialog (e : event) : bool :=
  match e with
  | EvShowError _ | EvShowInfo _ => true
  | _ => false
  end.

Definition dialogs (tr : list event) : list event := filter is_dialog tr.

(** The progress steps posted to the display, and everything the run sends
    to the display at all. *)
Definition is_progress (e : event) : bool :=
  match e with
  | EvAfterIdleUpdate _ => true
  | _ => false
  end.

Definition progress_posts (tr : list event) : nat :=
  List.length (filter is_progress tr).

Definition is_gui (e : event) : bool :=
  match e with
  | EvShowError _ | EvShowInfo _ | EvAfterIdleUpdate _ | EvQuit => true
  | _ => false
  end.

Definition gui_events (tr : list event) : list event := filter is_gui tr.

(** The command line that opens the download page, and the pattern the
    download directory is listed with. *)
Definition start_browser : string :=
  "start " ++ dquote ++ dquote ++ " " ++ PLUGINS_URL.

Definition zip_pattern (download_dir : string) : string :=
  download_dir ++ "\*.zip".

(** A round of the polling loop goes round again when the newest archive it
    finds is not accepted. *)
Definition retries {W} `{OS W} (w : W) (download_dir : string) : bool :=
  match max_by (getctime w) (glob_zip w download_dir) with
  | Some latest_file => negb (contains "RocketPlugin_" latest_file)
  | None => false
  end.

(** A computation is [silent] when it sends nothing to the display. *)
Definition silent (W : Type) {A} (m : @M W A) : Prop :=
  forall s : state W,
    gui_events (trace (snd (m s))) = gui_events (trace s).
Arguments silent W {A} m.

(** Following the words of the specification, the extraction directory is
    the archive path without its extension: the path up to the last dot of
    its last component. *)
Fixpoint without_extension (path : string) : string :=
  match path with
  | EmptyString => EmptyString
  | String c rest =>
      if Ascii.eqb c "." && negb (contains "." rest)
         && negb (contains "\" rest)
      then EmptyString
      else String c (without_extension rest)
  end.

(** The general error message that ends a failed run. *)
Definition general_error : string :=
  "Error occurred! Please email the 'log.log' file to greenchicken1902@gmail.com".

(** The warning [checkDependencies] logs for the key [k] of [d] when it
    names a directory that is not there. *)
Definition dir_warning {W} `{OS W} (w : W) (d : dict) (k : string)
  : list (level * string) :=
  if contains "_dir" k then
    match dict_get k d with
    | Some dir =>
        if path_exists w dir then []
        else [(WARNING, "Directory does not exist: (Default "
                        ++ k ++ ") " ++ dir)]
    | None => []
    end
  else [].

Definition dir_warnings {W} `{OS W} (w : W) (d : dict) (keys : list string)
  : list (level * string) :=
  flat_map (dir_warning w d) keys.

(** Every directory held by [d] exists on the machine. *)
Definition resolved {W} `{OS W} (w : W) (d : dict) : Prop :=
  forall k v, dict_get k d = Some v -> contains "_dir" k = true ->
              path_exists w v = true.

(** A line of [settings.txt] that changes nothing: a blank line, a comment,
    or an assignment to a name that is no key of [d] or names no
    directory. *)
Definition idle_line (d : dict) (line : string) : bool :=
  match classify line with
  | Skipped => true
  | Assign k _ => negb (dict_mem k d && contains "_dir" k)
  | Malformed => false
  end.

(** What a run of [loadSettings] may have done to [settings]: the keys are
    the same, and a value that changed is a directory that exists. *)
Definition adopted {W} `{OS W} (w : W) (d d' : dict) : Prop :=
  dict_keys d' = dict_keys d
  /\ forall k v, dict_get k d' = Some v ->
                 dict_get k d = Some v
                 \/ (path_exists w v = true /\ contains "_dir" k = true).

(** A name that [loadSettings] reads back as a key: not empty, not starting
    a comment, free of the separator and of line ends. *)
Definition valid_key (k : string) : bool :=
  live_line k && negb (contains "=" k) && negb (contains nl k).

(** A settings file written from a list of keys and values, one
    [key=value] line each. *)
Definition render_line (kv : string * string) : string :=
  fst kv ++ "=" ++ snd kv ++ nl.

Fixpoint render_file (entries : list (string * string)) : string :=
  match entries with
  | [] => EmptyString
  | kv :: rest => render_line kv ++ render_file rest
  end.

(** The copies [updatePlugins] has to make for the presets [names], as
    pairs of source and destination, in the order it makes them. *)
Definition install_plan (bakkesmod_dir file_dir : string)
           (names : list string) : list (string * string) :=
  List.app
    (map (fun filename =>
            (file_dir ++ "\data\RocketPlugin\presets\" ++ filename,
             bakkesmod_dir ++ "\cfg\")) names)
    [(file_dir ++ "\plugins\RocketPlugin.dll",
      bakkesmod_dir ++ "\plugins\");
     (file_dir ++ "\plugins\settings\rocketplugin.set",
      bakkesmod_dir ++ "\plugins\settings\")].

Definition copy_events (plan : list (string * string)) : list event :=
  map (fun sd => EvCopy (fst sd) (snd sd)) plan.

(** The effects of a run on the machine, and the step of the run each one
    belongs to: opening the browser, listing the download directory,
    extracting, copying, removing the archive, removing the directory. *)
Definition is_os (e : event) : bool := negb (is_gui e).

Definition phase (e : event) : nat :=
  match e with
  | EvPopen _ => 1
  | EvGlob _ => 2
  | EvPopenWait _ => 3
  | EvCopy _ _ => 4
  | EvRemove _ => 5
  | EvRmtree _ => 6
  | _ => 0
  end.

Definition phases (tr : list event) : list nat := map phase (filter is_os tr).

Fixpoint nondecreasing (l : list nat) : bool :=
  match l with
  | [] => true
  | a :: rest =>
      match rest with
      | [] => true
      | b :: _ => (a <=? b)%nat && nondecreasing rest
      end
  end.

(** The effects so far are in order and none belongs to a step after
    [n]. *)
Definition reached (n : nat) (tr : list event) : Prop :=
  nondecreasing (phases tr ++ [n]) = true.

(** A computation that, begun no later than step [lo], keeps the effects in
    order and ends no later than step [hi]. *)
Definition advances (W : Type) (lo hi : nat) {A} (m : @M W A) : Prop :=
  (lo <= hi)%nat
  /\ forall s : state W,
       reached lo (trace s) -> reached hi (trace (snd (m s))).
Arguments advances W lo hi {A} m.

(** The effects of a run that goes through all six steps: the download
    directory was listed [rounds] times, the helper was started or not, and
    [names] are the presets found in the extracted directory. *)
Definition success_effects (download_dir bakkesmod_dir zipped_file_dir : string)
           (rounds : nat) (helper : bool) (names : list string)
  : list event :=
  let p := EvAfterIdleUpdate progress_step in
  let file_dir := file_dir_of zipped_file_dir in
  List.app [p; p; EvPopen start_browser]
    (List.app (repeat (EvGlob (zip_pattern download_dir)) rounds)
       (List.app [p]
          (List.app
             (if helper then [EvPopenWait ["unzip_file.bat"; file_dir]]
              else [])
             (List.app [p]
                (List.app
                   (copy_events (install_plan bakkesmod_dir file_dir names))
                   [p; EvRemove zipped_file_dir; EvRmtree file_dir; p;
                    EvShowInfo "Plugins were updated Successfully!";
                    EvQuit]))))).

(** Two runs of a computation end alike: the same result, the same
    settings, the same machine. *)
Definition same_outcome {W A} (x y : result A * state W) : Prop :=
  fst x = fst y /\ settings (snd x) = settings (snd y)
  /\ world (snd x) = world (snd y).

(* ===================================================================== *)
(** ** Facts about strings and dicts *)
(* ===================================================================== *)

Lemma append_assoc (a b c : string) : (a ++ b) ++ c = a ++ b ++ c.
Proof. induction a as [|x a IH]; simpl; [reflexivity | now rewrite IH]. Qed.

Lemma prefix_app (p s : string) : prefix p (p ++ s) = true.
Proof.
  induction p as [|c p IH]; simpl.
  - destruct s; reflexivity.
  - destruct (ascii_dec c c) as [_|n]; [exact IH | congruence].
Qed.

Lemma prefix_inv (p s : string) :
  prefix p s = true -> exists t, s = p ++ t.
Proof.
  revert s; induction p as [|c p IH]; intros s H.
  - exists s; reflexivity.
  - destruct s as [|d s]; simpl in H; [discriminate|].
    destruct (ascii_dec c d) as [->|]; [|discriminate].
    destruct (IH s H) as [t ->]. exists t; reflexivity.
Qed.

Lemma drop_app (p s : string) : drop (String.length p) (p ++ s) = s.
Proof. induction p as [|c p IH]; simpl; [destruct s; reflexivity | exact IH]. Qed.

Lemma contains_prefix (sub s : string) :
  prefix sub s = true -> contains sub s = true.
Proof. intros H; destruct s; cbn [contains]; rewrite H; reflexivity. Qed.

Lemma contains_app_r (sub a b : string) :
  contains sub b = true -> contains sub (a ++ b) = true.
Proof.
  intros H; induction a as [|c a IH]; cbn [contains append]; [exact H|].
  rewrite IH. apply orb_true_r.
Qed.

Lemma prefix_app_l (sub a b : string) :
  prefix sub a = true -> prefix sub (a ++ b) = true.
Proof.
  intros H. destruct (prefix_inv _ _ H) as [t ->].
  rewrite append_assoc. apply prefix_app.
Qed.

Lemma contains_app_l (sub a b : string) :
  contains sub a = true -> contains sub (a ++ b) = true.
Proof.
  induction a as [|c a IH]; cbn [contains append]; intros H.
  - rewrite orb_false_r in H. destruct sub; [|discriminate].
    destruct b; reflexivity.
  - apply orb_true_iff in H. destruct H as [H|H].
    + change (String c (a ++ b)) with (String c a ++ b).
      rewrite (prefix_app_l _ _ b H). reflexivity.
    + rewrite (IH H). apply orb_true_r.
Qed.

(** An occurrence of [a ++ b] contains one of [b]. *)
Lemma contains_app_sub (a b s : string) :
  contains (a ++ b) s = true -> contains b s = true.
Proof.
  induction s as [|c s IH]; cbn [contains]; intros H.
  - rewrite orb_false_r in H |- *.
    destruct a; simpl in H; [exact H | discriminate].
  - apply orb_true_iff in H. destruct H as [H|H].
    + destruct (prefix_inv _ _ H) as [t E].
      change (contains b (String c s) = true). rewrite E.
      rewrite append_assoc. apply contains_app_r.
      apply contains_prefix, prefix_app.
    + rewrite (IH H). apply orb_true_r.
Qed.

Lemma replace_from_skip (old new : string) (k : nat) (s : string) :
  replace_from old new k s = replace_from old new 0 (drop k s).
Proof.
  revert k; induction s as [|c s IH]; intros [|k]; try reflexivity.
  simpl. apply IH.
Qed.

Lemma replace_from_hit (old new s : string) :
  old <> EmptyString -> prefix old s = true ->
  replace_from old new 0 s
  = new ++ replace_from old new 0 (drop (String.length old) s).
Proof.
  intros Hne Hp. destruct s as [|c s].
  - destruct old; [congruence | discriminate].
  - cbn [replace_from]. rewrite Hp, replace_from_skip.
    destruct old as [|a old]; [congruence|].
    simpl. rewrite Nat.sub_0_r. reflexivity.
Qed.

Lemma replace_from_miss (old new s : string) :
  contains old s = false -> replace_from old new 0 s = s.
Proof.
  induction s as [|c s IH]; intros H; [reflexivity|].
  cbn [contains] in H. apply orb_false_iff in H. destruct H as [Hp Hc].
  cbn [replace_from]. rewrite Hp, (IH Hc). reflexivity.
Qed.

(** Taking the directory prefix off a path that [glob] has joined gives the
    bare file name back. *)
Lemma replace_dir_prefix (dir name : string) :
  contains "\" name = false ->
  replace (dir ++ "\") "" (dir ++ "\" ++ name) = name.
Proof.
  intros Hn.
  assert (Hne : dir ++ "\" <> EmptyString) by (destruct dir; discriminate).
  assert (E : replace (dir ++ "\") "" (dir ++ "\" ++ name)
              = replace_from (dir ++ "\") "" 0 ((dir ++ "\") ++ name)).
  { unfold replace. rewrite <- append_assoc.
    destruct (dir ++ "\") eqn:D; [congruence | reflexivity]. }
  rewrite E, replace_from_hit by (auto using prefix_app).
  rewrite drop_app. cbn [append]. apply replace_from_miss.
  destruct (contains (dir ++ "\") name) eqn:C; [|reflexivity].
  apply contains_app_sub in C. congruence.
Qed.

(** The operations on the inputs that occur in the program. *)
Example replace_every_occurrence :
  replace ".zip" "" "a.zip.b.zip" = "a.b"
  /\ replace "aa" "b" "aaa" = "ba"
  /\ replace nl "" ("key=value" ++ nl) = "key=value".
Proof. repeat split. Qed.

Example split1_at_first_separator :
  split1 "=" "k=v=w" = ["k"; "v=w"] /\ split1 "=" "kv" = ["kv"]
  /\ split1 "=" "k=" = ["k"; ""].
Proof. repeat split. Qed.

Example readlines_keeps_line_ends :
  readlines ("a" ++ nl ++ nl ++ "b") = ["a" ++ nl; nl; "b"].
Proof. reflexivity. Qed.

Example classify_lines :
  classify ("# comment" ++ nl) = Skipped
  /\ classify nl = Skipped
  /\ classify ("download_dir=D:\dl" ++ nl) = Assign "download_dir" "D:\dl"
  /\ classify ("download_dir" ++ nl) = Malformed
  /\ classify ("   " ++ nl) = Malformed.
Proof. repeat split. Qed.

Example fnmatch_zip_names :
  fnmatch_zip "RocketPlugin_v2.zip" = true
  /\ fnmatch_zip "RocketPlugin_v2.ZIP" = true
  /\ fnmatch_zip "readme.txt" = false
  /\ fnmatch_zip ".zip" = false.
Proof. repeat split. Qed.

Example max_by_first_of_equals :
  max_by (fun x => Z.of_nat (fst x)) [(1, "a"); (3, "b"); (3, "c"); (2, "d")]%nat
  = Some (3%nat, "b").
Proof. reflexivity. Qed.

Lemma dict_get_mem (k : string) (d : dict) :
  dict_mem k d = true -> exists v, dict_get k d = Some v.
Proof.
  induction d as [|[k' v'] d IH]; simpl; [discriminate|].
  destruct (String.eqb k k'); [eauto | exact IH].
Qed.

Lemma dict_mem_keys (k : string) (d : dict) :
  In k (dict_keys d) -> dict_mem k d = true.
Proof.
  induction d as [|[k' v'] d IH]; simpl; [tauto|].
  intros [->|H]; [rewrite String.eqb_refl; reflexivity|].
  rewrite (IH H). apply orb_true_r.
Qed.

(* ===================================================================== *)
(** ** The dependency check *)
(* ===================================================================== *)

Section Facts.

Context {W : Type} {os : OS W}.

Ltac run :=
  cbv beta iota zeta delta
    [bind ret raise blocked logging emit get_world set_world
     settings_keys settings_mem settings_get settings_set
     os_path_exists os_readlines os_listdir glob_glob_zip
     subprocess_Popen subprocess_Popen_wait shutil_copy os_remove
     shutil_rmtree next_poll after_idle_update showerror showinfo
     world settings log trace fst snd negb].

Lemma for_app {A R} (xs ys : list A) (body : A -> M (option R)) (s : state W) :
  for_ (xs ++ ys) body s
  = match for_ xs body s with
    | (Ok None, s') => for_ ys body s'
    | other => other
    end.
Proof.
  revert s; induction xs as [|x xs IH]; intros s; cbn [for_ app].
  - reflexivity.
  - unfold bind. destruct (body x s) as [[[v|]|e|] s']; try reflexivity.
    apply IH.
Qed.

Lemma for_cons {A R} (x : A) (xs : list A) (body : A -> M (option R))
      (s : state W) :
  for_ (x :: xs) body s
  = match body x s with
    | (Ok None, s') => for_ xs body s'
    | (Ok (Some v), s') => (Ok (Some v), s')
    | (Raise e, s') => (Raise e, s')
    | (Blocked, s') => (Blocked, s')
    end.
Proof.
  cbn [for_]. unfold bind. destruct (body x s) as [[[v|]|e|] s']; reflexivity.
Qed.

Lemma checkDependencies_setting_run (k : string) (w : W) (d : dict) lg tr :
  dict_mem k d = true ->
  checkDependencies_setting k (mkState w d lg tr)
  = (Ok None, mkState w d (lg ++ dir_warning w d k) tr).
Proof.
  intros Hmem. destruct (dict_get_mem _ _ Hmem) as [dir Hdir].
  unfold checkDependencies_setting, dir_warning.
  destruct (contains "_dir" k); run; rewrite ?app_nil_r; [|reflexivity].
  rewrite Hdir. destruct (path_exists w dir); run; rewrite ?app_nil_r;
    reflexivity.
Qed.

(** The second loop of [checkDependencies] logs one warning for each
    directory that is not there and does nothing else. *)
Lemma checkDependencies_setting_loop (keys : list string) :
  forall (w : W) (d : dict) lg tr,
    (forall k, In k keys -> dict_mem k d = true) ->
    for_ keys checkDependencies_setting (mkState w d lg tr)
    = (Ok None, mkState w d (lg ++ dir_warnings w d keys) tr).
Proof.
  induction keys as [|k keys IH]; intros w d lg tr Hk.
  - cbn [for_ dir_warnings flat_map]. rewrite app_nil_r. reflexivity.
  - rewrite for_cons, checkDependencies_setting_run by (apply Hk; now left).
    rewrite IH by (intros; apply Hk; now right).
    unfold dir_warnings. cbn [flat_map]. rewrite app_assoc. reflexivity.
Qed.

Lemma dict_get_keys (k v : string) (d : dict) :
  dict_get k d = Some v -> In k (dict_keys d).
Proof.
  induction d as [|[k' v'] d IH]; simpl; [discriminate|].
  destruct (String.eqb_spec k k') as [->|]; [now left | right; auto].
Qed.

(** What [checkDependencies] returns and leaves behind, by the presence of
    the two auxiliary files. *)
Lemma checkDependencies_run (w : W) (d : dict) lg tr :
  checkDependencies (mkState w d lg tr)
  = if path_exists w "settings.txt" then
      if path_exists w "unzip_file.bat" then
        (Ok true,
         mkState w d
           (lg ++ (INFO, "Checking dependencies")
               :: dir_warnings w d (dict_keys d)
               ++ [(INFO, "Checking done")])%list tr)
      else
        (Ok false,
         mkState w d
           (lg ++ [(INFO, "Checking dependencies");
                   (ERROR, "Path does not exist: unzip_file.bat")])%list tr)
    else
      (Ok false,
       mkState w d
         (lg ++ [(INFO, "Checking dependencies");
                 (ERROR, "Path does not exist: settings.txt")])%list tr).
Proof.
  unfold checkDependencies.
  unfold bind at 1. unfold logging at 1. cbn [world settings log trace].
  unfold bind at 1. rewrite for_cons.
  unfold checkDependencies_file at 1. run.
  destruct (path_exists w "settings.txt").
  - rewrite for_cons. unfold checkDependencies_file at 1. run.
    destruct (path_exists w "unzip_file.bat").
    + cbn [for_]. run.
      rewrite checkDependencies_setting_loop
        by (intros; now apply dict_mem_keys).
      rewrite <- !app_assoc. reflexivity.
    + rewrite <- !app_assoc. reflexivity.
  - rewrite <- !app_assoc. reflexivity.
Qed.

(** C2: [checkDependencies] returns false exactly when [settings.txt] or
    [unzip_file.bat] is absent; whatever the directories of [settings] are,
    with both files present it returns true, and a directory that does not
    exist leaves a WARNING record in the log and nothing else. *)
Theorem checkDependencies_false_iff_file_missing (w : W) (d : dict) lg tr :
  let s := mkState w d lg tr in
  let out := checkDependencies s in
  (fst out = Ok false <->
     path_exists w "settings.txt" = false
     \/ path_exists w "unzip_file.bat" = false)
  /\ (fst out = Ok true <->
        path_exists w "settings.txt" = true
        /\ path_exists w "unzip_file.bat" = true)
  /\ world (snd out) = w /\ settings (snd out) = d /\ trace (snd out) = tr
  /\ (fst out = Ok true ->
      log (snd out)
      = (lg ++ (INFO, "Checking dependencies")
            :: dir_warnings w d (dict_keys d)
            ++ [(INFO, "Checking done")])%list)
  /\ (forall k dir,
        dict_get k d = Some dir -> contains "_dir" k = true ->
        path_exists w dir = false ->
        path_exists w "settings.txt" = true ->
        path_exists w "unzip_file.bat" = true ->
        fst out = Ok true
        /\ In (WARNING, "Directory does not exist: (Default "
                        ++ k ++ ") " ++ dir) (log (snd out))).
Proof.
  intros s out. subst out s. rewrite checkDependencies_run.
  destruct (path_exists w "settings.txt") eqn:E1;
    [destruct (path_exists w "unzip_file.bat") eqn:E2|];
    cbn [fst snd world settings log trace].
  - repeat split; try congruence; try (intros [?|?]; congruence).
    apply in_or_app; right. right. apply in_or_app; left.
    unfold dir_warnings. apply in_flat_map. exists k. split.
    + eapply dict_get_keys; eassumption.
    + unfold dir_warning. rewrite H0, H, H1. now left.
  - repeat split; try congruence; try tauto; intros [? ?]; congruence.
  - repeat split; try congruence; try tauto; intros [? ?]; congruence.
Qed.

(** ** The extraction step *)

Lemma unzipPlugins_present (s : state W) (file_dir : string) :
  path_exists (world s) file_dir = true ->
  unzipPlugins file_dir s
  = (Ok tt,
     mkState (world s) (settings s)
       (log s ++ [(INFO, "Unzipping"); (INFO, "Already unzipped")])%list
       (trace s)).
Proof.
  destruct s as [w d lg tr]; cbn [world settings log trace].
  intros H. unfold unzipPlugins. run. rewrite H.
  rewrite <- app_assoc. reflexivity.
Qed.

Lemma unzipPlugins_absent (s : state W) (file_dir : string) :
  path_exists (world s) file_dir = false ->
  unzipPlugins file_dir s
  = (Ok tt,
     mkState (popen_wait (world s) ["unzip_file.bat"; file_dir]) (settings s)
       (log s ++ [(INFO, "Unzipping"); (INFO, "Unzipping done")])%list
       (trace s ++ [EvPopenWait ["unzip_file.bat"; file_dir]])%list).
Proof.
  destruct s as [w d lg tr]; cbn [world settings log trace].
  intros H. unfold unzipPlugins. run. rewrite H.
  rewrite <- app_assoc. reflexivity.
Qed.

(** C4: when the extraction directory is there, [unzipPlugins] starts no
    helper, leaves the machine as it is and returns normally; so a second
    call that finds the directory made by the first does no work.  This
    holds for every directory path, in particular for the one [GUI.main]
    computes from an archive path. *)
Theorem unzipPlugins_idempotent (s : state W) (file_dir : string) :
  (path_exists (world s) file_dir = true ->
   unzipPlugins file_dir s
   = (Ok tt,
      mkState (world s) (settings s)
        (log s ++ [(INFO, "Unzipping"); (INFO, "Already unzipped")])%list
        (trace s)))
  /\ (let first := unzipPlugins file_dir s in
      fst first = Ok tt
      /\ (path_exists (world (snd first)) file_dir = true ->
          let second := unzipPlugins file_dir (snd first) in
          fst second = Ok tt
          /\ world (snd second) = world (snd first)
          /\ trace (snd second) = trace (snd first))).
Proof.
  split; [apply unzipPlugins_present|].
  cbv zeta. split.
  - destruct (path_exists (world s) file_dir) eqn:E.
    + rewrite unzipPlugins_present by assumption. reflexivity.
    + rewrite unzipPlugins_absent by assumption. reflexivity.
  - intros H. rewrite (unzipPlugins_present _ _ H). auto.
Qed.

(** ** The run of [GUI.main] *)

Lemma silent_ret {A} (a : A) : silent W (ret a).
Proof. intros s; reflexivity. Qed.

Lemma silent_raise {A} (e : exn) : silent W (@raise _ A e).
Proof. intros s; reflexivity. Qed.

Lemma silent_blocked {A} : silent W (@blocked _ A).
Proof. intros s; reflexivity. Qed.

Lemma silent_bind {A B} (m : M A) (k : A -> M B) :
  silent W m -> (forall a, silent W (k a)) -> silent W (bind m k).
Proof.
  intros Hm Hk s. unfold bind. specialize (Hm s).
  destruct (m s) as [[a|e|] s']; cbn [snd] in *; try assumption.
  rewrite Hk. assumption.
Qed.

Lemma silent_logging lv msg : silent W (logging lv msg).
Proof. intros s; reflexivity. Qed.

Lemma silent_emit (e : event) : is_gui e = false -> silent W (emit e).
Proof.
  intros He s. unfold emit, gui_events. cbn [snd trace].
  rewrite filter_app. cbn [filter]. rewrite He. apply app_nil_r.
Qed.

Lemma silent_get_world : silent W get_world.
Proof. intros s; reflexivity. Qed.

Lemma silent_set_world (w : W) : silent W (set_world w).
Proof. intros s; reflexivity. Qed.

Lemma silent_settings_get k : silent W (settings_get k).
Proof.
  intros s. unfold settings_get. destruct (dict_get k (settings s)); reflexivity.
Qed.

Lemma silent_for {A R} (xs : list A) (body : A -> M (option R)) :
  (forall x, silent W (body x)) -> silent W (for_ xs body).
Proof.
  intros Hb. induction xs as [|x xs IH]; cbn [for_].
  - apply silent_ret.
  - apply silent_bind; [apply Hb|]. intros [v|]; [apply silent_ret | exact IH].
Qed.

Lemma silent_if {A} (b : bool) (m1 m2 : M A) :
  silent W m1 -> silent W m2 -> silent W (if b then m1 else m2).
Proof. destruct b; auto. Qed.

Create HintDb silence discriminated.

#[local] Hint Resolve silent_ret silent_raise silent_blocked silent_logging
  silent_get_world silent_set_world silent_settings_get silent_if
  : silence.
#[local] Hint Extern 1 (silent W (emit _)) =>
  apply silent_emit; reflexivity : silence.
#[local] Hint Extern 2 (silent W (bind _ _)) =>
  apply silent_bind; [|intro] : silence.
#[local] Hint Extern 2 (silent W (for_ _ _)) =>
  apply silent_for; intro : silence.
#[local] Hint Extern 3 (silent W (match ?x with _ => _ end)) =>
  destruct x : silence.

Ltac hush := auto 30 with silence.

Lemma silent_checkDependencies : silent W checkDependencies.
Proof.
  unfold checkDependencies, checkDependencies_file, checkDependencies_setting,
    settings_keys, os_path_exists.
  hush.
Qed.

Lemma silent_loadSettings : silent W loadSettings.
Proof.
  unfold loadSettings, read, loadSettings_default, loadSettings_line,
    settings_keys, settings_mem, settings_set, os_path_exists, os_readlines.
  hush.
Qed.

Lemma silent_downloadPlugins fuel dir : silent W (downloadPlugins fuel dir).
Proof.
  unfold downloadPlugins, subprocess_Popen. apply silent_bind; [hush|].
  intros _. apply silent_bind; [hush|]. intros _.
  induction fuel as [|fuel IH]; cbn [downloadPlugins_loop]; [hush|].
  apply silent_bind.
  - unfold downloadPlugins_poll, glob_glob_zip. hush.
  - intros [found|]; [hush|]. unfold next_poll.
    apply silent_bind; [hush | intros _; exact IH].
Qed.

Lemma silent_unzipPlugins dir : silent W (unzipPlugins dir).
Proof. unfold unzipPlugins, os_path_exists, subprocess_Popen_wait. hush. Qed.

Lemma silent_updatePlugins bdir dir : silent W (updatePlugins bdir dir).
Proof. unfold updatePlugins, os_listdir, shutil_copy. hush. Qed.

Lemma silent_cleanDownloads zipped dir : silent W (cleanDownloads zipped dir).
Proof. unfold cleanDownloads, os_remove, shutil_rmtree. hush. Qed.

Lemma bind_run {A B} (m : M A) (k : A -> M B) (s : state W) :
  bind m k s
  = match m s with
    | (Ok a, s') => k a s'
    | (Raise e, s') => (Raise e, s')
    | (Blocked, s') => (Blocked, s')
    end.
Proof. reflexivity. Qed.

Lemma gui_events_app (tr1 tr2 : list event) :
  gui_events (tr1 ++ tr2) = (gui_events tr1 ++ gui_events tr2)%list.
Proof. apply filter_app. Qed.

Lemma dialogs_gui (tr : list event) : dialogs tr = dialogs (gui_events tr).
Proof.
  unfold dialogs, gui_events. induction tr as [|e tr IH]; [reflexivity|].
  destruct e; cbn [filter is_gui is_dialog]; congruence.
Qed.

Lemma progress_posts_gui (tr : list event) :
  progress_posts tr = progress_posts (gui_events tr).
Proof.
  unfold progress_posts, gui_events. induction tr as [|e tr IH]; [reflexivity|].
  destruct e; cbn [filter is_gui is_progress List.length]; congruence.
Qed.

(** Running the next step of a chain of [bind]s kept in hypothesis [E]:
    a silent step is met with its result and the state it leaves, an
    emission is carried out. *)
Ltac meet E :=
  rewrite bind_run in E;
  lazymatch type of E with
  | match ?m ?s with _ => _ end = _ =>
      let G := fresh "G" in
      assert (G : gui_events (trace (snd (m s))) = gui_events (trace s))
        by first [ apply silent_checkDependencies
                 | apply silent_loadSettings
                 | apply silent_settings_get
                 | apply silent_downloadPlugins
                 | apply silent_unzipPlugins
                 | apply silent_updatePlugins
                 | apply silent_cleanDownloads ];
      destruct (m s) as [[?|?|] [? ? ? ?]];
      cbn [snd trace] in G; rewrite ?gui_events_app in G
  end.

Ltac post E :=
  rewrite bind_run in E;
  cbv beta iota delta
    [after_idle_update showerror showinfo emit logging ret
     world settings log trace] in E.

Ltac settle E :=
  injection E as <- <-; cbn [trace];
  rewrite ?gui_events_app;
  repeat match goal with
    | G : gui_events ?t = _ |- context [gui_events ?t] => rewrite G
    end.

(** What the loop of [GUI.main] sends to the display, by the way it is
    left. *)
Lemma main_loop_gui_events (s : state W) fuel r s' :
  gui_events (trace s) = [] ->
  main_loop fuel s = (r, s') ->
  let gui := gui_events (trace s') in
  let p := EvAfterIdleUpdate progress_step in
  match r with
  | Ok false =>
      gui = [p; p; p; p; p; p; EvShowInfo "Plugins were updated Successfully!"]
  | Ok true =>
      gui = [EvShowError "Could not resolve dependencies!"]
      \/ gui = [p; EvShowError "Could not resolve settings!"]
  | _ => exists n, (n <= 5)%nat /\ gui = repeat p n
  end.
Proof.
  intros G0 E. cbv zeta. unfold main_loop in E.
  meet E; [| settle E; exists 0%nat; split; [lia | reflexivity] ..].
  destruct a; cbn [negb] in E.
  2:{ post E. settle E. left; reflexivity. }
  post E.
  meet E; [| settle E; exists 1%nat; split; [lia | reflexivity] ..].
  destruct a; cbn [negb] in E.
  2:{ post E. settle E. right; reflexivity. }
  post E.
  meet E; [| settle E; exists 2%nat; split; [lia | reflexivity] ..].
  meet E; [| settle E; exists 2%nat; split; [lia | reflexivity] ..].
  post E.
  meet E; [| settle E; exists 3%nat; split; [lia | reflexivity] ..].
  post E.
  meet E; [| settle E; exists 4%nat; split; [lia | reflexivity] ..].
  meet E; [| settle E; exists 4%nat; split; [lia | reflexivity] ..].
  post E.
  meet E; [| settle E; exists 5%nat; split; [lia | reflexivity] ..].
  post E. post E. settle E. reflexivity.
Qed.

(** What a run sends to the display, by the way it ends: six progress steps
    and the success dialog; or the dialog of the check that failed and the
    general error dialog; or, when a later step raises or the download never
    shows up, the progress steps of the steps done and nothing else. *)
Lemma main_gui_events (w : W) (d : dict) lg fuel thread_name r s' :
  main fuel thread_name (mkState w d lg []) = (r, s') ->
  let gui := gui_events (trace s') in
  let p := EvAfterIdleUpdate progress_step in
  match r with
  | Ok _ =>
      gui = [p; p; p; p; p; p;
             EvShowInfo "Plugins were updated Successfully!"; EvQuit]
      \/ gui = [EvShowError "Could not resolve dependencies!";
                EvShowError general_error; EvQuit]
      \/ gui = [p; EvShowError "Could not resolve settings!";
                EvShowError general_error; EvQuit]
  | _ => exists n, (n <= 5)%nat /\ gui = repeat p n
  end.
Proof.
  intros E. cbv zeta. unfold main in E. post E. rewrite bind_run in E.
  match type of E with
  | context [main_loop fuel ?s] =>
      destruct (main_loop fuel s) as [[[|]| |] [w1 d1 lg1 tr1]] eqn:EL;
      pose proof (fun G => main_loop_gui_events _ _ G EL) as EL';
      specialize (EL' eq_refl); clear EL; rename EL' into EL;
      cbv zeta in EL; cbn [trace] in EL
  end.
  - post E. post E. settle E. unfold general_error.
    destruct EL as [-> | ->]; [right; left | right; right]; reflexivity.
  - post E. post E. settle E. left; reflexivity.
  - injection E as <- <-. exact EL.
  - injection E as <- <-. exact EL.
Qed.

(** The dialogs and progress steps of a run, by the way it ends. *)
Lemma main_display_by_outcome (w : W) (d : dict) lg fuel thread_name :
  let out := main fuel thread_name (mkState w d lg []) in
  let shown := dialogs (trace (snd out)) in
  let posted := progress_posts (trace (snd out)) in
  match fst out with
  | Ok _ =>
      (shown = [EvShowInfo "Plugins were updated Successfully!"]
       /\ posted = 6%nat)
      \/ (shown = [EvShowError "Could not resolve dependencies!";
                   EvShowError general_error]
          /\ posted = 0%nat)
      \/ (shown = [EvShowError "Could not resolve settings!";
                   EvShowError general_error]
          /\ posted = 1%nat)
  | _ => shown = [] /\ (posted <= 5)%nat
  end.
Proof.
  cbv zeta.
  destruct (main fuel thread_name (mkState w d lg [])) as [r s'] eqn:E.
  apply main_gui_events in E. cbv zeta in E. cbn [fst snd].
  rewrite dialogs_gui, progress_posts_gui.
  assert (L : forall k, List.length
                (filter is_progress
                   (repeat (EvAfterIdleUpdate progress_step) k)) = k)
    by (induction k; cbn [repeat filter is_progress List.length];
        congruence).
  assert (D : forall k, dialogs (repeat (EvAfterIdleUpdate progress_step) k)
                        = [])
    by (induction k; [reflexivity | assumption]).
  destruct r as [[]| |].
  - destruct E as [-> | [-> | ->]]; [left | right; left | right; right];
      split; reflexivity.
  - destruct E as (n & Hn & ->). unfold progress_posts. rewrite L, D. auto.
  - destruct E as (n & Hn & ->). unfold progress_posts. rewrite L, D. auto.
Qed.

(** C7 (as amended): a run that reaches the end of [GUI.main] shows either
    one success dialog and no error dialog, after all six progress steps,
    or two error dialogs and no success dialog: the one of the check that
    failed ([checkDependencies] before any progress step, [loadSettings]
    after one), then the general one. *)
Theorem main_shows_one_success_or_two_errors
        (w : W) (d : dict) lg fuel thread_name :
  let out := main fuel thread_name (mkState w d lg []) in
  let shown := dialogs (trace (snd out)) in
  let posted := progress_posts (trace (snd out)) in
  fst out = Ok tt ->
  (shown = [EvShowInfo "Plugins were updated Successfully!"]
   /\ posted = 6%nat)
  \/ (shown = [EvShowError "Could not resolve dependencies!";
               EvShowError general_error]
      /\ posted = 0%nat)
  \/ (shown = [EvShowError "Could not resolve settings!";
               EvShowError general_error]
      /\ posted = 1%nat).
Proof.
  cbv zeta. intros Hok.
  pose proof (main_display_by_outcome w d lg fuel thread_name) as H.
  cbv zeta in H. rewrite Hok in H. exact H.
Qed.

(** C8: when [settings.txt] or [unzip_file.bat] is missing, the run ends
    failed after the dependency check alone: the machine is left as it was,
    and the only effects are the two error dialogs and [quit]; no browser is
    started, the download directory is not listed, nothing is extracted,
    copied or deleted. *)
Theorem main_stops_at_missing_dependency (s : state W) fuel thread_name :
  path_exists (world s) "settings.txt" = false
  \/ path_exists (world s) "unzip_file.bat" = false ->
  exists _file,
    In _file ["settings.txt"; "unzip_file.bat"]
    /\ path_exists (world s) _file = false
    /\ main fuel thread_name s
       = (Ok tt,
          mkState (world s) (settings s)
            (log s ++ [(INFO, ("Thread started: " ++ thread_name)%string);
                       (INFO, "Checking dependencies");
                       (ERROR, ("Path does not exist: " ++ _file)%string);
                       (INFO, "Quiting root")])%list
            (trace s ++ [EvShowError "Could not resolve dependencies!";
                         EvShowError general_error;
                         EvQuit])%list).
Proof.
  destruct s as [w d lg tr]; cbn [world settings log trace]. intros H.
  unfold main. rewrite bind_run. unfold logging at 1.
  cbn [world settings log trace]. rewrite bind_run.
  unfold main_loop. rewrite bind_run, checkDependencies_run.
  destruct (path_exists w "settings.txt") eqn:E1.
  - destruct H as [H|H]; [discriminate|]. rewrite H. cbn [negb]. run.
    exists "unzip_file.bat". split; [right; now left|]. split; [assumption|].
    rewrite <- !app_assoc. reflexivity.
  - cbn [negb]. run.
    exists "settings.txt". split; [now left|]. split; [assumption|].
    rewrite <- !app_assoc. reflexivity.
Qed.

(** ** The download step *)

Lemma fold_max_spec {A} (key : A -> Z) (rest : list A) :
  forall best,
    let m := fold_left (fun b y => if (key b <? key y)%Z then y else b)
                       rest best in
    (m = best \/ In m rest)
    /\ (key best <= key m)%Z
    /\ (forall x, In x rest -> (key x <= key m)%Z).
Proof.
  induction rest as [|y rest IH]; intros best; cbn [fold_left].
  - cbv zeta. repeat split; [now left | lia | intros x []].
  - specialize (IH (if (key best <? key y)%Z then y else best)).
    cbv zeta in IH |- *. destruct IH as (Hin & Hle & Hall).
    destruct (Z.ltb_spec (key best) (key y)).
    + repeat split.
      * destruct Hin as [->|Hin]; right; [now left | now right].
      * lia.
      * intros x [<-|Hx]; [assumption | now apply Hall].
    + repeat split.
      * destruct Hin as [->|Hin]; [now left | right; now right].
      * assumption.
      * intros x [<-|Hx]; [lia | now apply Hall].
Qed.

(** [max] picks an element of the sequence that no element exceeds. *)
Lemma max_by_spec {A} (key : A -> Z) (xs : list A) (m : A) :
  max_by key xs = Some m ->
  In m xs /\ forall x, In x xs -> (key x <= key m)%Z.
Proof.
  destruct xs as [|x0 rest]; cbn [max_by]; [discriminate|].
  intros [= <-]. destruct (fold_max_spec key rest x0) as (Hin & Hle & Hall).
  cbv zeta in *. split.
  - destruct Hin as [->|Hin]; [now left | now right].
  - intros x [<-|Hx]; [assumption | now apply Hall].
Qed.

(** Every path [glob] returns for a plain directory is an entry of the
    directory joined to it. *)
Lemma glob_zip_shape (w : W) (dir path : string) :
  plain_dir dir = true ->
  In path (glob_zip w dir) ->
  exists names name,
    listdir w dir = Some names /\ In name names
    /\ fnmatch_zip name = true /\ path = dir ++ "\" ++ name.
Proof.
  unfold glob_zip. intros ->.
  destruct (listdir w dir) as [names|]; [|intros []].
  intros H. apply in_map_iff in H. destruct H as (name & <- & H).
  apply filter_In in H. destruct H as [H1 H2]. eauto 6.
Qed.

Lemma glob_zip_nil (w : W) (dir : string) :
  plain_dir dir = true ->
  (forall names, listdir w dir = Some names ->
                 forall name, In name names -> fnmatch_zip name = false) ->
  glob_zip w dir = [].
Proof.
  unfold glob_zip. intros -> H.
  destruct (listdir w dir) as [names|]; [|reflexivity].
  specialize (H names eq_refl).
  induction names as [|n names IH]; [reflexivity|].
  cbn [filter]. rewrite (H n) by now left.
  apply IH. intros; apply H; now right.
Qed.

(** One round of the loop, by what it finds. *)
Lemma downloadPlugins_poll_run (w : W) (d : dict) lg tr (dir : string) :
  downloadPlugins_poll dir (mkState w d lg tr)
  = match max_by (getctime w) (glob_zip w dir) with
    | None =>
        (Raise (ValueError "max() arg is an empty sequence"),
         mkState w d lg (tr ++ [EvGlob (zip_pattern dir)])%list)
    | Some latest_file =>
        if contains "RocketPlugin_" latest_file then
          (Ok (Some (replace (dir ++ "\") "" latest_file, latest_file)),
           mkState w d (lg ++ [(INFO, "Download done")])%list
                   (tr ++ [EvGlob (zip_pattern dir)])%list)
        else
          (Ok None, mkState w d lg (tr ++ [EvGlob (zip_pattern dir)])%list)
    end.
Proof.
  unfold downloadPlugins_poll. run.
  destruct (max_by (getctime w) (glob_zip w dir)) as [latest|]; [|reflexivity].
  destruct (contains "RocketPlugin_" latest); reflexivity.
Qed.

Lemma downloadPlugins_loop_S fuel dir (s : state W) :
  downloadPlugins_loop (S fuel) dir s
  = match downloadPlugins_poll dir s with
    | (Ok (Some found), s') => (Ok found, s')
    | (Ok None, s') =>
        downloadPlugins_loop fuel dir
          (mkState (elapse (world s')) (settings s') (log s') (trace s'))
    | (Raise e, s') => (Raise e, s')
    | (Blocked, s') => (Blocked, s')
    end.
Proof.
  cbn [downloadPlugins_loop]. rewrite bind_run.
  destruct (downloadPlugins_poll dir s) as [[[found|]|e|] s']; reflexivity.
Qed.

(** Rounds that go round again only list the directory and let time pass. *)
Lemma downloadPlugins_loop_retries (n : nat) :
  forall fuel (w : W) (d : dict) lg tr dir,
    (forall i, (i < n)%nat -> retries (Nat.iter i elapse w) dir = true) ->
    downloadPlugins_loop (n + fuel) dir (mkState w d lg tr)
    = downloadPlugins_loop fuel dir
        (mkState (Nat.iter n elapse w) d lg
                 (tr ++ repeat (EvGlob (zip_pattern dir)) n)%list).
Proof.
  induction n as [|n IH]; intros fuel w d lg tr dir Hr.
  - change (Nat.iter 0 elapse w) with w. cbn [repeat plus].
    rewrite app_nil_r. reflexivity.
  - change (S n + fuel)%nat with (S (n + fuel)).
    rewrite downloadPlugins_loop_S, downloadPlugins_poll_run.
    pose proof (Hr 0%nat ltac:(lia)) as H0.
    change (Nat.iter 0 elapse w) with w in H0. unfold retries in H0.
    destruct (max_by (getctime w) (glob_zip w dir)) as [latest|];
      [|discriminate].
    apply negb_true_iff in H0. rewrite H0. cbn [world settings log trace].
    rewrite IH.
    + rewrite <- Nat.iter_succ_r. cbn [repeat].
      rewrite <- app_assoc. reflexivity.
    + intros i Hi. rewrite <- Nat.iter_succ_r. apply Hr. lia.
Qed.

(** [downloadPlugins] up to its loop. *)
Lemma downloadPlugins_run fuel dir (w : W) (d : dict) lg tr :
  downloadPlugins fuel dir (mkState w d lg tr)
  = downloadPlugins_loop fuel dir
      (mkState (popen w start_browser) d
               (lg ++ [(INFO, "Downloading")])%list
               (tr ++ [EvPopen start_browser])%list).
Proof. reflexivity. Qed.

(** ** Loading the settings *)

(** One line of [settings.txt], by what it is. *)
Lemma loadSettings_line_run (line : string) (w : W) (d : dict) lg tr :
  loadSettings_line line (mkState w d lg tr)
  = match classify line with
    | Skipped => (Ok None, mkState w d lg tr)
    | Malformed =>
        (Raise (ValueError "not enough values to unpack (expected 2, got 1)"),
         mkState w d lg tr)
    | Assign k v =>
        if dict_mem k d && contains "_dir" k then
          if path_exists w v then
            (Ok None,
             mkState w (dict_set k v d)
               (lg ++ [(INFO, "Using directory (Settings " ++ k ++ ") " ++ v)])
               tr)
          else
            match dict_get k d with
            | Some cur =>
                if path_exists w cur then
                  (Ok None,
                   mkState w d
                     (lg ++ [(WARNING, "Directory does not exist (Settings "
                                       ++ k ++ ") " ++ v);
                             (INFO, "Using directory (Default "
                                    ++ k ++ ") " ++ cur)])
                     tr)
                else
                  (Ok (Some false),
                   mkState w d
                     (lg ++ [(ERROR, "Directory does not exist (Settings "
                                     ++ k ++ ") " ++ v);
                             (ERROR, "Directory does not exist (Default "
                                     ++ k ++ ") " ++ cur)])
                     tr)
            | None => (Raise (KeyError k), mkState w d lg tr)
            end
        else (Ok None, mkState w d lg tr)
    end.
Proof.
  unfold loadSettings_line, classify.
  destruct (live_line (replace nl "" line)); [|reflexivity].
  destruct (split1 "=" (replace nl "" line)) as [|k [|v [|x rest]]];
    try reflexivity.
  run. destruct (dict_mem k d); [|reflexivity].
  destruct (contains "_dir" k); [|reflexivity]. cbn [andb].
  destruct (path_exists w v); [reflexivity|].
  destruct (dict_get k d) as [cur|]; [|reflexivity].
  destruct (path_exists w cur); cbn [negb]; rewrite <- app_assoc; reflexivity.
Qed.

(** [loadSettings] up to its loop over the lines. *)
Lemma loadSettings_lines (w : W) (d : dict) lg tr :
  path_exists w "settings.txt" = true ->
  read_error w "settings.txt" = None ->
  readlines (file_text w "settings.txt") <> [] ->
  loadSettings (mkState w d lg tr)
  = match for_ (readlines (file_text w "settings.txt")) loadSettings_line
            (mkState w d
               (lg ++ [(INFO, "Loading settings"); (INFO, "Read file")])%list
               tr) with
    | (Ok (Some b), s') => (Ok b, s')
    | (Ok None, s') =>
        (Ok true,
         mkState (world s') (settings s')
                 (log s' ++ [(INFO, "Loading done")])%list (trace s'))
    | (Raise e, s') => (Raise e, s')
    | (Blocked, s') => (Blocked, s')
    end.
Proof.
  intros Hex Hrd Hne. unfold loadSettings, read. run. rewrite Hex, Hrd.
  rewrite <- app_assoc. cbn [app].
  destruct (readlines (file_text w "settings.txt")) as [|l ls] eqn:E;
    [congruence|].
  match goal with
  | |- context [for_ ?xs ?f ?s] =>
      destruct (for_ xs f s) as [[[b|]|e|] [w1 d1 lg1 tr1]]; reflexivity
  end.
Qed.

(** The loop over the keys that checks the defaults never raises. *)
Lemma loadSettings_default_loop (keys : list string) (w : W) (d : dict) tr :
  (forall k, In k keys -> dict_mem k d = true) ->
  forall lg, exists r lg',
    for_ keys loadSettings_default (mkState w d lg tr)
    = (Ok r, mkState w d lg' tr).
Proof.
  intros Hk. induction keys as [|k keys IH]; intros lg.
  - exists None, lg. reflexivity.
  - rewrite for_cons. unfold loadSettings_default at 1.
    destruct (dict_get_mem k d) as [dir Hdir]; [apply Hk; now left|].
    assert (Hk' : forall k', In k' keys -> dict_mem k' d = true)
      by (intros; apply Hk; now right).
    destruct (contains "_dir" k); run; [rewrite Hdir|]; [|apply IH, Hk'].
    destruct (path_exists w dir); [apply IH, Hk'|]. eauto.
Qed.

(** On lines that all unpack, the loop over the lines never raises. *)
Lemma loadSettings_line_loop (lines : list string) (w : W) tr :
  forallb well_formed lines = true ->
  forall (d : dict) lg, exists r d' lg',
    for_ lines loadSettings_line (mkState w d lg tr)
    = (Ok r, mkState w d' lg' tr).
Proof.
  induction lines as [|l lines IH]; intros Hwf d lg.
  - exists None, d, lg. reflexivity.
  - cbn [forallb] in Hwf. apply andb_true_iff in Hwf. destruct Hwf as [Hl Hwf].
    rewrite for_cons, loadSettings_line_run. unfold well_formed in Hl.
    destruct (classify l) as [|k v|]; [apply IH, Hwf | | discriminate].
    destruct (dict_mem k d) eqn:Hm; cbn [andb]; [|apply IH, Hwf].
    destruct (contains "_dir" k); [|apply IH, Hwf].
    destruct (path_exists w v); [apply IH, Hwf|].
    destruct (dict_get_mem _ _ Hm) as [cur ->].
    destruct (path_exists w cur); [apply IH, Hwf | eauto].
Qed.

(** On a file whose lines all unpack, or without a file, [loadSettings]
    returns a boolean and leaves the machine and the effects as they were. *)
Lemma loadSettings_returns_bool (w : W) (d : dict) lg tr :
  (path_exists w "settings.txt" = true ->
   read_error w "settings.txt" = None
   /\ forallb well_formed (readlines (file_text w "settings.txt")) = true) ->
  exists b d' lg',
    loadSettings (mkState w d lg tr) = (Ok b, mkState w d' lg' tr).
Proof.
  intros Hwf.
  destruct (path_exists w "settings.txt") eqn:Hex.
  - destruct (Hwf eq_refl) as [Hrd Hwf']. clear Hwf. rename Hwf' into Hwf.
    destruct (readlines (file_text w "settings.txt")) as [|l ls] eqn:E.
    + unfold loadSettings, read. run. rewrite Hex, Hrd, E.
      match goal with
      | |- context [for_ ?ks loadSettings_default (mkState w d ?lg0 tr)] =>
          destruct (loadSettings_default_loop ks w d tr
                      (fun k H => dict_mem_keys k d H) lg0)
            as (r & lg' & ->)
      end.
      destruct r as [b|]; eauto.
    + rewrite loadSettings_lines by (rewrite ?E; congruence). rewrite E.
      match goal with
      | |- context [for_ ?ls loadSettings_line (mkState w d ?lg0 tr)] =>
          destruct (loadSettings_line_loop ls w tr Hwf d lg0)
            as (r & d' & lg' & ->)
      end.
      destruct r as [b|]; cbn [world settings log trace]; eauto.
  - unfold loadSettings, read. run. rewrite Hex.
    match goal with
    | |- context [for_ ?ks loadSettings_default (mkState w d ?lg0 tr)] =>
        destruct (loadSettings_default_loop ks w d tr
                    (fun k H => dict_mem_keys k d H) lg0)
          as (r & lg' & ->)
    end.
    destruct r as [b|]; eauto.
Qed.

Lemma dict_mem_two_dirs (k dl bm : string) :
  dict_mem k (two_dirs dl bm)
  = String.eqb k "download_dir" || String.eqb k "bakkesmod_dir".
Proof. unfold two_dirs, dict_mem. cbn [existsb fst]. now rewrite orb_false_r. Qed.

Lemma configured_cons (key line : string) (rest : list string) :
  configured key (line :: rest)
  = match configured key rest with
    | Some v => Some v
    | None =>
        match classify line with
        | Assign k v => if String.eqb key k then Some v else None
        | _ => None
        end
    end.
Proof. reflexivity. Qed.

(** When every directory the file assigns exists, the loop over the lines
    ends with each key holding the value of its last assignment. *)
Lemma loadSettings_line_loop_configured (lines : list string) (w : W) tr :
  forallb well_formed lines = true ->
  (forall l k v, In l lines -> classify l = Assign k v ->
                 k = "download_dir" \/ k = "bakkesmod_dir" ->
                 path_exists w v = true) ->
  forall dl bm lg, exists lg',
    for_ lines loadSettings_line (mkState w (two_dirs dl bm) lg tr)
    = (Ok None,
       mkState w
         (two_dirs (or_previous dl (configured "download_dir" lines))
                   (or_previous bm (configured "bakkesmod_dir" lines)))
         lg' tr).
Proof.
  induction lines as [|l lines IH]; intros Hwf Hex dl bm lg.
  - exists lg. reflexivity.
  - cbn [forallb] in Hwf. apply andb_true_iff in Hwf. destruct Hwf as [Hl Hwf].
    assert (Hex' : forall l' k v, In l' lines -> classify l' = Assign k v ->
                     k = "download_dir" \/ k = "bakkesmod_dir" ->
                     path_exists w v = true)
      by (intros; eapply Hex; eauto; now right).
    specialize (IH Hwf Hex').
    rewrite for_cons, loadSettings_line_run, !configured_cons.
    unfold well_formed in Hl.
    pose proof (Hex l) as Hl'. specialize (fun k v => Hl' k v (or_introl eq_refl)).
    destruct (classify l) as [|k v|]; [| |discriminate].
    + destruct (IH dl bm lg) as [lg' ->]. exists lg'.
      destruct (configured "download_dir" lines),
        (configured "bakkesmod_dir" lines); reflexivity.
    + rewrite dict_mem_two_dirs.
      destruct (String.eqb_spec k "download_dir") as [->|Hd].
      * cbn [orb andb]. change (contains "_dir" "download_dir") with true.
        cbn iota. rewrite (Hl' _ _ eq_refl) by now left.
        match goal with
        | |- context [mkState w (dict_set _ _ _) ?lg0 tr] =>
            destruct (IH v bm lg0) as [lg' E]
        end.
        exists lg'. change (dict_set "download_dir" v (two_dirs dl bm))
                      with (two_dirs v bm).
        rewrite E. change ("bakkesmod_dir" =? "download_dir") with false.
        change ("download_dir" =? "download_dir") with true.
        destruct (configured "download_dir" lines),
          (configured "bakkesmod_dir" lines); reflexivity.
      * destruct (String.eqb_spec k "bakkesmod_dir") as [->|Hb].
        -- cbn [orb andb]. change (contains "_dir" "bakkesmod_dir") with true.
           cbn iota. rewrite (Hl' _ _ eq_refl) by now right.
           match goal with
           | |- context [mkState w (dict_set _ _ _) ?lg0 tr] =>
               destruct (IH dl v lg0) as [lg' E]
           end.
           exists lg'. change (dict_set "bakkesmod_dir" v (two_dirs dl bm))
                         with (two_dirs dl v).
           rewrite E. change ("download_dir" =? "bakkesmod_dir") with false.
           change ("bakkesmod_dir" =? "bakkesmod_dir") with true.
           destruct (configured "download_dir" lines),
             (configured "bakkesmod_dir" lines); reflexivity.
        -- cbn [orb andb]. destruct (IH dl bm lg) as [lg' ->]. exists lg'.
           assert (E1 : String.eqb "download_dir" k = false)
             by (apply String.eqb_neq; congruence).
           assert (E2 : String.eqb "bakkesmod_dir" k = false)
             by (apply String.eqb_neq; congruence).
           rewrite E1, E2.
           destruct (configured "download_dir" lines),
             (configured "bakkesmod_dir" lines); reflexivity.
Qed.

(** While no line gives [bakkesmod_dir] a directory that exists, the loop
    either has returned false or still holds the value it started with. *)
Lemma loadSettings_line_loop_keeps_bakkesmod (lines : list string) (w : W) tr :
  forallb well_formed lines = true ->
  (forall l v, In l lines -> classify l = Assign "bakkesmod_dir" v ->
               path_exists w v = false) ->
  forall dl bm lg,
    (exists s', for_ lines loadSettings_line (mkState w (two_dirs dl bm) lg tr)
                = (Ok (Some false), s'))
    \/ (exists dl' lg',
          for_ lines loadSettings_line (mkState w (two_dirs dl bm) lg tr)
          = (Ok None, mkState w (two_dirs dl' bm) lg' tr)).
Proof.
  induction lines as [|l lines IH]; intros Hwf Hno dl bm lg.
  - right. exists dl, lg. reflexivity.
  - cbn [forallb] in Hwf. apply andb_true_iff in Hwf. destruct Hwf as [Hl Hwf].
    assert (Hno' : forall l' v, In l' lines ->
                     classify l' = Assign "bakkesmod_dir" v ->
                     path_exists w v = false)
      by (intros; eapply Hno; eauto; now right).
    specialize (IH Hwf Hno').
    rewrite for_cons, loadSettings_line_run. unfold well_formed in Hl.
    pose proof (Hno l) as Hl'. specialize (fun v => Hl' v (or_introl eq_refl)).
    destruct (classify l) as [|k v|]; [apply IH | | discriminate].
    rewrite dict_mem_two_dirs.
    destruct (String.eqb_spec k "download_dir") as [->|Hd].
    + cbn [orb andb]. change (contains "_dir" "download_dir") with true.
      cbn iota. destruct (path_exists w v).
      * change (dict_set "download_dir" v (two_dirs dl bm))
          with (two_dirs v bm). apply IH.
      * change (dict_get "download_dir" (two_dirs dl bm)) with (Some dl).
        cbn iota. destruct (path_exists w dl); [apply IH | left; eauto].
    + destruct (String.eqb_spec k "bakkesmod_dir") as [->|Hb].
      * cbn [orb andb]. change (contains "_dir" "bakkesmod_dir") with true.
        cbn iota. rewrite (Hl' _ eq_refl).
        change (dict_get "bakkesmod_dir" (two_dirs dl bm)) with (Some bm).
        cbn iota. destruct (path_exists w bm); [apply IH | left; eauto].
      * cbn [orb andb]. apply IH.
Qed.

(** C1: started from the built-in defaults on a configuration file that
    can be opened and read as text (lines
    that are blank, comments or [key=value]) in which [download_dir] and
    [bakkesmod_dir] are assigned and every directory assigned to them
    exists, [loadSettings] returns true and [settings] holds exactly the
    values assigned (the last one when a key is assigned twice).  And when a
    line assigns [bakkesmod_dir] a directory that does not exist, no line
    before it has given it one that does, and the built-in default does not
    exist either, [loadSettings] returns false. *)
Theorem loadSettings_configured_directories
        (w : W) (USERPROFILE APPDATA : string) lg tr :
  let s := mkState w (settings_default USERPROFILE APPDATA) lg tr in
  let lines := readlines (file_text w "settings.txt") in
  (forall dl bm,
      path_exists w "settings.txt" = true ->
      read_error w "settings.txt" = None ->
      forallb well_formed lines = true ->
      (forall l k v, In l lines -> classify l = Assign k v ->
                     k = "download_dir" \/ k = "bakkesmod_dir" ->
                     path_exists w v = true) ->
      configured "download_dir" lines = Some dl ->
      configured "bakkesmod_dir" lines = Some bm ->
      fst (loadSettings s) = Ok true
      /\ settings (snd (loadSettings s)) = two_dirs dl bm)
  /\ (forall pre line post v,
         path_exists w "settings.txt" = true ->
         read_error w "settings.txt" = None ->
         lines = (pre ++ line :: post)%list ->
         forallb well_formed pre = true ->
         (forall l v', In l pre -> classify l = Assign "bakkesmod_dir" v' ->
                       path_exists w v' = false) ->
         classify line = Assign "bakkesmod_dir" v ->
         path_exists w v = false ->
         path_exists w (BAKKESMOD_DIR APPDATA) = false ->
         fst (loadSettings s) = Ok false).
Proof.
  cbv zeta. split.
  - intros dl bm Hex Hrd Hwf Hdirs Hdl Hbm.
    assert (Hne : readlines (file_text w "settings.txt") <> [])
      by (intros E; rewrite E in Hdl; discriminate).
    rewrite loadSettings_lines by assumption.
    change (settings_default USERPROFILE APPDATA)
      with (two_dirs (DOWNLOAD_DIR USERPROFILE) (BAKKESMOD_DIR APPDATA)).
    match goal with
    | |- context [for_ ?ls loadSettings_line (mkState w (two_dirs ?a ?b) ?lg0 tr)] =>
        destruct (loadSettings_line_loop_configured ls w tr Hwf Hdirs a b lg0)
          as [lg' ->]
    end.
    rewrite Hdl, Hbm. split; reflexivity.
  - intros pre line post v Hex Hrd Hlines Hwf Hno Hline Hv Hdef.
    assert (Hne : readlines (file_text w "settings.txt") <> [])
      by (rewrite Hlines; destruct pre; discriminate).
    rewrite loadSettings_lines by assumption. rewrite Hlines, for_app.
    change (settings_default USERPROFILE APPDATA)
      with (two_dirs (DOWNLOAD_DIR USERPROFILE) (BAKKESMOD_DIR APPDATA)).
    match goal with
    | |- context [for_ pre loadSettings_line (mkState w (two_dirs ?a ?b) ?lg0 tr)] =>
        destruct (loadSettings_line_loop_keeps_bakkesmod pre w tr Hwf Hno
                    a b lg0) as [[s' ->] | (dl' & lg' & ->)]
    end; [reflexivity|].
    rewrite for_cons, loadSettings_line_run, Hline, dict_mem_two_dirs.
    change (contains "_dir" "bakkesmod_dir") with true.
    change (String.eqb "bakkesmod_dir" "download_dir"
            || String.eqb "bakkesmod_dir" "bakkesmod_dir") with true.
    cbn [andb]. rewrite Hv.
    change (dict_get "bakkesmod_dir" (two_dirs dl' (BAKKESMOD_DIR APPDATA)))
      with (Some (BAKKESMOD_DIR APPDATA)).
    cbn iota. rewrite Hdef. reflexivity.
Qed.

(** C6 (as amended): on a configuration file that can be opened and read as
    text and whose non-empty, non-comment lines all contain the separator,
    and when there is no file, [loadSettings] returns a boolean, whatever
    [settings] holds: a directory that cannot be resolved is reported by
    returning false. *)
Theorem loadSettings_returns_boolean (w : W) (d : dict) lg tr :
  (path_exists w "settings.txt" = true ->
   read_error w "settings.txt" = None
   /\ forallb well_formed (readlines (file_text w "settings.txt")) = true) ->
  exists b, fst (loadSettings (mkState w d lg tr)) = Ok b.
Proof.
  intros Hwf.
  destruct (loadSettings_returns_bool w d lg tr Hwf) as (b & d' & lg' & ->).
  exists b. reflexivity.
Qed.

(** C3: the candidates of a round are the archive files of the download
    directory (a plain directory path): what [glob] lists are exactly the
    entries of the directory whose name ends in [.zip], in any letter case,
    and does not start with a dot, each joined to the directory.  Each round
    takes, among them, one whose creation time no other exceeds; the
    first round in which that archive's name starts with [RocketPlugin_]
    returns its name and path; and from a directory that holds
    [RocketPlugin_v1.zip] and a more recently created
    [RocketPlugin_v2.zip], and besides them only entries that are no
    archives, however recent, the step returns [RocketPlugin_v2.zip]. *)
Theorem downloadPlugins_returns_newest_archive
        (w : W) (d : dict) lg tr (dir : string) :
  let w0 := popen w start_browser in
  (plain_dir dir = true ->
   forall w' f,
     In f (glob_zip w' dir)
     <-> exists names name,
           listdir w' dir = Some names /\ In name names
           /\ f = dir ++ "\" ++ name
           /\ prefix "." name = false
           /\ endswith ".zip" (lower name) = true)
  /\ (forall w' latest,
      max_by (getctime w') (glob_zip w' dir) = Some latest ->
      In latest (glob_zip w' dir)
      /\ forall f, In f (glob_zip w' dir) ->
                   (getctime w' f <= getctime w' latest)%Z)
  /\ (forall n fuel name,
         (forall i, (i < n)%nat -> retries (Nat.iter i elapse w0) dir = true) ->
         max_by (getctime (Nat.iter n elapse w0))
                (glob_zip (Nat.iter n elapse w0) dir)
         = Some (dir ++ "\" ++ name) ->
         prefix "RocketPlugin_" name = true ->
         contains "\" name = false ->
         (n < fuel)%nat ->
         fst (downloadPlugins fuel dir (mkState w d lg tr))
         = Ok (name, dir ++ "\" ++ name))
  /\ (forall names fuel,
         plain_dir dir = true ->
         listdir w0 dir = Some names ->
         In "RocketPlugin_v1.zip" names ->
         In "RocketPlugin_v2.zip" names ->
         (forall name, In name names ->
                       name = "RocketPlugin_v1.zip"
                       \/ name = "RocketPlugin_v2.zip"
                       \/ endswith ".zip" (lower name) = false
                       \/ prefix "." name = true) ->
         (getctime w0 (dir ++ "\" ++ "RocketPlugin_v1.zip")
          < getctime w0 (dir ++ "\" ++ "RocketPlugin_v2.zip"))%Z ->
         (0 < fuel)%nat ->
         fst (downloadPlugins fuel dir (mkState w d lg tr))
         = Ok ("RocketPlugin_v2.zip", dir ++ "\" ++ "RocketPlugin_v2.zip")).
Proof.
  cbv zeta.
  assert (B : forall n fuel name,
             (forall i, (i < n)%nat ->
                        retries (Nat.iter i elapse (popen w start_browser)) dir
                        = true) ->
             max_by (getctime (Nat.iter n elapse (popen w start_browser)))
                    (glob_zip (Nat.iter n elapse (popen w start_browser)) dir)
             = Some (dir ++ "\" ++ name) ->
             prefix "RocketPlugin_" name = true ->
             contains "\" name = false ->
             (n < fuel)%nat ->
             fst (downloadPlugins fuel dir (mkState w d lg tr))
             = Ok (name, dir ++ "\" ++ name)).
  { intros n fuel name Hr Hmax Hp Hn Hf.
    rewrite downloadPlugins_run.
    replace fuel with (n + S (fuel - S n))%nat by lia.
    rewrite downloadPlugins_loop_retries by assumption.
    rewrite downloadPlugins_loop_S, downloadPlugins_poll_run, Hmax.
    assert (Hc : contains "RocketPlugin_" (dir ++ "\" ++ name) = true)
      by (do 2 apply contains_app_r; apply contains_prefix; assumption).
    rewrite Hc, replace_dir_prefix by assumption. reflexivity. }
  assert (G : plain_dir dir = true ->
              forall w' f,
                In f (glob_zip w' dir)
                <-> exists names name,
                      listdir w' dir = Some names /\ In name names
                      /\ f = dir ++ "\" ++ name
                      /\ prefix "." name = false
                      /\ endswith ".zip" (lower name) = true).
  { intros Hplain w' f. unfold glob_zip. rewrite Hplain. split.
    - destruct (listdir w' dir) as [names|]; [|intros []].
      intros H. apply in_map_iff in H. destruct H as (name & <- & H).
      apply filter_In in H. destruct H as [H1 H2].
      unfold fnmatch_zip in H2. apply andb_true_iff in H2.
      destruct H2 as [H2 H3]. apply negb_true_iff in H2.
      exists names, name. repeat split; assumption.
    - intros (names & name & -> & Hin & -> & Hdot & Hzip).
      apply in_map_iff. exists name. split; [reflexivity|].
      apply filter_In. split; [assumption|].
      unfold fnmatch_zip. rewrite Hdot, Hzip. reflexivity. }
  split; [exact G|].
  split; [intros w' latest; apply max_by_spec|]. split; [exact B|].
  intros names fuel Hplain Hls _ H2 Hothers Hlt Hf.
  apply (B 0%nat); try reflexivity; try assumption; [intros i Hi; lia|].
  change (Nat.iter 0 elapse (popen w start_browser))
    with (popen w start_browser).
  assert (Hv2 : In (dir ++ "\" ++ "RocketPlugin_v2.zip")
                   (glob_zip (popen w start_browser) dir)).
  { apply (G Hplain). exists names, "RocketPlugin_v2.zip".
    repeat split; assumption. }
  destruct (max_by (getctime (popen w start_browser))
                   (glob_zip (popen w start_browser) dir))
    as [latest|] eqn:Hmax.
  2:{ destruct (glob_zip (popen w start_browser) dir);
        [destruct Hv2 | discriminate]. }
  destruct (max_by_spec _ _ Hmax) as [Hin Hle].
  apply (G Hplain) in Hin.
  destruct Hin as (names' & name & Hls' & Hname & -> & Hdot & Hzip).
  rewrite Hls in Hls'. injection Hls' as <-.
  destruct (Hothers name Hname) as [-> | [-> | [Hn | Hn]]];
    [| reflexivity | congruence ..].
  specialize (Hle _ Hv2). lia.
Qed.

(** C9: a round that finds no [.zip] entry in the download directory (a
    plain directory path) ends the step with the [ValueError] of [max] on an
    empty sequence, however many more rounds could be observed; the
    directory is not listed again. *)
Theorem downloadPlugins_raises_without_archive
        (w : W) (d : dict) lg tr (dir : string) (n fuel : nat) :
  let w0 := popen w start_browser in
  plain_dir dir = true ->
  (forall i, (i < n)%nat -> retries (Nat.iter i elapse w0) dir = true) ->
  (forall names, listdir (Nat.iter n elapse w0) dir = Some names ->
                 forall name, In name names -> fnmatch_zip name = false) ->
  (n < fuel)%nat ->
  downloadPlugins fuel dir (mkState w d lg tr)
  = (Raise (ValueError "max() arg is an empty sequence"),
     mkState (Nat.iter n elapse w0) d
       (lg ++ [(INFO, "Downloading")])%list
       (tr ++ EvPopen start_browser
           :: repeat (EvGlob (zip_pattern dir)) (S n))%list).
Proof.
  cbv zeta. intros Hplain Hr Hnone Hf.
  rewrite downloadPlugins_run.
  replace fuel with (n + S (fuel - S n))%nat by lia.
  rewrite downloadPlugins_loop_retries by assumption.
  rewrite downloadPlugins_loop_S, downloadPlugins_poll_run.
  rewrite (glob_zip_nil _ _ Hplain Hnone). cbn [max_by].
  f_equal. f_equal. rewrite <- !app_assoc. cbn [app].
  f_equal. f_equal. clear.
  induction n as [|n IH]; [reflexivity|].
  cbn [repeat app] in *. f_equal. exact IH.
Qed.

(** C10: a round accepts the newest archive exactly when [RocketPlugin_]
    occurs somewhere in its full path.  So an archive whose name contains
    [RocketPlugin_] at any place is accepted, and when the path of the
    download directory (a plain directory path) contains it, the newest
    archive is accepted whatever its name. *)
Theorem downloadPlugins_accepts_by_substring
        (w : W) (d : dict) lg tr (dir : string) :
  let round := downloadPlugins_poll dir (mkState w d lg tr) in
  let newest := max_by (getctime w) (glob_zip w dir) in
  (forall latest,
      newest = Some latest ->
      fst round
      = if contains "RocketPlugin_" latest
        then Ok (Some (replace (dir ++ "\") "" latest, latest))
        else Ok None)
  /\ (forall name,
         newest = Some (dir ++ "\" ++ name) ->
         contains "RocketPlugin_" name = true ->
         fst round
         = Ok (Some (replace (dir ++ "\") "" (dir ++ "\" ++ name),
                     dir ++ "\" ++ name)))
  /\ (plain_dir dir = true ->
      contains "RocketPlugin_" dir = true ->
      forall latest,
        newest = Some latest ->
        fst round = Ok (Some (replace (dir ++ "\") "" latest, latest))).
Proof.
  cbv zeta.
  assert (A : forall latest,
             max_by (getctime w) (glob_zip w dir) = Some latest ->
             fst (downloadPlugins_poll dir (mkState w d lg tr))
             = if contains "RocketPlugin_" latest
               then Ok (Some (replace (dir ++ "\") "" latest, latest))
               else Ok None).
  { intros latest H. rewrite downloadPlugins_poll_run, H.
    destruct (contains "RocketPlugin_" latest); reflexivity. }
  split; [exact A|]. split.
  - intros name H Hc. rewrite (A _ H).
    assert (Hc' : contains "RocketPlugin_" (dir ++ "\" ++ name) = true)
      by (do 2 apply contains_app_r; assumption).
    rewrite Hc'. reflexivity.
  - intros Hplain Hd latest H. rewrite (A _ H).
    destruct (max_by_spec _ _ H) as [Hin _].
    destruct (glob_zip_shape _ _ _ Hplain Hin)
      as (names & name & _ & _ & _ & ->).
    rewrite contains_app_l by assumption. reflexivity.
Qed.

End Facts.

(* ===================================================================== *)
(** ** The extraction directory *)
(* ===================================================================== *)

Lemma prefix_within (p s r : string) :
  (String.length p <= String.length s)%nat ->
  prefix p (s ++ r) = prefix p s.
Proof.
  revert s; induction p as [|c p IH]; intros s H.
  - destruct s, r; reflexivity.
  - destruct s as [|x s]; cbn [String.length] in H; [lia|].
    cbn [append prefix]. destruct (ascii_dec c x); [|reflexivity].
    apply IH. lia.
Qed.

(** When [.zip] occurs in the archive path only as its ending, the
    directory [GUI.main] computes is the path without that ending. *)
Lemma file_dir_of_plain (stem : string) :
  contains ".zip" (stem ++ ".zi") = false ->
  file_dir_of (stem ++ ".zip") = stem.
Proof.
  unfold file_dir_of, replace.
  induction stem as [|c stem IH]; intros H; [reflexivity|].
  cbn [append contains] in H. apply orb_false_iff in H. destruct H as [Hp Hc].
  cbn [append replace_from].
  change (String c (stem ++ ".zip")) with (String c stem ++ ".zip").
  replace (String c stem ++ ".zip") with ((String c stem ++ ".zi") ++ "p")
    by (rewrite append_assoc; reflexivity).
  rewrite prefix_within.
  - change (String c stem ++ ".zi") with (String c (stem ++ ".zi")).
    rewrite Hp. f_equal. apply IH, Hc.
  - clear. cbn [append String.length]. induction stem; cbn; lia.
Qed.

(** C5: [GUI.main] takes every [.zip] out of the archive path, not only its
    extension.  For an archive downloaded below [C:\Users\john.zipper] the
    directory it computes lies below [C:\Users\johnper], while the path
    without its extension keeps the directory as it is. *)
Theorem file_dir_of_removes_every_zip :
  file_dir_of "C:\Users\john.zipper\Downloads\RocketPlugin_v2.zip"
  = "C:\Users\johnper\Downloads\RocketPlugin_v2"
  /\ without_extension "C:\Users\john.zipper\Downloads\RocketPlugin_v2.zip"
     = "C:\Users\john.zipper\Downloads\RocketPlugin_v2"
  /\ String.eqb
       (file_dir_of "C:\Users\john.zipper\Downloads\RocketPlugin_v2.zip")
       (without_extension
          "C:\Users\john.zipper\Downloads\RocketPlugin_v2.zip")
     = false.
Proof. repeat split. Qed.

(** An archive whose extension is written in capitals is listed by [glob],
    and keeps its whole path as extraction directory. *)
Example file_dir_of_keeps_capital_extension :
  fnmatch_zip "RocketPlugin_v2.ZIP" = true
  /\ file_dir_of "D:\dl\RocketPlugin_v2.ZIP" = "D:\dl\RocketPlugin_v2.ZIP".
Proof. split; reflexivity. Qed.

(** On a machine with such a download directory the helper is started on
    the wrong directory and the update step then fails. *)
Example main_dotted_download_dir :
  let out := main 1 "Thread-2" (Sim.boot Sim.dotted) in
  fst out
  = Raise (OSError
             "C:\Users\johnper\Downloads\RocketPlugin_v2\data\RocketPlugin\presets")
  /\ In (EvPopenWait ["unzip_file.bat";
                      "C:\Users\johnper\Downloads\RocketPlugin_v2"])
        (trace (snd out)).
Proof. vm_compute. split; [reflexivity | tauto]. Qed.

(* ===================================================================== *)
(** ** Runs on the in-memory machine *)
(* ===================================================================== *)

(** A full run: the archive lands before the third poll, is unpacked and
    installed, then removed with its directory. *)
Example main_ready_succeeds :
  let out := main 3 "Thread-2" (Sim.boot Sim.ready) in
  fst out = Ok tt
  /\ dialogs (trace (snd out))
     = [EvShowInfo "Plugins were updated Successfully!"]
  /\ settings (snd out) = two_dirs "D:\dl" "D:\bm"
  /\ Sim.is_file (world (snd out)) "D:\bm\plugins\RocketPlugin.dll" = true
  /\ path_exists (world (snd out)) "D:\dl\RocketPlugin_v2.zip" = false
  /\ path_exists (world (snd out)) "D:\dl\RocketPlugin_v2" = false.
Proof. vm_compute. repeat split. Qed.

(** C6, counterexample: a line without the separator makes [loadSettings]
    raise [ValueError] instead of returning. *)
Lemma loadSettings_raises_on_line_without_separator :
  fst (loadSettings (Sim.boot Sim.unpackable))
  = Raise (ValueError "not enough values to unpack (expected 2, got 1)").
Proof. vm_compute. reflexivity. Qed.

(** A settings file that is there but cannot be decoded makes [read], and
    with it [loadSettings] and the run, leave with the exception of the
    reading; the run has posted one progress step and shows no dialog. *)
Example loadSettings_raises_on_undecodable_file :
  path_exists Sim.garbled_settings "settings.txt" = true
  /\ fst (loadSettings (Sim.boot Sim.garbled_settings))
     = Raise (UnicodeDecodeError
                "'charmap' codec can't decode byte 0x81 in position 3: character maps to <undefined>")
  /\ trace (snd (main 3 "Thread-2" (Sim.boot Sim.garbled_settings)))
     = [EvAfterIdleUpdate progress_step].
Proof. vm_compute. repeat split. Qed.

(** A copy into a directory that is not there fails on the destination,
    not on the source. *)
Example updatePlugins_raises_for_missing_destination :
  let out := updatePlugins "D:\bm" "D:\dl\RocketPlugin_v2"
               (Sim.boot Sim.no_cfg) in
  path_exists Sim.no_cfg
    "D:\dl\RocketPlugin_v2\data\RocketPlugin\presets\classic.cfg" = true
  /\ fst out = Raise (OSError "D:\bm\cfg\")
  /\ trace (snd out)
     = [EvCopy "D:\dl\RocketPlugin_v2\data\RocketPlugin\presets\classic.cfg"
               "D:\bm\cfg\"].
Proof. vm_compute. repeat split. Qed.

(** C7, counterexample: without the extraction helper the run shows two
    error dialogs. *)
Lemma main_shows_two_error_dialogs :
  dialogs (trace (snd (main 1 "Thread-2" (Sim.boot Sim.no_helper))))
  = [EvShowError "Could not resolve dependencies!";
     EvShowError general_error]
  /\ List.length
       (dialogs (trace (snd (main 1 "Thread-2" (Sim.boot Sim.no_helper)))))
     = 2%nat.
Proof. vm_compute. split; reflexivity. Qed.

(* ===================================================================== *)
(** ** The theorems at work on the in-memory machine *)
(* ===================================================================== *)

(** C1 at work: the settings file of [Sim.ready] names two directories
    that exist; that of [Sim.lost_bakkesmod] names a missing one while the
    default under [APPDATA] is missing too. *)
Lemma loadSettings_configured_directories_witness :
  (fst (loadSettings (Sim.boot Sim.ready)) = Ok true
   /\ settings (snd (loadSettings (Sim.boot Sim.ready)))
      = two_dirs "D:\dl" "D:\bm")
  /\ fst (loadSettings (Sim.boot Sim.lost_bakkesmod)) = Ok false.
Proof.
  split.
  - destruct (loadSettings_configured_directories
                Sim.ready Sim.USERPROFILE Sim.APPDATA [] []) as [A _].
    apply A.
    + reflexivity.
    + reflexivity.
    + vm_compute. reflexivity.
    + intros l k v Hin Hc _. vm_compute in Hin.
      destruct Hin as [<-|[<-|[<-|[<-|[]]]]]; vm_compute in Hc;
        try discriminate; injection Hc as <- <-; reflexivity.
    + vm_compute. reflexivity.
    + vm_compute. reflexivity.
  - destruct (loadSettings_configured_directories
                Sim.lost_bakkesmod Sim.USERPROFILE Sim.APPDATA [] [])
      as [_ B].
    apply (B ["download_dir=D:\dl" ++ nl] ("bakkesmod_dir=D:\nowhere" ++ nl)
             [] "D:\nowhere").
    + reflexivity.
    + reflexivity.
    + vm_compute. reflexivity.
    + vm_compute. reflexivity.
    + intros l v' Hin Hc. vm_compute in Hin.
      destruct Hin as [<-|[]]. vm_compute in Hc. discriminate.
    + vm_compute. reflexivity.
    + reflexivity.
    + reflexivity.
Defined.

(** C2 at work: on [Sim.ready] both auxiliary files are there and neither
    default directory is; the check succeeds and warns. *)
Lemma checkDependencies_false_iff_file_missing_witness :
  fst (checkDependencies (Sim.boot Sim.ready)) = Ok true
  /\ In (WARNING,
         "Directory does not exist: (Default download_dir) C:\Users\u\Downloads")
        (log (snd (checkDependencies (Sim.boot Sim.ready)))).
Proof.
  destruct (checkDependencies_false_iff_file_missing
              Sim.ready (settings_default Sim.USERPROFILE Sim.APPDATA) [] [])
    as (_ & _ & _ & _ & _ & _ & H).
  apply (H "download_dir" "C:\Users\u\Downloads"); reflexivity.
Defined.

(** C3 at work: on [Sim.ready] two rounds see only [notes.zip], the third
    finds the plugin archive; on [Sim.two_archives] the newer of the two
    archives is returned, and so it is on [Sim.archives_and_others], where
    a text file and a hidden archive are more recent than both. *)
Lemma downloadPlugins_returns_newest_archive_witness :
  fst (downloadPlugins 3 "D:\dl" (Sim.boot Sim.ready))
  = Ok ("RocketPlugin_v2.zip", "D:\dl\RocketPlugin_v2.zip")
  /\ fst (downloadPlugins 1 "D:\dl" (Sim.boot Sim.two_archives))
     = Ok ("RocketPlugin_v2.zip", "D:\dl\RocketPlugin_v2.zip")
  /\ fst (downloadPlugins 1 "D:\dl" (Sim.boot Sim.archives_and_others))
     = Ok ("RocketPlugin_v2.zip", "D:\dl\RocketPlugin_v2.zip")
  /\ (getctime Sim.archives_and_others "D:\dl\RocketPlugin_v2.zip"
      < getctime Sim.archives_and_others "D:\dl\RocketPlugin_readme.txt")%Z
  /\ ~ In "D:\dl\RocketPlugin_readme.txt"
         (glob_zip Sim.archives_and_others "D:\dl").
Proof.
  split; [|split; [|split; [|split]]].
  - destruct (downloadPlugins_returns_newest_archive
                Sim.ready (settings_default Sim.USERPROFILE Sim.APPDATA)
                [] [] "D:\dl") as (_ & _ & B & _).
    apply (B 2%nat 3%nat "RocketPlugin_v2.zip").
    + intros i Hi.
      destruct i as [|[|i]]; [reflexivity | reflexivity | lia].
    + reflexivity.
    + reflexivity.
    + reflexivity.
    + lia.
  - destruct (downloadPlugins_returns_newest_archive
                Sim.two_archives (settings_default Sim.USERPROFILE Sim.APPDATA)
                [] [] "D:\dl") as (_ & _ & _ & C).
    apply (C ["RocketPlugin_v1.zip"; "RocketPlugin_v2.zip"] 1%nat).
    + reflexivity.
    + reflexivity.
    + left; reflexivity.
    + right; left; reflexivity.
    + intros name [<- | [<- | []]]; auto.
    + reflexivity.
    + lia.
  - destruct (downloadPlugins_returns_newest_archive
                Sim.archives_and_others
                (settings_default Sim.USERPROFILE Sim.APPDATA)
                [] [] "D:\dl") as (_ & _ & _ & C).
    apply (C ["RocketPlugin_v1.zip"; "RocketPlugin_readme.txt";
              "RocketPlugin_v2.zip"; "RocketPlugin_v3";
              ".RocketPlugin_v4.zip"] 1%nat).
    + reflexivity.
    + reflexivity.
    + left; reflexivity.
    + right; right; left; reflexivity.
    + intros name [<- | [<- | [<- | [<- | [<- | []]]]]]; auto.
    + reflexivity.
    + lia.
  - reflexivity.
  - destruct (downloadPlugins_returns_newest_archive
                Sim.archives_and_others
                (settings_default Sim.USERPROFILE Sim.APPDATA)
                [] [] "D:\dl") as (G & _).
    intros H. apply (G eq_refl) in H.
    destruct H as (names & name & _ & _ & E & _ & Hzip).
    apply (f_equal (drop 6)) in E. cbn in E. subst name.
    discriminate.
Defined.

(** C4 at work: on [Sim.downloaded] the first call unpacks the archive,
    the second finds the directory and starts nothing. *)
Lemma unzipPlugins_idempotent_witness :
  let first := unzipPlugins "D:\dl\RocketPlugin_v2" (Sim.boot Sim.downloaded) in
  let second := unzipPlugins "D:\dl\RocketPlugin_v2" (snd first) in
  trace (snd first)
  = [EvPopenWait ["unzip_file.bat"; "D:\dl\RocketPlugin_v2"]]
  /\ fst second = Ok tt
  /\ world (snd second) = world (snd first)
  /\ trace (snd second) = trace (snd first).
Proof.
  cbv zeta. split; [reflexivity|].
  destruct (unzipPlugins_idempotent (Sim.boot Sim.downloaded)
              "D:\dl\RocketPlugin_v2") as (_ & _ & H).
  apply H. reflexivity.
Defined.

(** C6 at work: every line of the settings file of [Sim.ready] unpacks. *)
Lemma loadSettings_returns_boolean_witness :
  exists b, fst (loadSettings (Sim.boot Sim.ready)) = Ok b.
Proof.
  apply (loadSettings_returns_boolean
           Sim.ready (settings_default Sim.USERPROFILE Sim.APPDATA) [] []).
  intros _. split; vm_compute; reflexivity.
Defined.

(** C7 at work: the run on [Sim.ready] reaches the end of [GUI.main]. *)
Lemma main_shows_one_success_or_two_errors_witness :
  let out := main 3 "Thread-2" (Sim.boot Sim.ready) in
  let shown := dialogs (trace (snd out)) in
  let posted := progress_posts (trace (snd out)) in
  (shown = [EvShowInfo "Plugins were updated Successfully!"]
   /\ posted = 6%nat)
  \/ (shown = [EvShowError "Could not resolve dependencies!";
               EvShowError general_error]
      /\ posted = 0%nat)
  \/ (shown = [EvShowError "Could not resolve settings!";
               EvShowError general_error]
      /\ posted = 1%nat).
Proof.
  apply (main_shows_one_success_or_two_errors
           Sim.ready (settings_default Sim.USERPROFILE Sim.APPDATA) [] 3
           "Thread-2").
  vm_compute. reflexivity.
Defined.

(** C8 at work: [Sim.no_helper] lacks [unzip_file.bat]. *)
Lemma main_stops_at_missing_dependency_witness :
  exists _file,
    In _file ["settings.txt"; "unzip_file.bat"]
    /\ path_exists Sim.no_helper _file = false
    /\ main 3 "Thread-2" (Sim.boot Sim.no_helper)
       = (Ok tt,
          mkState Sim.no_helper
            (settings_default Sim.USERPROFILE Sim.APPDATA)
            [(INFO, "Thread started: Thread-2");
             (INFO, "Checking dependencies");
             (ERROR, "Path does not exist: " ++ _file);
             (INFO, "Quiting root")]
            [EvShowError "Could not resolve dependencies!";
             EvShowError general_error;
             EvQuit]).
Proof.
  apply (main_stops_at_missing_dependency (Sim.boot Sim.no_helper) 3 "Thread-2").
  right. reflexivity.
Defined.

(** C9 at work: on [Sim.emptied] the only archive is gone at the second
    round. *)
Lemma downloadPlugins_raises_without_archive_witness :
  fst (downloadPlugins 5 "D:\dl" (Sim.boot Sim.emptied))
  = Raise (ValueError "max() arg is an empty sequence")
  /\ trace (snd (downloadPlugins 5 "D:\dl" (Sim.boot Sim.emptied)))
     = [EvPopen start_browser; EvGlob "D:\dl\*.zip"; EvGlob "D:\dl\*.zip"].
Proof.
  rewrite (downloadPlugins_raises_without_archive
             Sim.emptied (settings_default Sim.USERPROFILE Sim.APPDATA)
             [] [] "D:\dl" (n:=1) (fuel:=5)).
  - split; reflexivity.
  - reflexivity.
  - intros i Hi. destruct i as [|i]; [reflexivity | lia].
  - intros names Hls name Hin. vm_compute in Hls. injection Hls as <-.
    destruct Hin as [<-|[]]. reflexivity.
  - lia.
Defined.

(** C10 at work: on [Sim.mentions] an archive that does not start with
    [RocketPlugin_] is accepted for containing it, and [notes.zip] is
    accepted for the directory it lies in. *)
Lemma downloadPlugins_accepts_by_substring_witness :
  (prefix "RocketPlugin_" "holiday_RocketPlugin_pictures.zip" = false
   /\ fst (downloadPlugins_poll "D:\dl" (Sim.boot Sim.mentions))
      = Ok (Some ("holiday_RocketPlugin_pictures.zip",
                  "D:\dl\holiday_RocketPlugin_pictures.zip")))
  /\ (contains "RocketPlugin_" "notes.zip" = false
      /\ fst (downloadPlugins_poll "D:\RocketPlugin_downloads"
                (Sim.boot Sim.mentions))
         = Ok (Some ("notes.zip", "D:\RocketPlugin_downloads\notes.zip"))).
Proof.
  split; (split; [reflexivity|]).
  - destruct (downloadPlugins_accepts_by_substring
                Sim.mentions (settings_default Sim.USERPROFILE Sim.APPDATA)
                [] [] "D:\dl") as (_ & B & _).
    apply (B "holiday_RocketPlugin_pictures.zip"); reflexivity.
  - destruct (downloadPlugins_accepts_by_substring
                Sim.mentions (settings_default Sim.USERPROFILE Sim.APPDATA)
                [] [] "D:\RocketPlugin_downloads") as (_ & _ & C).
    apply (C eq_refl eq_refl "D:\RocketPlugin_downloads\notes.zip").
    reflexivity.
Defined.

(* ===================================================================== *)
(** ** More on loading the settings *)
(* ===================================================================== *)

Section Settings.

Context {W : Type} {os : OS W}.

Ltac exec :=
  cbv beta iota zeta delta
    [bind ret raise blocked logging emit get_world set_world
     settings_keys settings_mem settings_get settings_set
     os_path_exists os_readlines os_listdir glob_glob_zip
     subprocess_Popen subprocess_Popen_wait shutil_copy os_remove
     shutil_rmtree next_poll after_idle_update showerror showinfo
     world settings log trace fst snd negb].

Lemma readlines_nil (text : string) :
  readlines text = [] <-> text = EmptyString.
Proof.
  split; [|intros ->; reflexivity].
  destruct text as [|c text]; [reflexivity|]. cbn [readlines].
  destruct (Ascii.eqb c LF); [discriminate|].
  destruct (readlines text); discriminate.
Qed.

Lemma dict_get_set (k' k v : string) (d : dict) :
  dict_get k' (dict_set k v d)
  = if String.eqb k' k then Some v else dict_get k' d.
Proof.
  induction d as [|[k0 v0] d IH]; cbn [dict_set dict_get].
  - destruct (String.eqb k' k); reflexivity.
  - destruct (String.eqb_spec k k0) as [->|Hk]; cbn [dict_get].
    + destruct (String.eqb k' k0); reflexivity.
    + rewrite IH. destruct (String.eqb_spec k' k0) as [->|]; [|reflexivity].
      destruct (String.eqb_spec k0 k); [congruence | reflexivity].
Qed.

Lemma dict_keys_set_mem (k v : string) (d : dict) :
  dict_mem k d = true -> dict_keys (dict_set k v d) = dict_keys d.
Proof.
  induction d as [|[k' v'] d IH]; simpl; [discriminate|].
  destruct (String.eqb k k') eqn:E; simpl; [reflexivity|].
  intros H. f_equal. exact (IH H).
Qed.

Lemma adopted_refl (w : W) (d : dict) : adopted w d d.
Proof. split; [reflexivity | auto]. Qed.

Lemma adopted_trans (w : W) (d1 d2 d3 : dict) :
  adopted w d1 d2 -> adopted w d2 d3 -> adopted w d1 d3.
Proof.
  intros [K1 V1] [K2 V2]. split; [congruence|].
  intros k v H. destruct (V2 _ _ H) as [H'|H']; auto.
Qed.

Lemma loadSettings_line_adopts (line : string) (w : W) (d : dict) lg tr :
  exists r d' lg',
    loadSettings_line line (mkState w d lg tr) = (r, mkState w d' lg' tr)
    /\ adopted w d d'.
Proof.
  rewrite loadSettings_line_run.
  destruct (classify line) as [|k v|];
    [eauto 6 using adopted_refl | | eauto 6 using adopted_refl].
  destruct (dict_mem k d) eqn:Hm; cbn [andb]; [|eauto 6 using adopted_refl].
  destruct (contains "_dir" k) eqn:Hd; [|eauto 6 using adopted_refl].
  destruct (path_exists w v) eqn:Hv.
  - do 3 eexists. split; [reflexivity|]. split.
    + apply dict_keys_set_mem, Hm.
    + intros k' v'. rewrite dict_get_set.
      destruct (String.eqb_spec k' k) as [->|]; [|auto].
      intros [= <-]. auto.
  - destruct (dict_get k d) as [cur|]; [|eauto 6 using adopted_refl].
    destruct (path_exists w cur); eauto 6 using adopted_refl.
Qed.

Lemma loadSettings_line_loop_adopts (lines : list string) (w : W) tr :
  forall (d : dict) lg, exists r d' lg',
    for_ lines loadSettings_line (mkState w d lg tr)
    = (r, mkState w d' lg' tr)
    /\ adopted w d d'.
Proof.
  induction lines as [|l lines IH]; intros d lg.
  - exists (Ok None), d, lg. split; [reflexivity | apply adopted_refl].
  - rewrite for_cons.
    destruct (loadSettings_line_adopts l w d lg tr) as (r & d1 & lg1 & -> & A1).
    destruct r as [[b|]| |]; [eauto 6 | | eauto 6 | eauto 6].
    destruct (IH d1 lg1) as (r & d2 & lg2 & -> & A2).
    eauto 6 using adopted_trans.
Qed.

Lemma loadSettings_default_loop_any (keys : list string) (w : W) (d : dict) tr :
  forall lg, exists r lg',
    for_ keys loadSettings_default (mkState w d lg tr)
    = (r, mkState w d lg' tr).
Proof.
  induction keys as [|k keys IH]; intros lg.
  - exists (Ok None), lg. reflexivity.
  - rewrite for_cons. unfold loadSettings_default at 1.
    destruct (contains "_dir" k); exec; [|apply IH].
    destruct (dict_get k d) as [dir|]; [|eauto].
    destruct (path_exists w dir); [apply IH | eauto].
Qed.

(** [loadSettings] leaves the machine and the effects as they were and
    adopts only directories that exist. *)
Lemma loadSettings_adopts (w : W) (d : dict) lg tr :
  let out := loadSettings (mkState w d lg tr) in
  world (snd out) = w
  /\ trace (snd out) = tr
  /\ dict_keys (settings (snd out)) = dict_keys d
  /\ forall k v,
       dict_get k (settings (snd out)) = Some v ->
       dict_get k d = Some v
       \/ (path_exists w v = true /\ contains "_dir" k = true).
Proof.
  cbv zeta.
  destruct (path_exists w "settings.txt") eqn:Hex.
  - destruct (read_error w "settings.txt") as [e|] eqn:Hrd.
    { unfold loadSettings, read. rewrite !bind_run. unfold logging at 1.
      cbn [world settings log trace]. exec. rewrite Hex, Hrd.
      cbn [fst snd world settings trace]. repeat split; auto. }
    destruct (readlines (file_text w "settings.txt")) as [|l ls] eqn:E.
    + unfold loadSettings, read. rewrite !bind_run. unfold logging at 1.
      cbn [world settings log trace]. exec. rewrite Hex, Hrd, E.
      match goal with
      | |- context [for_ _ loadSettings_default (mkState w d ?lg0 tr)] =>
          destruct (loadSettings_default_loop_any (dict_keys d) w d tr lg0)
            as (r & lg' & ->)
      end.
      destruct r as [[b|]| |]; cbn [fst snd world settings trace];
        repeat split; auto.
    + rewrite loadSettings_lines by (rewrite ?E; congruence). rewrite E.
      match goal with
      | |- context [for_ ?ls0 loadSettings_line (mkState w d ?lg0 tr)] =>
          destruct (loadSettings_line_loop_adopts ls0 w tr d lg0)
            as (r & d' & lg' & -> & [K V])
      end.
      destruct r as [[b|]| |]; cbn [fst snd world settings trace];
        repeat split; auto.
  - unfold loadSettings, read. rewrite !bind_run. unfold logging at 1.
    cbn [world settings log trace]. exec. rewrite Hex.
    match goal with
    | |- context [for_ _ loadSettings_default (mkState w d ?lg0 tr)] =>
        destruct (loadSettings_default_loop_any (dict_keys d) w d tr lg0)
          as (r & lg' & ->)
    end.
    destruct r as [[b|]| |]; cbn [fst snd world settings trace];
      repeat split; auto.
Qed.

Lemma loadSettings_default_two_dirs (w : W) (dl bm : string) lg tr :
  exists lg',
    for_ ["download_dir"; "bakkesmod_dir"] loadSettings_default
         (mkState w (two_dirs dl bm) lg tr)
    = (Ok (if path_exists w dl && path_exists w bm
           then None else Some false),
       mkState w (two_dirs dl bm) lg' tr).
Proof.
  rewrite for_cons. unfold loadSettings_default at 1.
  change (contains "_dir" "download_dir") with true. cbn iota.
  rewrite !bind_run. unfold settings_get at 1. cbn [settings].
  change (dict_get "download_dir" (two_dirs dl bm)) with (Some dl).
  cbn iota. exec. destruct (path_exists w dl); cbn [andb]; [|eauto].
  rewrite for_cons. unfold loadSettings_default at 1.
  change (contains "_dir" "bakkesmod_dir") with true. cbn iota.
  rewrite !bind_run. unfold settings_get at 1. cbn [settings].
  change (dict_get "bakkesmod_dir" (two_dirs dl bm)) with (Some bm).
  cbn iota. exec. destruct (path_exists w bm); [|eauto].
  exists lg. reflexivity.
Qed.

(** X3: whatever [settings.txt] holds and however [loadSettings] ends, it
    leaves the machine and the effects as they were, keeps the keys of
    [settings], and changes a value only to a directory that exists, under
    a key that names a directory. *)
Theorem loadSettings_adopts_only_existing (w : W) (d : dict) lg tr :
  let out := loadSettings (mkState w d lg tr) in
  world (snd out) = w
  /\ trace (snd out) = tr
  /\ dict_keys (settings (snd out)) = dict_keys d
  /\ forall k v,
       dict_get k (settings (snd out)) = Some v ->
       dict_get k d = Some v
       \/ (path_exists w v = true /\ contains "_dir" k = true).
Proof. exact (loadSettings_adopts w d lg tr). Qed.

(** X1: without [settings.txt], or with an empty one, [loadSettings] keeps
    the two directories it holds and returns whether both exist. *)
Theorem loadSettings_without_lines (w : W) (dl bm : string) lg tr :
  path_exists w "settings.txt" = false
  \/ (read_error w "settings.txt" = None
      /\ file_text w "settings.txt" = EmptyString) ->
  let out := loadSettings (mkState w (two_dirs dl bm) lg tr) in
  fst out = Ok (path_exists w dl && path_exists w bm)
  /\ settings (snd out) = two_dirs dl bm.
Proof.
  intros H. cbv zeta. unfold loadSettings, read.
  rewrite !bind_run. unfold logging at 1. cbn [world settings log trace].
  exec.
  destruct (path_exists w "settings.txt");
    [ destruct H as [H | [Hrd Ht]]; [discriminate|];
      rewrite Hrd, Ht; change (readlines EmptyString) with (@nil string);
      exec
    | ];
    change (dict_keys (two_dirs dl bm))
      with ["download_dir"; "bakkesmod_dir"];
    match goal with
    | |- context [for_ _ loadSettings_default (mkState w _ ?lg0 tr)] =>
        destruct (loadSettings_default_two_dirs w dl bm lg0 tr) as [lg' ->]
    end;
    destruct (path_exists w dl && path_exists w bm); split; reflexivity.
Qed.

Lemma loadSettings_line_idle (line : string) (w : W) (d : dict) lg tr :
  idle_line d line = true ->
  loadSettings_line line (mkState w d lg tr) = (Ok None, mkState w d lg tr).
Proof.
  unfold idle_line. rewrite loadSettings_line_run.
  destruct (classify line) as [|k v|]; [reflexivity | | discriminate].
  intros H. apply negb_true_iff in H. rewrite H. reflexivity.
Qed.

(** X2: when [settings.txt] can be read and has lines but none assigns a
    directory key of [settings], [loadSettings] returns true and leaves
    [settings] as it is; the directories it holds are not looked at. *)
Theorem loadSettings_idle_file (w : W) (d : dict) lg tr :
  path_exists w "settings.txt" = true ->
  read_error w "settings.txt" = None ->
  readlines (file_text w "settings.txt") <> [] ->
  forallb (idle_line d) (readlines (file_text w "settings.txt")) = true ->
  loadSettings (mkState w d lg tr)
  = (Ok true,
     mkState w d
       (lg ++ [(INFO, "Loading settings"); (INFO, "Read file");
               (INFO, "Loading done")])%list tr).
Proof.
  intros Hex Hrd Hne Hidle. rewrite loadSettings_lines by assumption.
  assert (L : forall lines lg0,
             forallb (idle_line d) lines = true ->
             for_ lines loadSettings_line (mkState w d lg0 tr)
             = (Ok None, mkState w d lg0 tr)).
  { induction lines as [|l lines IH]; intros lg0 Hl; [reflexivity|].
    cbn [forallb] in Hl. apply andb_true_iff in Hl. destruct Hl as [H1 H2].
    rewrite for_cons, loadSettings_line_idle by assumption. auto. }
  rewrite L by assumption. cbn [world settings log trace].
  rewrite <- app_assoc. reflexivity.
Qed.

Lemma resolved_set (w : W) (d : dict) (k v : string) :
  resolved w d -> path_exists w v = true -> resolved w (dict_set k v d).
Proof.
  intros R Hv k' v'. rewrite dict_get_set.
  destruct (String.eqb k' k); [intros [= <-]; auto | apply R].
Qed.

Lemma loadSettings_line_loop_resolved (lines : list string) (w : W) tr :
  forallb well_formed lines = true ->
  forall (d : dict) lg,
    resolved w d ->
    exists d' lg',
      for_ lines loadSettings_line (mkState w d lg tr)
      = (Ok None, mkState w d' lg' tr)
      /\ resolved w d'.
Proof.
  induction lines as [|l lines IH]; intros Hwf d lg R.
  - exists d, lg. split; [reflexivity | assumption].
  - cbn [forallb] in Hwf. apply andb_true_iff in Hwf. destruct Hwf as [Hl Hwf].
    rewrite for_cons, loadSettings_line_run. unfold well_formed in Hl.
    destruct (classify l) as [|k v|]; [apply IH; assumption | | discriminate].
    destruct (dict_mem k d) eqn:Hm; cbn [andb]; [|apply IH; assumption].
    destruct (contains "_dir" k) eqn:Hd; [|apply IH; assumption].
    destruct (path_exists w v) eqn:Hv.
    + apply IH; [assumption | apply resolved_set; assumption].
    + destruct (dict_get_mem _ _ Hm) as [cur Hcur]. rewrite Hcur.
      rewrite (R _ _ Hcur Hd). apply IH; assumption.
Qed.

Lemma loadSettings_default_loop_resolved (keys : list string) (w : W)
      (d : dict) lg tr :
  resolved w d ->
  (forall k, In k keys -> dict_mem k d = true) ->
  for_ keys loadSettings_default (mkState w d lg tr)
  = (Ok None, mkState w d lg tr).
Proof.
  intros R. induction keys as [|k keys IH]; intros Hk; [reflexivity|].
  rewrite for_cons. unfold loadSettings_default at 1.
  destruct (dict_get_mem k d) as [dir Hdir]; [apply Hk; now left|].
  destruct (contains "_dir" k) eqn:Hd; exec.
  - rewrite Hdir, (R _ _ Hdir Hd). apply IH. intros; apply Hk; now right.
  - apply IH. intros; apply Hk; now right.
Qed.

(** X4: when every directory held by [settings] exists, [loadSettings]
    returns true on every file that can be read and whose lines unpack (and
    without a file), and every directory it then holds exists: a directory
    of the file that does not exist is passed over. *)
Theorem loadSettings_keeps_resolved (w : W) (d : dict) lg tr :
  resolved w d ->
  (path_exists w "settings.txt" = true ->
   read_error w "settings.txt" = None
   /\ forallb well_formed (readlines (file_text w "settings.txt")) = true) ->
  let out := loadSettings (mkState w d lg tr) in
  fst out = Ok true /\ resolved w (settings (snd out)).
Proof.
  intros R Hwf. cbv zeta.
  destruct (path_exists w "settings.txt") eqn:Hex.
  - destruct (Hwf eq_refl) as [Hrd Hwf']. clear Hwf. rename Hwf' into Hwf.
    destruct (readlines (file_text w "settings.txt")) as [|l ls] eqn:E.
    + unfold loadSettings, read. rewrite !bind_run. unfold logging at 1.
      cbn [world settings log trace]. exec. rewrite Hex, Hrd, E.
      rewrite loadSettings_default_loop_resolved
        by (auto using dict_mem_keys).
      split; [reflexivity | assumption].
    + rewrite loadSettings_lines by (rewrite ?E; congruence). rewrite E.
      match goal with
      | |- context [for_ ?ls0 loadSettings_line (mkState w d ?lg0 tr)] =>
          destruct (@loadSettings_line_loop_resolved ls0 w tr Hwf d lg0 R)
            as (d' & lg' & -> & R')
      end.
      split; [reflexivity | assumption].
  - unfold loadSettings, read. rewrite !bind_run. unfold logging at 1.
    cbn [world settings log trace]. exec. rewrite Hex.
    rewrite loadSettings_default_loop_resolved by (auto using dict_mem_keys).
    split; [reflexivity | assumption].
Qed.

End Settings.

(* ===================================================================== *)
(** ** The format of [settings.txt] *)
(* ===================================================================== *)

Lemma prefix_char (c d : ascii) (s : string) :
  prefix (String c EmptyString) (String d s) = Ascii.eqb c d.
Proof.
  cbn [prefix]. destruct (ascii_dec c d) as [->|n].
  - rewrite Ascii.eqb_refl. destruct s; reflexivity.
  - symmetry. apply Ascii.eqb_neq. exact n.
Qed.

Lemma contains_char_app (c : ascii) (a b : string) :
  contains (String c EmptyString) (a ++ b)
  = contains (String c EmptyString) a || contains (String c EmptyString) b.
Proof.
  induction a as [|d a IH]; cbn [append contains].
  - reflexivity.
  - rewrite !prefix_char, IH. apply orb_assoc.
Qed.

Lemma readlines_line (l rest : string) :
  contains nl l = false ->
  readlines (l ++ nl ++ rest) = (l ++ nl) :: readlines rest.
Proof.
  unfold nl. induction l as [|c l IH]; intros H.
  - cbn [append readlines]. rewrite Ascii.eqb_refl. reflexivity.
  - cbn [contains] in H. rewrite prefix_char in H.
    apply orb_false_iff in H. destruct H as [Hc Hl].
    specialize (IH Hl). cbn [append] in IH.
    cbn [append readlines]. rewrite Ascii.eqb_sym, Hc, IH. reflexivity.
Qed.

Lemma replace_line_end (l : string) :
  contains nl l = false -> replace nl "" (l ++ nl) = l.
Proof.
  unfold replace, nl. induction l as [|c l IH]; intros H; [reflexivity|].
  cbn [contains] in H. rewrite prefix_char in H.
  apply orb_false_iff in H. destruct H as [Hc Hl].
  specialize (IH Hl). cbn [append] in IH.
  cbn [append replace_from]. rewrite prefix_char, Hc, IH. reflexivity.
Qed.

Lemma split1_key_value (k v : string) :
  contains "=" k = false -> split1 "=" (k ++ "=" ++ v) = [k; v].
Proof.
  unfold split1. intros H.
  assert (E : cut "=" (k ++ "=" ++ v) = Some (k, v)); [|now rewrite E].
  induction k as [|c k IH].
  - cbn [append cut]. rewrite prefix_char. reflexivity.
  - cbn [contains] in H. rewrite prefix_char in H.
    apply orb_false_iff in H. destruct H as [Hc Hk].
    specialize (IH Hk). cbn [append] in IH.
    cbn [append cut]. rewrite prefix_char, Hc, IH. reflexivity.
Qed.

Lemma classify_render_line (k v : string) :
  valid_key k = true -> contains nl v = false ->
  classify (render_line (k, v)) = Assign k v.
Proof.
  unfold valid_key, render_line. cbn [fst snd]. intros Hk Hv.
  apply andb_true_iff in Hk. destruct Hk as [Hk Hn].
  apply andb_true_iff in Hk. destruct Hk as [Hlive Heq].
  apply negb_true_iff in Hn, Heq.
  assert (Hl : contains nl (k ++ "=" ++ v) = false).
  { unfold nl in *. rewrite !contains_char_app, Hn, Hv. reflexivity. }
  unfold classify.
  replace (k ++ "=" ++ v ++ nl) with ((k ++ "=" ++ v) ++ nl)
    by (rewrite !append_assoc; reflexivity).
  rewrite replace_line_end by assumption.
  assert (Hlive' : live_line (k ++ "=" ++ v) = true)
    by (destruct k; [discriminate | exact Hlive]).
  rewrite Hlive', split1_key_value by assumption. reflexivity.
Qed.

(** X5: a settings file written as one [key=value] line for each entry is
    read back, line by line, as these keys with these values, provided the
    keys are valid names and no value holds a line end; a value may contain
    the separator. *)
Theorem classify_render_file (entries : list (string * string)) :
  (forall k v, In (k, v) entries ->
               valid_key k = true /\ contains nl v = false) ->
  map classify (readlines (render_file entries))
  = map (fun kv => Assign (fst kv) (snd kv)) entries.
Proof.
  induction entries as [|[k v] entries IH]; intros H; [reflexivity|].
  destruct (H k v (or_introl eq_refl)) as [Hk Hv].
  cbn [render_file map fst snd].
  assert (Hl : contains nl (k ++ "=" ++ v) = false).
  { unfold valid_key in Hk. apply andb_true_iff in Hk. destruct Hk as [_ Hn].
    apply negb_true_iff in Hn.
    unfold nl in *. rewrite !contains_char_app, Hn, Hv. reflexivity. }
  replace (render_line (k, v) ++ render_file entries)
    with ((k ++ "=" ++ v) ++ nl ++ render_file entries)
    by (unfold render_line; cbn [fst snd]; rewrite !append_assoc;
        reflexivity).
  rewrite readlines_line by assumption. cbn [map].
  replace ((k ++ "=" ++ v) ++ nl) with (render_line (k, v))
    by (unfold render_line; cbn [fst snd]; rewrite !append_assoc;
        reflexivity).
  rewrite classify_render_line by assumption.
  f_equal. apply IH. intros k' v' Hin. apply H. now right.
Qed.

(* ===================================================================== *)
(** ** More on the download and the installation *)
(* ===================================================================== *)

Section Steps.

Context {W : Type} {os : OS W}.

Ltac exec :=
  cbv beta iota zeta delta
    [bind ret raise blocked logging emit get_world set_world
     settings_keys settings_mem settings_get settings_set
     os_path_exists os_readlines os_listdir glob_glob_zip
     subprocess_Popen subprocess_Popen_wait shutil_copy os_remove
     shutil_rmtree next_poll after_idle_update showerror showinfo
     world settings log trace fst snd negb].

Ltac exec_in E :=
  cbv beta iota zeta delta
    [bind ret raise blocked logging emit get_world set_world
     settings_keys settings_mem settings_get settings_set
     os_path_exists os_readlines os_listdir glob_glob_zip
     subprocess_Popen subprocess_Popen_wait shutil_copy os_remove
     shutil_rmtree next_poll after_idle_update showerror showinfo
     world settings log trace fst snd negb] in E.

(** X6: as long as every observed round finds a newest archive whose path
    lacks [RocketPlugin_], [downloadPlugins] keeps polling: it has started
    the browser once, listed the directory once per round, and has neither
    returned nor raised.  An older plugin archive in the directory does not
    end the wait. *)
Theorem downloadPlugins_keeps_polling
        (w : W) (d : dict) lg tr (dir : string) (fuel : nat) :
  let w0 := popen w start_browser in
  (forall i, (i < fuel)%nat -> retries (Nat.iter i elapse w0) dir = true) ->
  downloadPlugins fuel dir (mkState w d lg tr)
  = (Blocked,
     mkState (Nat.iter fuel elapse w0) d
       (lg ++ [(INFO, "Downloading")])%list
       (tr ++ EvPopen start_browser
           :: repeat (EvGlob (zip_pattern dir)) fuel)%list).
Proof.
  cbv zeta. intros Hr. rewrite downloadPlugins_run.
  replace fuel with (fuel + 0)%nat at 1 by lia.
  rewrite downloadPlugins_loop_retries by assumption.
  cbn [downloadPlugins_loop]. unfold blocked.
  rewrite <- app_assoc. reflexivity.
Qed.

Lemma downloadPlugins_loop_returned (fuel : nat) (dir : string) :
  forall (w : W) (d : dict) lg tr found s',
    downloadPlugins_loop fuel dir (mkState w d lg tr) = (Ok found, s') ->
    exists n,
      (n < fuel)%nat
      /\ (forall i, (i < n)%nat -> retries (Nat.iter i elapse w) dir = true)
      /\ max_by (getctime (Nat.iter n elapse w))
                (glob_zip (Nat.iter n elapse w) dir) = Some (snd found)
      /\ contains "RocketPlugin_" (snd found) = true
      /\ fst found = replace (dir ++ "\") "" (snd found)
      /\ s' = mkState (Nat.iter n elapse w) d
                (lg ++ [(INFO, "Download done")])%list
                (tr ++ repeat (EvGlob (zip_pattern dir)) (S n))%list.
Proof.
  induction fuel as [|fuel IH]; intros w d lg tr found s' E.
  - discriminate.
  - rewrite downloadPlugins_loop_S, downloadPlugins_poll_run in E.
    destruct (max_by (getctime w) (glob_zip w dir)) as [latest|] eqn:Hmax;
      [|discriminate].
    destruct (contains "RocketPlugin_" latest) eqn:Hc.
    + injection E as <- <-. exists 0%nat.
      change (Nat.iter 0 elapse w) with w. cbn [fst snd repeat].
      repeat split; try assumption; try lia; try (intros i Hi; lia).
    + cbn [world settings log trace] in E. apply IH in E.
      destruct E as (n & Hn & Hr & Hm & Hcc & Hf & ->).
      exists (S n). rewrite !Nat.iter_succ_r.
      repeat split; try assumption; try lia.
      * intros [|i] Hi.
        -- change (Nat.iter 0 elapse w) with w. unfold retries.
           rewrite Hmax, Hc. reflexivity.
        -- rewrite Nat.iter_succ_r. apply Hr. lia.
      * rewrite <- app_assoc. reflexivity.
Qed.

(** What holds when [downloadPlugins] has returned. *)
Lemma downloadPlugins_postcondition
        (w : W) (d : dict) lg tr (dir : string) (fuel : nat)
        (filename latest_file : string) (s' : state W) :
  downloadPlugins fuel dir (mkState w d lg tr)
  = (Ok (filename, latest_file), s') ->
  In latest_file (glob_zip (world s') dir)
  /\ (forall f, In f (glob_zip (world s') dir) ->
                (getctime (world s') f <= getctime (world s') latest_file)%Z)
  /\ contains "RocketPlugin_" latest_file = true
  /\ filename = replace (dir ++ "\") "" latest_file
  /\ settings s' = d
  /\ exists n,
       (n < fuel)%nat
       /\ world s' = Nat.iter n elapse (popen w start_browser)
       /\ trace s' = (tr ++ EvPopen start_browser
                         :: repeat (EvGlob (zip_pattern dir)) (S n))%list.
Proof.
  rewrite downloadPlugins_run. intros E.
  apply downloadPlugins_loop_returned in E.
  destruct E as (n & Hn & _ & Hmax & Hc & Hf & ->).
  cbn [fst snd world settings trace] in *.
  destruct (max_by_spec _ _ Hmax) as [Hin Hle].
  repeat split; try assumption.
  exists n. repeat split; [assumption|].
  rewrite <- app_assoc. reflexivity.
Qed.

(** X7: when [downloadPlugins] returns a name and a path, the path is the
    archive with the latest creation time among those [glob] lists in the
    download directory at that moment, it contains [RocketPlugin_], and the
    name is the path with every [download_dir\] taken out.  The browser was
    started once, before the first listing, and [settings] is untouched. *)
Theorem downloadPlugins_returned
        (w : W) (d : dict) lg tr (dir : string) (fuel : nat)
        (filename latest_file : string) (s' : state W) :
  downloadPlugins fuel dir (mkState w d lg tr)
  = (Ok (filename, latest_file), s') ->
  In latest_file (glob_zip (world s') dir)
  /\ (forall f, In f (glob_zip (world s') dir) ->
                (getctime (world s') f <= getctime (world s') latest_file)%Z)
  /\ contains "RocketPlugin_" latest_file = true
  /\ filename = replace (dir ++ "\") "" latest_file
  /\ settings s' = d
  /\ exists n,
       (n < fuel)%nat
       /\ world s' = Nat.iter n elapse (popen w start_browser)
       /\ trace s' = (tr ++ EvPopen start_browser
                         :: repeat (EvGlob (zip_pattern dir)) (S n))%list.
Proof. apply downloadPlugins_postcondition. Qed.

(** The loop of [updatePlugins] over the presets makes its copies in order
    and stops at the first that fails, with the exception of that copy. *)
Lemma updatePlugins_presets_loop (bdir fdir : string) (names : list string) :
  forall (w : W) (d : dict) lg tr,
    let out :=
      for_ names
        (fun filename =>
           bind (shutil_copy
                   (fdir ++ "\data\RocketPlugin\presets\" ++ filename)
                   (bdir ++ "\cfg\"))
                (fun _ => ret (@None unit)))
        (mkState w d lg tr) in
    let plan :=
      map (fun filename =>
             (fdir ++ "\data\RocketPlugin\presets\" ++ filename,
              bdir ++ "\cfg\")) names in
    settings (snd out) = d /\ log (snd out) = lg
    /\ ((fst out = Ok None
         /\ trace (snd out) = (tr ++ copy_events plan)%list)
        \/ (exists done src dst rest e,
              plan = (done ++ (src, dst) :: rest)%list
              /\ copy (world (snd out)) src dst = inl e
              /\ fst out = Raise e
              /\ trace (snd out)
                 = (tr ++ copy_events (done ++ [(src, dst)]))%list)).
Proof.
  set (body := fun filename : string =>
                 bind (shutil_copy
                         (fdir ++ "\data\RocketPlugin\presets\" ++ filename)
                         (bdir ++ "\cfg\"))
                      (fun _ => ret (@None unit))).
  induction names as [|name names IH]; intros w d lg tr; cbv zeta.
  - cbn [for_ map copy_events]. rewrite app_nil_r. auto.
  - assert (B : body name (mkState w d lg tr)
                = match copy w (fdir ++ "\data\RocketPlugin\presets\" ++ name)
                             (bdir ++ "\cfg\") with
                  | inr w' =>
                      (Ok None,
                       mkState w' d lg
                         (tr ++ [EvCopy
                                   (fdir ++ "\data\RocketPlugin\presets\"
                                         ++ name)
                                   (bdir ++ "\cfg\")])%list)
                  | inl e =>
                      (Raise e,
                       mkState w d lg
                         (tr ++ [EvCopy
                                   (fdir ++ "\data\RocketPlugin\presets\"
                                         ++ name)
                                   (bdir ++ "\cfg\")])%list)
                  end).
    { unfold body. exec.
      destruct (copy w (fdir ++ "\data\RocketPlugin\presets\" ++ name)
                     (bdir ++ "\cfg\")); reflexivity. }
    rewrite for_cons, B. clear B.
    destruct (copy w (fdir ++ "\data\RocketPlugin\presets\" ++ name)
                   (bdir ++ "\cfg\")) as [e|w'] eqn:Hcopy.
    + cbn [fst snd world settings log trace].
      split; [reflexivity|]. split; [reflexivity|]. right.
      exists [], (fdir ++ "\data\RocketPlugin\presets\" ++ name),
        (bdir ++ "\cfg\"),
        (map (fun filename =>
                (fdir ++ "\data\RocketPlugin\presets\" ++ filename,
                 bdir ++ "\cfg\")) names), e.
      repeat split. exact Hcopy.
    + specialize (IH w' d lg
                     (tr ++ [EvCopy
                               (fdir ++ "\data\RocketPlugin\presets\" ++ name)
                               (bdir ++ "\cfg\")])%list).
      cbv zeta in IH.
      match goal with
      | |- context [for_ names body ?s] =>
          destruct (for_ names body s) as [r [w1 d1 lg1 tr1]]
      end.
      cbn [fst snd world settings log trace] in *.
      destruct IH as (Hs & Hl & [[Hr Ht] | H]).
      * split; [assumption|]. split; [assumption|]. left.
        split; [assumption|]. rewrite Ht, <- app_assoc. reflexivity.
      * destruct H as (done & src & dst & rest & e & Hp & He & Hr & Ht).
        split; [assumption|]. split; [assumption|]. right.
        exists ((fdir ++ "\data\RocketPlugin\presets\" ++ name,
                 bdir ++ "\cfg\") :: done), src, dst, rest, e.
        cbn [map]. rewrite Hp. split; [reflexivity|].
        split; [assumption|].
        split; [assumption|]. rewrite Ht, <- app_assoc. reflexivity.
Qed.

(** The outcomes of [updatePlugins]. *)
Lemma updatePlugins_outcome
        (w : W) (d : dict) lg tr (bakkesmod_dir file_dir : string) :
  let out := updatePlugins bakkesmod_dir file_dir (mkState w d lg tr) in
  match listdir w (file_dir ++ "\data\RocketPlugin\presets") with
  | None =>
      out = (Raise (OSError (file_dir ++ "\data\RocketPlugin\presets")),
             mkState w d (lg ++ [(INFO, "Updating plugins")])%list tr)
  | Some names =>
      let plan := install_plan bakkesmod_dir file_dir names in
      (fst out = Ok tt
       /\ trace (snd out) = (tr ++ copy_events plan)%list
       /\ log (snd out)
          = (lg ++ [(INFO, "Updating plugins"); (INFO, "Update done")])%list)
      \/ (exists done src dst rest e,
            plan = (done ++ (src, dst) :: rest)%list
            /\ copy (world (snd out)) src dst = inl e
            /\ fst out = Raise e
            /\ trace (snd out)
               = (tr ++ copy_events (done ++ [(src, dst)]))%list
            /\ log (snd out) = (lg ++ [(INFO, "Updating plugins")])%list)
  end.
Proof.
  cbv zeta.
  destruct (updatePlugins bakkesmod_dir file_dir (mkState w d lg tr))
    as [r s'] eqn:E.
  unfold updatePlugins in E.
  set (body := fun filename : string =>
                 bind (shutil_copy
                         (file_dir ++ "\data\RocketPlugin\presets\" ++ filename)
                         (bakkesmod_dir ++ "\cfg\"))
                      (fun _ => ret (@None unit))) in E.
  exec_in E.
  destruct (listdir w (file_dir ++ "\data\RocketPlugin\presets"))
    as [names|]; [|now injection E as <- <-].
  pose proof (updatePlugins_presets_loop bakkesmod_dir file_dir names w d
                (lg ++ [(INFO, "Updating plugins")])%list tr) as L.
  cbv zeta in L. fold body in L.
  destruct (for_ names body _) as [r1 [w1 d1 lg1 tr1]].
  cbn [fst snd world settings log trace] in L. destruct L as (-> & -> & L).
  unfold install_plan.
  set (presets := map _ names) in *.
  destruct L as [[-> ->] | (done & src & dst & rest & e & Hp & He & -> & ->)].
  - destruct (copy w1 (file_dir ++ "\plugins\RocketPlugin.dll")
                   (bakkesmod_dir ++ "\plugins\")) as [e2|w2] eqn:C2.
    + injection E as <- <-; cbn [fst snd world trace log]. right.
      exists presets, (file_dir ++ "\plugins\RocketPlugin.dll"),
        (bakkesmod_dir ++ "\plugins\"),
        [(file_dir ++ "\plugins\settings\rocketplugin.set",
          bakkesmod_dir ++ "\plugins\settings\")], e2.
      unfold copy_events. rewrite !map_app, <- !app_assoc.
      repeat split. exact C2.
    + destruct (copy w2 (file_dir ++ "\plugins\settings\rocketplugin.set")
                     (bakkesmod_dir ++ "\plugins\settings\")) as [e3|w3]
        eqn:C3;
        injection E as <- <-; cbn [fst snd world trace log].
      * right.
        exists (List.app presets
                  [(file_dir ++ "\plugins\RocketPlugin.dll",
                    bakkesmod_dir ++ "\plugins\")]),
          (file_dir ++ "\plugins\settings\rocketplugin.set"),
          (bakkesmod_dir ++ "\plugins\settings\"), [], e3.
        unfold copy_events. rewrite !map_app, <- !app_assoc.
        repeat split. exact C3.
      * left. unfold copy_events. rewrite map_app, <- !app_assoc.
        repeat split.
  - injection E as <- <-; cbn [fst snd world trace log]. right.
    exists done, src, dst,
      (List.app rest
         [(file_dir ++ "\plugins\RocketPlugin.dll",
           bakkesmod_dir ++ "\plugins\");
          (file_dir ++ "\plugins\settings\rocketplugin.set",
           bakkesmod_dir ++ "\plugins\settings\")]), e.
    rewrite Hp, <- app_assoc. repeat split. exact He.
Qed.


End Steps.

(* ===================================================================== *)
(** ** The order of the effects *)
(* ===================================================================== *)

Lemma nondecreasing_cons (a : nat) (l : list nat) :
  nondecreasing (a :: l) = true ->
  nondecreasing l = true.
Proof.
  destruct l as [|b l]; [reflexivity|]. cbn [nondecreasing].
  intros H. apply andb_true_iff in H. apply H.
Qed.

Lemma nondecreasing_last (l : list nat) (n m : nat) :
  nondecreasing (l ++ [n]) = true -> (n <= m)%nat ->
  nondecreasing (l ++ [m]) = true.
Proof.
  induction l as [|a l IH]; intros H Hm; [reflexivity|].
  destruct l as [|b l].
  - cbn in H |- *. apply andb_true_iff in H. destruct H as [H _].
    apply Nat.leb_le in H. rewrite andb_true_r. apply Nat.leb_le. lia.
  - change ((a <=? b)%nat && nondecreasing ((b :: l) ++ [n]) = true) in H.
    change ((a <=? b)%nat && nondecreasing ((b :: l) ++ [m]) = true).
    apply andb_true_iff in H. destruct H as [H1 H2].
    rewrite H1, (IH H2 Hm). reflexivity.
Qed.

Lemma nondecreasing_twice (l : list nat) (n : nat) :
  nondecreasing (l ++ [n]) = true ->
  nondecreasing ((l ++ [n]) ++ [n]) = true.
Proof.
  induction l as [|a l IH]; intros H.
  - cbn. rewrite Nat.leb_refl. reflexivity.
  - destruct l as [|b l].
    + cbn in H |- *. rewrite Nat.leb_refl, !andb_true_r in *. exact H.
    + change ((a <=? b)%nat && nondecreasing ((b :: l) ++ [n]) = true) in H.
      change ((a <=? b)%nat
              && nondecreasing (((b :: l) ++ [n]) ++ [n]) = true).
      apply andb_true_iff in H. destruct H as [H1 H2].
      rewrite H1, (IH H2). reflexivity.
Qed.

Lemma nondecreasing_front (l : list nat) (n : nat) :
  nondecreasing (l ++ [n]) = true -> nondecreasing l = true.
Proof.
  induction l as [|a l IH]; intros H; [reflexivity|].
  destruct l as [|b l]; [reflexivity|].
  change ((a <=? b)%nat && nondecreasing ((b :: l) ++ [n]) = true) in H.
  change ((a <=? b)%nat && nondecreasing (b :: l) = true).
  apply andb_true_iff in H. destruct H as [H1 H2].
  rewrite H1, (IH H2). reflexivity.
Qed.

Lemma phases_snoc (tr : list event) (e : event) :
  phases (tr ++ [e])
  = (phases tr ++ if is_os e then [phase e] else [])%list.
Proof.
  unfold phases. rewrite filter_app, map_app. cbn [filter].
  destruct (is_os e); reflexivity.
Qed.

Lemma reached_weaken (n m : nat) (tr : list event) :
  reached n tr -> (n <= m)%nat -> reached m tr.
Proof. unfold reached. apply nondecreasing_last. Qed.

Lemma reached_effect (n : nat) (tr : list event) (e : event) :
  is_os e = true -> (n <= phase e)%nat ->
  reached n tr -> reached (phase e) (tr ++ [e]).
Proof.
  unfold reached. intros He Hn H. rewrite phases_snoc, He.
  apply nondecreasing_twice. eapply nondecreasing_last; eassumption.
Qed.

Lemma reached_display (n : nat) (tr : list event) (e : event) :
  is_os e = false -> reached n tr -> reached n (tr ++ [e]).
Proof.
  unfold reached. intros He H. rewrite phases_snoc, He, app_nil_r. exact H.
Qed.

Section Order.

Context {W : Type} {os : OS W}.

Lemma advances_weaken {A} (lo hi lo' hi' : nat) (m : M A) :
  advances W lo hi m -> (lo' <= lo)%nat -> (hi <= hi')%nat ->
  advances W lo' hi' m.
Proof.
  intros [Hle H] H1 H2. split; [lia|]. intros s Hs.
  eapply reached_weaken; [apply H; eapply reached_weaken; eassumption|].
  assumption.
Qed.

Lemma advances_bind {A B} (a b c : nat) (m : M A) (k : A -> M B) :
  advances W a b m -> (forall x, advances W b c (k x)) ->
  (b <= c)%nat ->
  advances W a c (bind m k).
Proof.
  intros [Hab Hm] Hk Hbc. split; [lia|]. intros s Hs. unfold bind.
  specialize (Hm s Hs). destruct (m s) as [[x|e|] s1]; cbn [snd] in *.
  - destruct (Hk x) as [_ H]. apply H, Hm.
  - eapply reached_weaken; eassumption.
  - eapply reached_weaken; eassumption.
Qed.

(** A computation that leaves the trace as it is. *)
Lemma advances_still {A} (n : nat) (m : M A) :
  (forall s : state W, trace (snd (m s)) = trace s) -> advances W n n m.
Proof. intros H. split; [lia|]. intros s Hs. rewrite H. exact Hs. Qed.

Lemma advances_ret {A} (n : nat) (a : A) : advances W n n (ret a).
Proof. apply advances_still. reflexivity. Qed.

Lemma advances_raise {A} (n : nat) (e : exn) : advances W n n (@raise _ A e).
Proof. apply advances_still. reflexivity. Qed.

Lemma advances_blocked {A} (n : nat) : advances W n n (@blocked _ A).
Proof. apply advances_still. reflexivity. Qed.

Lemma advances_logging (n : nat) lv msg : advances W n n (logging lv msg).
Proof. apply advances_still. reflexivity. Qed.

Lemma advances_get_world (n : nat) : advances W n n get_world.
Proof. apply advances_still. reflexivity. Qed.

Lemma advances_set_world (n : nat) (w : W) : advances W n n (set_world w).
Proof. apply advances_still. reflexivity. Qed.

Lemma advances_settings_get (n : nat) k : advances W n n (settings_get k).
Proof.
  apply advances_still. intros s. unfold settings_get.
  destruct (dict_get k (settings s)); reflexivity.
Qed.

Lemma advances_settings_keys (n : nat) : advances W n n settings_keys.
Proof. apply advances_still. reflexivity. Qed.

Lemma advances_settings_mem (n : nat) k : advances W n n (settings_mem k).
Proof. apply advances_still. reflexivity. Qed.

Lemma advances_settings_set (n : nat) k v :
  advances W n n (settings_set k v).
Proof. apply advances_still. reflexivity. Qed.

Lemma advances_display (n : nat) (e : event) :
  is_os e = false -> advances W n n (emit e).
Proof.
  intros He. split; [lia|]. intros s Hs. cbn [emit snd trace].
  apply reached_display; assumption.
Qed.

Lemma advances_effect (n : nat) (e : event) :
  is_os e = true -> (n <= phase e)%nat -> advances W n (phase e) (emit e).
Proof.
  intros He Hn. split; [lia|]. intros s Hs. cbn [emit snd trace].
  apply (reached_effect (n:=n)); assumption.
Qed.

Lemma advances_for {A R} (n : nat) (xs : list A) (body : A -> M (option R)) :
  (forall x, advances W n n (body x)) -> advances W n n (for_ xs body).
Proof.
  intros Hb. induction xs as [|x xs IH]; cbn [for_].
  - apply advances_ret.
  - eapply advances_bind; [apply Hb | | lia].
    intros [v|]; [apply advances_ret | exact IH].
Qed.

Lemma advances_if {A} (lo hi : nat) (b : bool) (m1 m2 : M A) :
  advances W lo hi m1 -> advances W lo hi m2 ->
  advances W lo hi (if b then m1 else m2).
Proof. destruct b; auto. Qed.

Create HintDb still discriminated.

#[local] Hint Resolve advances_ret advances_raise advances_blocked
  advances_logging advances_get_world advances_set_world
  advances_settings_get advances_settings_keys advances_settings_mem
  advances_settings_set advances_if : still.
#[local] Hint Extern 1 (advances W _ _ (emit _)) =>
  apply advances_display; reflexivity : still.
#[local] Hint Extern 2 (advances W ?n ?n (bind _ _)) =>
  apply (advances_bind (b:=n)); [ | intro | apply Nat.le_refl] : still.
#[local] Hint Extern 2 (advances W ?n ?n (for_ _ _)) =>
  apply advances_for; intro : still.
#[local] Hint Extern 3 (advances W _ _ (match ?x with _ => _ end)) =>
  destruct x : still.

Ltac calm := auto 30 with still.

Lemma advances_checkDependencies (n : nat) : advances W n n checkDependencies.
Proof.
  unfold checkDependencies, checkDependencies_file, checkDependencies_setting,
    os_path_exists.
  calm.
Qed.

Lemma advances_loadSettings (n : nat) : advances W n n loadSettings.
Proof.
  unfold loadSettings, read, loadSettings_default, loadSettings_line,
    os_path_exists, os_readlines.
  calm.
Qed.

Ltac then_at b := apply (advances_bind (b:=b)); [ | intro | lia].

Ltac effect_from n :=
  match goal with
  | |- advances W _ _ (emit ?e) =>
      apply (advances_effect (n:=n) e); [reflexivity | cbn [phase]; lia]
  end.

Lemma advances_downloadPlugins fuel dir :
  advances W 0 2 (downloadPlugins fuel dir).
Proof.
  unfold downloadPlugins, subprocess_Popen.
  then_at 0%nat; [calm|]. then_at 1%nat.
  - then_at 1%nat; [effect_from 0%nat | calm].
  - apply advances_weaken with (lo := 2%nat) (hi := 2%nat); [|lia|lia].
    induction fuel as [|fuel IH]; cbn [downloadPlugins_loop]; [calm|].
    then_at 2%nat.
    + unfold downloadPlugins_poll, glob_glob_zip.
      then_at 2%nat; [|calm]. then_at 2%nat; [effect_from 2%nat | calm].
    + match goal with r : option _ |- _ => destruct r as [found|] end;
        [calm|].
      unfold next_poll. then_at 2%nat; [calm | exact IH].
Qed.

Lemma advances_unzipPlugins dir : advances W 2 3 (unzipPlugins dir).
Proof.
  unfold unzipPlugins, os_path_exists, subprocess_Popen_wait.
  then_at 2%nat; [calm|]. then_at 2%nat; [calm|].
  match goal with b : bool |- _ => destruct b end.
  - apply advances_weaken with (lo := 2%nat) (hi := 2%nat); [calm|lia|lia].
  - then_at 3%nat; [|calm]. then_at 3%nat; [effect_from 2%nat | calm].
Qed.

Lemma advances_shutil_copy src dst : advances W 4 4 (shutil_copy src dst).
Proof.
  unfold shutil_copy. then_at 4%nat; [effect_from 4%nat | calm].
Qed.

Lemma advances_updatePlugins bdir dir :
  advances W 3 4 (updatePlugins bdir dir).
Proof.
  apply advances_weaken with (lo := 4%nat) (hi := 4%nat); [|lia|lia].
  unfold updatePlugins, os_listdir.
  then_at 4%nat; [calm|]. then_at 4%nat; [calm|].
  then_at 4%nat.
  - apply advances_for. intros name.
    then_at 4%nat; [apply advances_shutil_copy | calm].
  - then_at 4%nat; [apply advances_shutil_copy|].
    then_at 4%nat; [apply advances_shutil_copy | calm].
Qed.

Lemma advances_cleanDownloads zipped dir :
  advances W 4 6 (cleanDownloads zipped dir).
Proof.
  unfold cleanDownloads, os_remove, shutil_rmtree.
  then_at 4%nat; [calm|]. then_at 5%nat.
  - then_at 5%nat; [effect_from 4%nat | calm].
  - then_at 6%nat; [|calm]. then_at 6%nat; [effect_from 5%nat | calm].
Qed.

Lemma advances_main fuel thread_name : advances W 0 6 (main fuel thread_name).
Proof.
  unfold main, showerror.
  then_at 0%nat; [calm|]. then_at 6%nat; [|calm].
  unfold main_loop, showerror, showinfo, after_idle_update.
  then_at 0%nat; [apply advances_checkDependencies|].
  match goal with b : bool |- _ => destruct b end; cbn [negb];
    [|apply advances_weaken with (lo := 0%nat) (hi := 0%nat); [calm|lia|lia]].
  then_at 0%nat; [calm|].
  then_at 0%nat; [apply advances_loadSettings|].
  match goal with b : bool |- _ => destruct b end; cbn [negb];
    [|apply advances_weaken with (lo := 0%nat) (hi := 0%nat); [calm|lia|lia]].
  then_at 0%nat; [calm|]. then_at 0%nat; [calm|].
  then_at 2%nat; [apply advances_downloadPlugins|].
  then_at 2%nat; [calm|].
  then_at 3%nat; [apply advances_unzipPlugins|].
  then_at 3%nat; [calm|]. then_at 3%nat; [calm|].
  then_at 4%nat; [apply advances_updatePlugins|].
  then_at 4%nat; [calm|].
  then_at 6%nat; [apply advances_cleanDownloads|].
  calm.
Qed.

(** X9: in every run of [GUI.main], finished or not, the effects on the
    machine come in the order of the steps: the browser is started before
    the download directory is listed, every listing comes before the
    extraction helper, the helper before any copy, every copy before the
    archive is removed, and the archive is removed before the extraction
    directory. *)
Theorem main_effects_in_order (w : W) (d : dict) lg fuel thread_name :
  nondecreasing
    (phases (trace (snd (main fuel thread_name (mkState w d lg [])))))
  = true.
Proof.
  destruct (advances_main fuel thread_name) as [_ H].
  apply nondecreasing_front with (n := 6%nat).
  apply (H (mkState w d lg [])). reflexivity.
Qed.

End Order.

(* ===================================================================== *)
(** ** A run that cannot resolve its settings *)
(* ===================================================================== *)

Section Unresolved.

Context {W : Type} {os : OS W}.

Ltac exec :=
  cbv beta iota zeta delta
    [bind ret raise blocked logging emit get_world set_world
     settings_keys settings_mem settings_get settings_set
     os_path_exists os_readlines os_listdir glob_glob_zip
     subprocess_Popen subprocess_Popen_wait shutil_copy os_remove
     shutil_rmtree next_poll after_idle_update showerror showinfo
     world settings log trace fst snd negb].

Lemma loadSettings_line_loop_same (lines : list string) (w : W) tr tr2 :
  forall (d : dict) lg lg2,
    same_outcome (for_ lines loadSettings_line (mkState w d lg tr))
                 (for_ lines loadSettings_line (mkState w d lg2 tr2)).
Proof.
  induction lines as [|l lines IH]; intros d lg lg2.
  - repeat split.
  - rewrite !for_cons, !loadSettings_line_run.
    destruct (classify l) as [|k v|]; [apply IH | | repeat split].
    destruct (dict_mem k d && contains "_dir" k); [|apply IH].
    destruct (path_exists w v); [apply IH|].
    destruct (dict_get k d) as [cur|]; [|repeat split].
    destruct (path_exists w cur); [apply IH | repeat split].
Qed.

Lemma loadSettings_default_loop_same (keys : list string) (w : W)
      (d : dict) tr tr2 :
  forall lg lg2,
    same_outcome (for_ keys loadSettings_default (mkState w d lg tr))
                 (for_ keys loadSettings_default (mkState w d lg2 tr2)).
Proof.
  induction keys as [|k keys IH]; intros lg lg2.
  - repeat split.
  - rewrite !for_cons. unfold loadSettings_default at 1 3.
    destruct (contains "_dir" k); exec; [|apply IH].
    destruct (dict_get k d) as [dir|]; [|repeat split].
    destruct (path_exists w dir); [apply IH | repeat split].
Qed.

(** The outcome of [loadSettings] and the settings it leaves do not depend
    on the log or on the effects so far. *)
Lemma loadSettings_same (w : W) (d : dict) lg tr lg2 tr2 :
  same_outcome (loadSettings (mkState w d lg tr))
               (loadSettings (mkState w d lg2 tr2)).
Proof.
  destruct (path_exists w "settings.txt") eqn:Hex.
  - destruct (read_error w "settings.txt") as [e|] eqn:Hrd.
    { unfold loadSettings, read. rewrite !bind_run. unfold logging at 1 3.
      cbn [world settings log trace]. exec. rewrite Hex, Hrd.
      repeat split. }
    destruct (readlines (file_text w "settings.txt")) as [|l ls] eqn:E.
    + unfold loadSettings, read. rewrite !bind_run. unfold logging at 1 3.
      cbn [world settings log trace]. exec. rewrite Hex, Hrd, E.
      match goal with
      | |- same_outcome
             (let (_, _) := for_ ?ks _ (mkState _ _ ?a _) in _)
             (let (_, _) := for_ _ _ (mkState _ _ ?b _) in _) =>
          pose proof (loadSettings_default_loop_same ks w d tr tr2 a b) as S
      end.
      unfold same_outcome in *.
      do 2 match goal with
        | |- context [for_ ?ks loadSettings_default ?s] =>
            destruct (for_ ks loadSettings_default s) as [[[?|]| |] [? ? ? ?]]
        end;
        cbn [fst snd world settings] in *; destruct S as (S1 & S2 & S3);
        try discriminate; try (injection S1 as ->); subst; repeat split.
    + rewrite !loadSettings_lines by (rewrite ?E; congruence). rewrite E.
      match goal with
      | |- same_outcome
             (let (_, _) := for_ ?ls0 _ (mkState _ _ ?a _) in _)
             (let (_, _) := for_ _ _ (mkState _ _ ?b _) in _) =>
          pose proof (loadSettings_line_loop_same ls0 w tr tr2 d a b) as S
      end.
      unfold same_outcome in *.
      do 2 match goal with
        | |- context [for_ ?ls0 loadSettings_line ?s] =>
            destruct (for_ ls0 loadSettings_line s) as [[[?|]| |] [? ? ? ?]]
        end;
        cbn [fst snd world settings] in *; destruct S as (S1 & S2 & S3);
        try discriminate; try (injection S1 as ->); subst; repeat split.
  - unfold loadSettings, read. rewrite !bind_run. unfold logging at 1 3.
    cbn [world settings log trace]. exec. rewrite Hex.
    match goal with
    | |- same_outcome
           (let (_, _) := for_ ?ks _ (mkState _ _ ?a _) in _)
           (let (_, _) := for_ _ _ (mkState _ _ ?b _) in _) =>
        pose proof (loadSettings_default_loop_same ks w d tr tr2 a b) as S
    end.
    unfold same_outcome in *.
    do 2 match goal with
      | |- context [for_ ?ks loadSettings_default ?s] =>
          destruct (for_ ks loadSettings_default s) as [[[?|]| |] [? ? ? ?]]
      end;
      cbn [fst snd world settings] in *; destruct S as (S1 & S2 & S3);
      try discriminate; try (injection S1 as ->); subst; repeat split.
Qed.

(** X10: when both auxiliary files are there and [loadSettings] returns
    false, the run ends failed after one progress step: the machine is left
    as it was and the only effects are that step, the two error dialogs and
    [quit]; no browser is started and nothing is listed, extracted, copied
    or deleted. *)
Theorem main_stops_at_unresolved_settings
        (w : W) (d : dict) lg tr fuel thread_name :
  path_exists w "settings.txt" = true ->
  path_exists w "unzip_file.bat" = true ->
  fst (loadSettings (mkState w d [] [])) = Ok false ->
  let out := main fuel thread_name (mkState w d lg tr) in
  fst out = Ok tt
  /\ world (snd out) = w
  /\ trace (snd out)
     = (tr ++ [EvAfterIdleUpdate progress_step;
               EvShowError "Could not resolve settings!";
               EvShowError general_error;
               EvQuit])%list.
Proof.
  intros H1 H2 HL. cbv zeta.
  destruct (main fuel thread_name (mkState w d lg tr)) as [r s'] eqn:E.
  unfold main in E. rewrite bind_run in E. unfold logging at 1 in E.
  cbn [world settings log trace] in E. rewrite bind_run in E.
  unfold main_loop in E.
  rewrite bind_run, checkDependencies_run, H1, H2 in E.
  cbn [negb] in E. rewrite bind_run in E.
  unfold after_idle_update at 1, emit at 1 in E.
  cbn [world settings log trace] in E. rewrite bind_run in E.
  match type of E with
  | context [loadSettings (mkState w d ?lg0 ?tr0)] =>
      pose proof (loadSettings_same w d lg0 tr0 [] []) as (S1 & _ & _);
      pose proof (loadSettings_adopts w d lg0 tr0) as (A1 & A2 & _);
      cbv zeta in A1, A2;
      destruct (loadSettings (mkState w d lg0 tr0))
        as [r2 [w2 d2 lg2 tr2]]
  end.
  cbn [fst snd world trace] in *. rewrite HL in S1. subst r2 w2 tr2.
  cbn [negb] in E.
  cbv beta iota zeta delta
    [bind ret logging emit showerror world settings log trace] in E.
  injection E as <- <-. cbn [fst snd world trace]. unfold general_error.
  rewrite <- !app_assoc. repeat split.
Qed.

End Unresolved.

(* ===================================================================== *)
(** ** A run that succeeds *)
(* ===================================================================== *)

Section Success.

Context {W : Type} {os : OS W}.

Ltac exec_in E :=
  cbv beta iota zeta delta
    [bind ret raise blocked logging emit get_world set_world
     settings_keys settings_mem settings_get settings_set
     os_path_exists os_readlines os_listdir glob_glob_zip
     subprocess_Popen subprocess_Popen_wait shutil_copy os_remove
     shutil_rmtree next_poll after_idle_update showerror showinfo
     world settings log trace fst snd negb] in E.

(** [cleanDownloads] removes the archive, then the directory, and returns
    only after both. *)
Lemma cleanDownloads_returned (w : W) (d : dict) lg tr
      (zipped_file_dir file_dir : string) (s' : state W) :
  cleanDownloads zipped_file_dir file_dir (mkState w d lg tr) = (Ok tt, s') ->
  trace s' = (tr ++ [EvRemove zipped_file_dir; EvRmtree file_dir])%list.
Proof.
  intros E. unfold cleanDownloads in E. exec_in E.
  destruct (remove w zipped_file_dir) as [w1|]; [|discriminate].
  destruct (rmtree w1 file_dir) as [e|w2]; [discriminate|].
  injection E as <-. cbn [trace]. rewrite <- app_assoc. reflexivity.
Qed.

Ltac idle E :=
  rewrite bind_run in E; unfold after_idle_update at 1, emit at 1 in E;
  cbn [world settings log trace] in E; rewrite bind_run in E.

(** What the loop of [GUI.main] has done when it is left without an
    error. *)
Lemma main_loop_completed (w : W) (d : dict) lg tr fuel (s1 : state W) :
  main_loop fuel (mkState w d lg tr) = (Ok false, s1) ->
  let d2 := settings (snd (loadSettings (mkState w d [] []))) in
  exists download_dir bakkesmod_dir zipped_file_dir n names,
    let w3 := Nat.iter n elapse (popen w start_browser) in
    let file_dir := file_dir_of zipped_file_dir in
    let helper := negb (path_exists w3 file_dir) in
    let w4 := if helper then popen_wait w3 ["unzip_file.bat"; file_dir]
              else w3 in
    dict_get "download_dir" d2 = Some download_dir
    /\ dict_get "bakkesmod_dir" d2 = Some bakkesmod_dir
    /\ (n < fuel)%nat
    /\ In zipped_file_dir (glob_zip w3 download_dir)
    /\ contains "RocketPlugin_" zipped_file_dir = true
    /\ listdir w4 (file_dir ++ "\data\RocketPlugin\presets") = Some names
    /\ (trace s1 ++ [EvQuit])%list
       = (tr ++ success_effects download_dir bakkesmod_dir zipped_file_dir
                  (S n) helper names)%list.
Proof.
  intros E. cbv zeta. unfold main_loop in E.
  rewrite bind_run, checkDependencies_run in E.
  destruct (path_exists w "settings.txt");
    [destruct (path_exists w "unzip_file.bat")|]; cbn [negb] in E;
    [| exec_in E; discriminate ..].
  idle E.
  match type of E with
  | context [loadSettings (mkState w d ?lg0 ?tr0)] =>
      pose proof (loadSettings_same w d lg0 tr0 [] []) as (S1 & S2 & _);
      pose proof (loadSettings_adopts w d lg0 tr0) as (A1 & A2 & _);
      cbv zeta in A1, A2;
      destruct (loadSettings (mkState w d lg0 tr0))
        as [r2 [w2 d2 lg2 tr2]]
  end.
  cbn [fst snd world settings trace] in *. subst w2 tr2. rewrite <- S2.
  clear S1 S2.
  destruct r2 as [[|]| |]; cbn [negb] in E;
    [| exec_in E; discriminate | discriminate ..].
  idle E. unfold settings_get at 1 in E. cbn [settings] in E.
  destruct (dict_get "download_dir" d2) as [download_dir|] eqn:Hdl;
    [|discriminate].
  rewrite bind_run in E.
  match type of E with
  | context [downloadPlugins fuel download_dir ?s] =>
      destruct (downloadPlugins fuel download_dir s)
        as [[[filename zipped]| |] [w3 d3 lg3 tr3]] eqn:E3;
      [| discriminate ..]
  end.
  apply downloadPlugins_postcondition in E3.
  cbn [world settings trace] in E3.
  destruct E3 as (Hin & _ & Hc & _ & -> & n & Hn & -> & ->).
  cbn [snd] in E. idle E.
  destruct (path_exists (Nat.iter n elapse (popen w start_browser))
                        (file_dir_of zipped)) eqn:Hex;
    [ rewrite unzipPlugins_present in E by exact Hex
    | rewrite unzipPlugins_absent in E by exact Hex ];
    cbn [world settings log trace] in E;
    idle E; unfold settings_get at 1 in E; cbn [settings] in E;
    (destruct (dict_get "bakkesmod_dir" d2) as [bakkesmod_dir|] eqn:Hbm;
     [|discriminate]);
    rewrite bind_run in E;
    match type of E with
    | context [updatePlugins bakkesmod_dir ?f (mkState ?w4 ?d4 ?lg4 ?tr4)] =>
        pose proof (updatePlugins_outcome w4 d4 lg4 tr4 bakkesmod_dir f) as U;
        cbv zeta in U;
        destruct (listdir w4 (f ++ "\data\RocketPlugin\presets"))
          as [names|] eqn:HL;
        [| rewrite U in E; discriminate];
        destruct (updatePlugins bakkesmod_dir f (mkState w4 d4 lg4 tr4))
          as [r5 [w5 d5 lg5 tr5]]
    end;
    cbn [fst snd trace log] in U;
    (destruct U as [(-> & -> & _) | (? & ? & ? & ? & ? & _ & _ & -> & _)];
     [|discriminate]);
    idle E;
    match type of E with
    | context [cleanDownloads ?z ?f ?s] =>
        destruct (cleanDownloads z f s)
          as [[[]| |] [w6 d6 lg6 tr6]] eqn:E6; [| discriminate ..]
    end;
    apply cleanDownloads_returned in E6; cbn [trace] in E6; subst tr6;
    exec_in E; injection E as <-; cbn [trace];
    exists download_dir, bakkesmod_dir, zipped, n, names;
    rewrite Hex; cbn [negb];
    (repeat split; try assumption);
    unfold success_effects; cbv zeta; rewrite <- !app_assoc; reflexivity.
Qed.

(** X13: a run of [GUI.main] that shows the success dialog has done the six
    steps in full and nothing else: with the directories [loadSettings]
    leaves in [settings], it started the browser, listed the download
    directory until the newest archive there contained [RocketPlugin_],
    started the helper when, and only when, the extraction directory was
    missing, copied every preset listed there and then the two plugin
    files, removed the archive and then the directory, and ended with the
    dialog and [quit]. *)
Theorem main_success_effects (w : W) (d : dict) lg fuel thread_name :
  In (EvShowInfo "Plugins were updated Successfully!")
     (trace (snd (main fuel thread_name (mkState w d lg [])))) ->
  let out := main fuel thread_name (mkState w d lg []) in
  let d2 := settings (snd (loadSettings (mkState w d [] []))) in
  exists download_dir bakkesmod_dir zipped_file_dir n names,
    let w3 := Nat.iter n elapse (popen w start_browser) in
    let file_dir := file_dir_of zipped_file_dir in
    let helper := negb (path_exists w3 file_dir) in
    let w4 := if helper then popen_wait w3 ["unzip_file.bat"; file_dir]
              else w3 in
    dict_get "download_dir" d2 = Some download_dir
    /\ dict_get "bakkesmod_dir" d2 = Some bakkesmod_dir
    /\ (n < fuel)%nat
    /\ In zipped_file_dir (glob_zip w3 download_dir)
    /\ contains "RocketPlugin_" zipped_file_dir = true
    /\ listdir w4 (file_dir ++ "\data\RocketPlugin\presets") = Some names
    /\ fst out = Ok tt
    /\ trace (snd out)
       = success_effects download_dir bakkesmod_dir zipped_file_dir
           (S n) helper names.
Proof.
  intros HI. cbv zeta.
  destruct (main fuel thread_name (mkState w d lg [])) as [r s'] eqn:E.
  cbn [fst snd] in *.
  assert (Hr : r = Ok tt).
  { pose proof E as G. apply main_gui_events in G. cbv zeta in G.
    assert (HG : In (EvShowInfo "Plugins were updated Successfully!")
                    (gui_events (trace s')))
      by (apply filter_In; split; [assumption | reflexivity]).
    destruct r as [[]| |]; [reflexivity | |];
      destruct G as (n & _ & G); rewrite G in HG;
      apply repeat_spec in HG; discriminate. }
  subst r.
  unfold main in E. rewrite bind_run in E. unfold logging at 1 in E.
  cbn [world settings log trace] in E. rewrite bind_run in E.
  match type of E with
  | context [main_loop fuel ?s] =>
      destruct (main_loop fuel s) as [[[|]| |] [w1 d1 lg1 tr1]] eqn:EL;
      [| | discriminate ..]
  end.
  - exfalso.
    pose proof (fun G => @main_loop_gui_events _ _ _ _ _ _ G EL) as G.
    specialize (G eq_refl). cbv zeta in G. cbn [trace] in G.
    exec_in E. injection E as <-. cbn [trace] in HI.
    rewrite !in_app_iff in HI. cbn [In] in HI.
    assert (H1 : In (EvShowInfo "Plugins were updated Successfully!") tr1)
      by (intuition discriminate).
    assert (HG : In (EvShowInfo "Plugins were updated Successfully!")
                    (gui_events tr1))
      by (apply filter_In; split; [assumption | reflexivity]).
    destruct G as [G | G]; rewrite G in HG; cbn [In] in HG;
      intuition discriminate.
  - apply main_loop_completed in EL. cbv zeta in EL.
    destruct EL as (download_dir & bakkesmod_dir & zipped & n & names & EL).
    exec_in E. injection E as <-. cbn [trace] in *.
    exists download_dir, bakkesmod_dir, zipped, n, names.
    intuition.
Qed.

End Success.

(* ===================================================================== *)
(** ** Archives the extraction step passes over *)
(* ===================================================================== *)

Section Extension.

Context {W : Type} {os : OS W}.

(** X11: an archive path in which [.zip] does not occur (an extension in
    capitals, say) is its own extraction directory, so [unzipPlugins],
    finding the archive itself there, takes it for extracted and starts no
    helper. *)
Theorem unzipPlugins_skips_archive_without_zip
        (s : state W) (zipped_file_dir : string) :
  contains ".zip" zipped_file_dir = false ->
  path_exists (world s) zipped_file_dir = true ->
  file_dir_of zipped_file_dir = zipped_file_dir
  /\ unzipPlugins (file_dir_of zipped_file_dir) s
     = (Ok tt,
        mkState (world s) (settings s)
          (log s ++ [(INFO, "Unzipping"); (INFO, "Already unzipped")])%list
          (trace s)).
Proof.
  intros Hc Hex.
  assert (E : file_dir_of zipped_file_dir = zipped_file_dir)
    by (apply replace_from_miss; assumption).
  split; [exact E|]. rewrite E. apply unzipPlugins_present. exact Hex.
Qed.

End Extension.

(** X12: when [.zip] occurs in the archive path only as its ending, the
    extraction directory [GUI.main] computes is the path without that
    ending. *)
Theorem file_dir_of_strips_final_extension (stem : string) :
  contains ".zip" (stem ++ ".zi") = false ->
  file_dir_of (stem ++ ".zip") = stem.
Proof. exact (file_dir_of_plain stem). Qed.

(* ===================================================================== *)
(** ** Further runs on the in-memory machine *)
(* ===================================================================== *)

Module Scenes.

(** [Sim.ready] with an empty settings file, and with one that holds a
    comment only. *)
Definition blank_settings : Sim.machine := Sim.with_settings EmptyString.

Definition comment_only : Sim.machine :=
  Sim.with_settings ("# directories follow" ++ nl).

(** A download directory in which an unrelated archive is newer than the
    plugin archive, and nothing changes. *)
Definition hidden : Sim.machine :=
  Sim.mkMachine
    [("D:\dl", Sim.Dir);
     ("D:\dl\RocketPlugin_v1.zip", Sim.File 5 "v1");
     ("D:\dl\notes.zip", Sim.File 10 "other archive")]
    [] [] [].

(** A plugin archive whose extension is written in capitals. *)
Definition capitals : Sim.machine :=
  Sim.mkMachine
    [("D:\dl", Sim.Dir);
     ("D:\dl\RocketPlugin_v2.ZIP", Sim.File 30 "archive")]
    [] Sim.plugin_payload [].

End Scenes.

(** X1 at work: with an empty settings file the two directories held are
    checked. *)
Lemma loadSettings_without_lines_witness :
  fst (loadSettings
         (mkState Scenes.blank_settings (two_dirs "D:\dl" "D:\nowhere") [] []))
  = Ok false
  /\ fst (loadSettings
            (mkState Scenes.blank_settings (two_dirs "D:\dl" "D:\bm") [] []))
     = Ok true.
Proof.
  assert (H : path_exists Scenes.blank_settings "settings.txt" = false
              \/ (read_error Scenes.blank_settings "settings.txt" = None
                  /\ file_text Scenes.blank_settings "settings.txt"
                     = EmptyString))
    by (right; split; reflexivity).
  split.
  - exact (proj1 (loadSettings_without_lines
                    Scenes.blank_settings "D:\dl" "D:\nowhere" [] [] H)).
  - exact (proj1 (loadSettings_without_lines
                    Scenes.blank_settings "D:\dl" "D:\bm" [] [] H)).
Defined.

(** X2 at work: with a comment as only line, the missing defaults go
    unnoticed. *)
Lemma loadSettings_idle_file_witness :
  path_exists Scenes.comment_only (DOWNLOAD_DIR Sim.USERPROFILE) = false
  /\ fst (loadSettings (Sim.boot Scenes.comment_only)) = Ok true.
Proof.
  split; [reflexivity|].
  rewrite (loadSettings_idle_file
             Scenes.comment_only
             (settings_default Sim.USERPROFILE Sim.APPDATA) [] []).
  - reflexivity.
  - reflexivity.
  - reflexivity.
  - vm_compute. discriminate.
  - vm_compute. reflexivity.
Defined.

(** X4 at work: [settings] holds two directories that exist, the file
    sends [bakkesmod_dir] to one that does not. *)
Lemma loadSettings_keeps_resolved_witness :
  fst (loadSettings
         (mkState Sim.lost_bakkesmod (two_dirs "D:\dl" "D:\bm") [] []))
  = Ok true.
Proof.
  refine (proj1 (@loadSettings_keeps_resolved
                   _ _ Sim.lost_bakkesmod (two_dirs "D:\dl" "D:\bm") [] []
                   _ _)).
  - intros k v Hget _. unfold two_dirs in Hget. cbn [dict_get] in Hget.
    destruct (String.eqb k "download_dir");
      [injection Hget as <-; reflexivity|].
    destruct (String.eqb k "bakkesmod_dir");
      [injection Hget as <-; reflexivity | discriminate].
  - intros _. split; vm_compute; reflexivity.
Defined.

(** X5 at work: a value with the separator in it. *)
Lemma classify_render_file_witness :
  map classify
      (readlines (render_file [("download_dir", "D:\a=b");
                               ("bakkesmod_dir", "D:\bm")]))
  = [Assign "download_dir" "D:\a=b"; Assign "bakkesmod_dir" "D:\bm"].
Proof.
  apply (classify_render_file [("download_dir", "D:\a=b");
                               ("bakkesmod_dir", "D:\bm")]).
  intros k v [E | [E | []]]; injection E as <- <-; split; reflexivity.
Defined.

(** X6 at work: [notes.zip] is newer than the plugin archive lying beside
    it. *)
Lemma downloadPlugins_keeps_polling_witness :
  In "D:\dl\RocketPlugin_v1.zip" (glob_zip Scenes.hidden "D:\dl")
  /\ fst (downloadPlugins 4 "D:\dl" (Sim.boot Scenes.hidden)) = Blocked.
Proof.
  split; [vm_compute; tauto|].
  rewrite (downloadPlugins_keeps_polling
             Scenes.hidden (settings_default Sim.USERPROFILE Sim.APPDATA)
             [] [] "D:\dl" (fuel:=4)).
  - reflexivity.
  - intros i Hi.
    destruct i as [|[|[|[|i]]]]; try reflexivity. lia.
Defined.

(** X7 at work: the archive returned on [Sim.ready]. *)
Lemma downloadPlugins_returned_witness :
  contains "RocketPlugin_" "D:\dl\RocketPlugin_v2.zip" = true
  /\ "RocketPlugin_v2.zip"
     = replace ("D:\dl" ++ "\") "" "D:\dl\RocketPlugin_v2.zip".
Proof.
  assert (E : downloadPlugins 3 "D:\dl" (Sim.boot Sim.ready)
              = (Ok ("RocketPlugin_v2.zip", "D:\dl\RocketPlugin_v2.zip"),
                 snd (downloadPlugins 3 "D:\dl" (Sim.boot Sim.ready))))
    by (vm_compute; reflexivity).
  destruct (@downloadPlugins_returned _ _ _ _ _ _ _ _ _ _ _ E)
    as (_ & _ & Hc & Hf & _).
  split; assumption.
Defined.

(** X10 at work: on [Sim.lost_bakkesmod] both auxiliary files are there and
    the settings cannot be resolved. *)
Lemma main_stops_at_unresolved_settings_witness :
  let out := main 3 "Thread-2" (Sim.boot Sim.lost_bakkesmod) in
  fst out = Ok tt
  /\ world (snd out) = Sim.lost_bakkesmod
  /\ trace (snd out)
     = [EvAfterIdleUpdate progress_step;
        EvShowError "Could not resolve settings!";
        EvShowError general_error;
        EvQuit].
Proof.
  apply (main_stops_at_unresolved_settings
           Sim.lost_bakkesmod (settings_default Sim.USERPROFILE Sim.APPDATA)
           [] [] 3 "Thread-2"); reflexivity.
Defined.

(** X11 at work: the archive in capitals is taken for its own extraction
    directory. *)
Lemma unzipPlugins_skips_archive_without_zip_witness :
  file_dir_of "D:\dl\RocketPlugin_v2.ZIP" = "D:\dl\RocketPlugin_v2.ZIP"
  /\ trace (snd (unzipPlugins (file_dir_of "D:\dl\RocketPlugin_v2.ZIP")
                              (Sim.boot Scenes.capitals)))
     = [].
Proof.
  assert (Hc : contains ".zip" "D:\dl\RocketPlugin_v2.ZIP" = false)
    by reflexivity.
  assert (Hex : path_exists (world (Sim.boot Scenes.capitals))
                            "D:\dl\RocketPlugin_v2.ZIP" = true)
    by reflexivity.
  destruct (@unzipPlugins_skips_archive_without_zip
              _ _ (Sim.boot Scenes.capitals) "D:\dl\RocketPlugin_v2.ZIP"
              Hc Hex) as [E U].
  split; [exact E|]. rewrite U. reflexivity.
Defined.

(** X12 at work. *)
Lemma file_dir_of_strips_final_extension_witness :
  file_dir_of ("D:\dl\RocketPlugin_v2" ++ ".zip") = "D:\dl\RocketPlugin_v2".
Proof.
  apply (file_dir_of_strips_final_extension "D:\dl\RocketPlugin_v2").
  reflexivity.
Defined.

(** X13 at work: the run on [Sim.ready] shows the success dialog. *)
Lemma main_success_effects_witness :
  exists download_dir bakkesmod_dir zipped_file_dir n helper names,
    contains "RocketPlugin_" zipped_file_dir = true
    /\ trace (snd (main 3 "Thread-2" (Sim.boot Sim.ready)))
       = success_effects download_dir bakkesmod_dir zipped_file_dir
           (S n) helper names.
Proof.
  assert (HI : In (EvShowInfo "Plugins were updated Successfully!")
                  (trace (snd (main 3 "Thread-2" (Sim.boot Sim.ready)))))
    by (vm_compute; tauto).
  destruct (@main_success_effects
              _ _ Sim.ready (settings_default Sim.USERPROFILE Sim.APPDATA)
              [] 3 "Thread-2" HI)
    as (download_dir & bakkesmod_dir & zipped & n & names & H).
  cbv zeta in H.
  exists download_dir, bakkesmod_dir, zipped, n,
    (negb (path_exists (Nat.iter n elapse (popen Sim.ready start_browser))
                       (file_dir_of zipped))), names.
  split; apply H.
Defined.
